(** * Pramana: the Bedrock analysis Lambda

    A shallow embedding of [bedrock_lambda_function.py]: the two KPI queries
    ([fetch_district_kpis], [fetch_at_risk_students]), prompt construction
    ([create_bedrock_prompt]), the inference call ([invoke_bedrock]), report
    persistence ([save_to_s3]) and the entry point ([lambda_handler]).

    The database, the Bedrock runtime, S3 and the clock are outside the
    program.  They appear as the fields of a [world]: what each of them
    answers when the program calls it.  Calls are recorded in a [state] that
    is threaded through the program, and Python exceptions are the [Raise]
    results of a small state-and-exception monad.

    What is left out: the lines printed to standard output, and the text of
    the response body, which is kept as the document handed to
    [json.dumps].

    The program is described in two steps.  First on the values it is
    written for: an event whose values are [None], booleans, integers or
    strings, and rows whose cells are NULL, text or floats, all of which
    [dict.get] and [json.dumps] accept.  Then, in [Runtime], on everything
    the runtime can hand it: lists and dicts in the event, which no dict
    can look up, and [decimal.Decimal] in the rows, which [json.dumps]
    refuses.  The requests of one [invoke_model] call, which the client
    repeats after a transient failure, are described with
    [client_invoke_model]. *)

From Stdlib Require Import Ascii String QArith Qround Lqa.
From stdpp Require Import gmap strings list pretty.

Open Scope string_scope.
Open Scope Z_scope.

(** ** Text *)

Definition newline : string := String "010"%char EmptyString.
Definition dquote : string := String "034"%char EmptyString.

(** [unlines] writes each line followed by a line break, the way the lines of
    a triple-quoted literal sit in the source file. *)
Fixpoint unlines (ls : list string) : string :=
  match ls with
  | [] => EmptyString
  | l :: ls' => l +:+ newline +:+ unlines ls'
  end.

(** [sep.join(parts)] *)
Fixpoint join (sep : string) (parts : list string) : string :=
  match parts with
  | [] => EmptyString
  | [p] => p
  | p :: ps => p +:+ sep +:+ join sep ps
  end.

(** ** Python values met by the handler *)

(** The scalars a JSON event carries under its keys: [None], booleans,
    integers and strings.  These are its hashable values; the lists and
    dicts it can carry as well are [Runtime.event_value]s. *)
Inductive pyval :=
| PNone
| PBool (b : bool)
| PInt (z : Z)
| PStr (s : string).

Global Instance pyval_eq_dec : EqDecision pyval.
Proof. solve_decision. Defined.

(** [str(v)], as an f-string formats it. *)
Definition py_str (v : pyval) : string :=
  match v with
  | PNone => "None"
  | PBool true => "True"
  | PBool false => "False"
  | PInt z => pretty z
  | PStr s => s
  end.

(** Truth value of [v] in [if v:]. *)
Definition py_truthy (v : pyval) : bool :=
  match v with
  | PNone => false
  | PBool b => b
  | PInt z => negb (z =? 0)
  | PStr s => negb (String.eqb s EmptyString)
  end.

(** [d.get(k)] on a dict whose keys are all strings, for a scalar [k]: only
    a string can be equal to one of the keys.  For a list or a dict the
    lookup raises instead, see [Runtime.dict_get]. *)
Definition py_dict_get {V} (d : gmap string V) (k : pyval) : option V :=
  match k with
  | PStr s => d !! s
  | _ => None
  end.

(** An exception object: [type(e).__name__] and [str(e)].  Every exception
    of the model is an instance of [Exception]. *)
Record exn := Exn { exc_type : string; exc_msg : string }.

(** A JSON document, as handed to [json.dumps]. *)
#[warnings="-register-all"]
Inductive json :=
| JNull
| JBool (b : bool)
| JInt (z : Z)
| JFloat (q : Q)
| JStr (s : string)
| JObj (fields : list (string * json)).

Definition json_of_pyval (v : pyval) : json :=
  match v with
  | PNone => JNull
  | PBool b => JBool b
  | PInt z => JInt z
  | PStr s => JStr s
  end.

(** First binding of [k] in an object, [None] on anything else. *)
Fixpoint assoc {V} (k : string) (fields : list (string * V)) : option V :=
  match fields with
  | [] => None
  | (k', v) :: rest => if String.eqb k k' then Some v else assoc k rest
  end.

Definition json_get (k : string) (j : json) : option json :=
  match j with
  | JObj fields => assoc k fields
  | _ => None
  end.

(** ** Rows and their serialisation *)

(** A cell of a fetched row: SQL NULL, a text column, or a number that the
    query rounded to two decimals, kept as its count of hundredths.  This is
    the value the query computes; the Python object that carries it, a
    [float] or a [Decimal] by the type of the column, is a
    [Runtime.fetched]. *)
Inductive cell :=
| CNull
| CStr (s : string)
| CNum (hundredths : Z).

(** A row as [DictCursor] returns it: column names in SELECT order. *)
Definition row : Type := list (string * cell).

Definition hex_digit (n : N) : ascii :=
  match n with
  | 0%N => "0" | 1%N => "1" | 2%N => "2" | 3%N => "3" | 4%N => "4"
  | 5%N => "5" | 6%N => "6" | 7%N => "7" | 8%N => "8" | 9%N => "9"
  | 10%N => "a" | 11%N => "b" | 12%N => "c" | 13%N => "d" | 14%N => "e"
  | _ => "f"
  end%char.

(** One character of a string under [json.dumps] (ensure_ascii): quote and
    backslash are escaped, the usual control characters get their short
    form, everything else outside the printable ASCII range becomes
    [\u00xx].  Characters are code points below 256. *)
Definition json_escape_char (c : ascii) : string :=
  let n := N_of_ascii c in
  if (n =? 34)%N then "\" +:+ dquote
  else if (n =? 92)%N then "\\"
  else if (n =? 10)%N then "\n"
  else if (n =? 13)%N then "\r"
  else if (n =? 9)%N then "\t"
  else if (n =? 8)%N then "\b"
  else if (n =? 12)%N then "\f"
  else if ((n <? 32) || (126 <? n))%N then
    "\u00" +:+ String (hex_digit (n / 16)) (String (hex_digit (n mod 16)) EmptyString)
  else String c EmptyString.

Fixpoint json_escape (s : string) : string :=
  match s with
  | EmptyString => EmptyString
  | String c s' => json_escape_char c +:+ json_escape s'
  end.

Definition json_string (s : string) : string :=
  dquote +:+ json_escape s +:+ dquote.

(** [repr] of the float nearest to [h/100]: the integer part, a point, and
    one or two decimals (92.5, 71.0, 40.25).  This is the shortest form that
    reads back as the same float while the value stays below 1e15. *)
Definition float_repr_hundredths (h : Z) : string :=
  let a := Z.abs h in
  let frac := a mod 100 in
  (if h <? 0 then "-" else EmptyString)
  +:+ pretty (a / 100) +:+ "."
  +:+ (if frac mod 10 =? 0 then pretty (frac / 10)
       else pretty (frac / 10) +:+ pretty (frac mod 10)).

(** A cell under [json.dumps], its number carried by a [float]. *)
Definition json_dumps_cell (c : cell) : string :=
  match c with
  | CNull => "null"
  | CStr s => json_string s
  | CNum h => float_repr_hundredths h
  end.

(** A dict at nesting depth 1 of [json.dumps(data, indent=2)]. *)
Definition json_dumps_row (r : row) : string :=
  match r with
  | [] => "{}"
  | _ =>
    "{" +:+ newline
    +:+ join ("," +:+ newline)
          (map (fun kv => "    " +:+ json_string kv.1 +:+ ": " +:+ json_dumps_cell kv.2) r)
    +:+ newline +:+ "  }"
  end.

(** [json.dumps(data, indent=2)] for a list of rows. *)
Definition json_dumps_indent2 (data : list row) : string :=
  match data with
  | [] => "[]"
  | _ =>
    "[" +:+ newline
    +:+ join ("," +:+ newline) (map (fun r => "  " +:+ json_dumps_row r) data)
    +:+ newline +:+ "]"
  end.

(** ** The queries *)

(** A numeric SQL expression is a nullable exact number.  Arithmetic is
    exact; the scale MySQL keeps for intermediate results is not modelled. *)

(** [COALESCE(x, 0)] *)
Definition COALESCE0 (x : option Q) : option Q := Some (default 0%Q x).

(** Nearest integer, ties away from zero: MySQL's rounding of exact-value
    numbers. *)
Definition round_half_away (q : Q) : Z :=
  if Qle_bool 0 q then Qfloor (q + (1 # 2)) else - Qfloor (- q + (1 # 2)).

(** [ROUND(x, 2)], in hundredths; NULL stays NULL. *)
Definition ROUND2 (x : option Q) : option Z :=
  (fun q => round_half_away (q * 100)%Q) <$> x.

Definition cell_of_num (x : option Z) : cell :=
  match x with Some h => CNum h | None => CNull end.

Definition cell_of_text (x : option string) : cell :=
  match x with Some s => CStr s | None => CNull end.

(** One row of [district d JOIN state s LEFT JOIN ...]: the columns the
    SELECT list of [fetch_district_kpis] reads.  The KPI views are joined
    with LEFT JOIN, so each of their columns may be NULL. *)
Record district_join_row := {
  d_district_name : option string;
  s_state_name : option string;
  c_district_performance_index : option Q;
  sa_attendance_percentage : option Q;
  ep_pass_percentage : option Q;
  sp_sports_participation_rate : option Q;
  ae_activity_engagement_rate : option Q;
  ta_teacher_attendance_percentage : option Q;
  i_avg_inspection_score : option Q
}.

(** The SELECT list of [fetch_district_kpis]. *)
Definition select_district_kpis (j : district_join_row) : row :=
  [ ("district_name", cell_of_text (d_district_name j));
    ("state_name", cell_of_text (s_state_name j));
    ("performance_index", cell_of_num (ROUND2 (COALESCE0 (c_district_performance_index j))));
    ("student_attendance", cell_of_num (ROUND2 (COALESCE0 (sa_attendance_percentage j))));
    ("pass_rate", cell_of_num (ROUND2 (COALESCE0 (ep_pass_percentage j))));
    ("sports_participation", cell_of_num (ROUND2 (COALESCE0 (sp_sports_participation_rate j))));
    ("activity_engagement", cell_of_num (ROUND2 (COALESCE0 (ae_activity_engagement_rate j))));
    ("teacher_attendance", cell_of_num (ROUND2 (COALESCE0 (ta_teacher_attendance_percentage j))));
    ("inspection_score", cell_of_num (ROUND2 (COALESCE0 (i_avg_inspection_score j)))) ].

(** The query of [fetch_district_kpis] over the joined rows, which arrive in
    the order of its ORDER BY clause. *)
Definition district_kpis_query (joined : list district_join_row) : list row :=
  map select_district_kpis joined.

(** One row of a student's group in [fetch_at_risk_students]: the columns of
    the two LEFT JOINed tables that the aggregates read. *)
Record student_join_row := {
  er_marks_obtained : option Q;
  sa_attendance_id : option Z;
  sa_status : option string
}.

(** One GROUP BY s.student_id group of active students. *)
Record student_group := {
  s_student_name : option string;
  s_gender : option string;
  sc_school_name : option string;
  g_district_name : option string;
  group_rows : list student_join_row
}.

(** [AVG(x)]: the mean of the non-NULL values, NULL when there is none. *)
Definition SQL_AVG (xs : list (option Q)) : option Q :=
  match omap id xs with
  | [] => None
  | vs => Some (foldr Qplus 0%Q vs / inject_Z (Z.of_nat (length vs)))%Q
  end.

(** [COUNT(x)]: the number of non-NULL values. *)
Definition SQL_COUNT {A} (xs : list (option A)) : Z :=
  Z.of_nat (length (omap id xs)).

(** [CASE WHEN sa.status = 'Present' THEN 1 END] *)
Definition case_present (r : student_join_row) : option Z :=
  match sa_status r with
  | Some s => if String.eqb s "Present" then Some 1 else None
  | None => None
  end.

(** [NULLIF(x, 0)] *)
Definition NULLIF0 (x : Z) : option Z := if x =? 0 then None else Some x.

(** [COUNT(CASE ...) * 100.0 / NULLIF(COUNT(sa.attendance_id), 0)] *)
Definition attendance_ratio (g : student_group) : option Q :=
  match NULLIF0 (SQL_COUNT (map sa_attendance_id (group_rows g))) with
  | Some total =>
    Some (inject_Z (SQL_COUNT (map case_present (group_rows g))) * 100 / inject_Z total)%Q
  | None => None
  end.

(** The SELECT list of [fetch_at_risk_students]. *)
Definition select_at_risk_students (g : student_group) : row :=
  [ ("student_name", cell_of_text (s_student_name g));
    ("gender", cell_of_text (s_gender g));
    ("school_name", cell_of_text (sc_school_name g));
    ("district_name", cell_of_text (g_district_name g));
    ("avg_marks", cell_of_num (ROUND2 (SQL_AVG (map er_marks_obtained (group_rows g)))));
    ("attendance_pct", cell_of_num (ROUND2 (attendance_ratio g))) ].

(** [x < c] on a selected column: NULL when the column is NULL. *)
Definition sql_lt (c : option cell) (bound : Z) : option bool :=
  match c with
  | Some (CNum h) => Some (h <? bound)
  | _ => None
  end.

(** SQL's three-valued OR. *)
Definition sql_or (a b : option bool) : option bool :=
  match a, b with
  | Some true, _ | _, Some true => Some true
  | Some false, Some false => Some false
  | _, _ => None
  end.

(** [HAVING avg_marks < 60 OR attendance_pct < 70]: a row is kept when the
    condition is TRUE. *)
Definition having_at_risk (r : row) : bool :=
  match sql_or (sql_lt (assoc "avg_marks" r) 6000) (sql_lt (assoc "attendance_pct" r) 7000) with
  | Some true => true
  | _ => false
  end.

(** The query of [fetch_at_risk_students] over the groups, which arrive in
    the order of its ORDER BY clause: SELECT, HAVING, LIMIT 20. *)
Definition at_risk_students_query (groups : list student_group) : list row :=
  firstn 20 (filter (fun r => having_at_risk r = true) (map select_at_risk_students groups)).

(** ** The world outside the program *)

(** The body [invoke_bedrock] sends: [modelId] and the fields of the JSON
    request, its single user message given by its content. *)
Record bedrock_request := {
  modelId : string;
  anthropic_version : string;
  max_tokens : Z;
  user_content : string;
  temperature : Q;
  top_p : Q
}.

(** The ways the inference provider can fail, as the specification of the
    gateway sorts them.  For the Bedrock client: [Timeout] is a read or
    connect timeout or a dropped connection, [RateLimited] a throttling
    answer (HTTP 429), [BackendError5xx] an answer with status 500, 502, 503
    or 504; [MalformedRequest] is a validation error (HTTP 400), [AuthError]
    a refused credential (HTTP 403), [ContentRejected] a request the service
    declines for its content. *)
Inductive provider_failure :=
| Timeout | RateLimited | BackendError5xx
| MalformedRequest | AuthError | ContentRejected.

(** The failures botocore's retry handler sends again. *)
Definition transient (k : provider_failure) : bool :=
  match k with
  | Timeout | RateLimited | BackendError5xx => true
  | MalformedRequest | AuthError | ContentRejected => false
  end.

(** What one [bedrock.invoke_model] call leads to, and likewise one attempt
    of such a call:
    - [Completed text]: the response parses and [content[0].text] is [text];
    - [Malformed e]: a response arrives, but reading, parsing or indexing it
      raises [e];
    - [Failed k e]: the call itself raises [e], a failure of kind [k]. *)
Inductive provider_outcome :=
| Completed (text : string)
| Malformed (e : exn)
| Failed (k : provider_failure) (e : exn).

Record s3_request := {
  Bucket : string;
  Key : string;
  Body : json;
  ContentType : string
}.

(** A reading of the clock: microseconds since the epoch, with the two
    renderings the program asks for, [strftime('%Y%m%d_%H%M%S')] and
    [isoformat()]. *)
Record datetime := {
  dt_micros : Z;
  dt_strftime : string;
  dt_isoformat : string
}.

Record world := {
  (** rows of the district join, or what connecting, executing or closing
      raises *)
  db_district_join : exn + list district_join_row;
  (** groups of the student join, likewise *)
  db_student_groups : exn + list student_group;
  (** the S3_BUCKET setting *)
  S3_BUCKET : string;
  (** the outcome of the n-th [invoke_model] call (from 0) on a request,
      whatever attempts the client made for it *)
  bedrock_invoke_model : nat -> bedrock_request -> provider_outcome;
  (** what the n-th [put_object] call raises, if anything *)
  s3_put_object : nat -> s3_request -> option exn;
  (** the n-th reading of [datetime.now()] *)
  clock : nat -> datetime
}.

(** What the program has done to the world so far. *)
Record state := {
  clock_reads : nat;
  bedrock_calls : list bedrock_request;
  s3_calls : list s3_request
}.

Definition initial_state : state :=
  {| clock_reads := 0; bedrock_calls := []; s3_calls := [] |}.

(** ** Computations that touch the world and may raise *)

Inductive result (A : Type) :=
| Ok (a : A)
| Raise (e : exn).
Arguments Ok {A} a.
Arguments Raise {A} e.

Definition M (A : Type) : Type := state -> result A * state.

Definition ret {A} (a : A) : M A := fun st => (Ok a, st).

Definition raise {A} (e : exn) : M A := fun st => (Raise e, st).

Definition bind {A B} (c : M A) (k : A -> M B) : M B :=
  fun st =>
    match c st with
    | (Ok a, st') => k a st'
    | (Raise e, st') => (Raise e, st')
    end.

(** [try: c  except Exception as e: handler(e)] *)
Definition try_except {A} (c : M A) (handler : exn -> M A) : M A :=
  fun st =>
    match c st with
    | (Ok a, st') => (Ok a, st')
    | (Raise e, st') => handler e st'
    end.

Notation "'let!' x ':=' c 'in' k" := (bind c (fun x => k))
  (at level 10, x name, c at level 200, k at level 200,
   format "'[v' 'let!'  x  ':='  c  'in' '/' k ']'").

(** ** Prompt templates *)

(** Each template is an f-string: the lines before [{data_json}] and the
    lines after it. *)

Definition comprehensive_head : list string :=
  [ EmptyString;
    "You are an expert education data analyst for government schools in India.";
    EmptyString;
    "Analyze this district performance data:";
    EmptyString ].

Definition comprehensive_tail : list string :=
  [ EmptyString;
    EmptyString;
    "Provide a comprehensive analysis including:";
    EmptyString;
    "1. EXECUTIVE SUMMARY";
    "   - Overall state of districts (2-3 sentences)";
    "   - Key finding";
    EmptyString;
    "2. TOP PERFORMERS";
    "   - List top 3 districts";
    "   - What makes them successful?";
    "   - Common success patterns";
    EmptyString;
    "3. UNDERPERFORMERS";
    "   - List bottom 3 districts";
    "   - What are their main issues?";
    "   - Root causes";
    EmptyString;
    "4. KEY INSIGHTS";
    "   - Correlation between KPIs";
    "   - Surprising patterns";
    "   - Critical observations";
    EmptyString;
    "5. RECOMMENDATIONS";
    "   - 5 specific, actionable recommendations";
    "   - Priority level (High/Medium/Low)";
    "   - Expected impact";
    "   - Timeline for implementation";
    EmptyString;
    "Format with clear sections and bullet points." ].

Definition at_risk_head : list string :=
  [ EmptyString;
    "Analyze these at-risk districts (performance index < 60):";
    EmptyString ].

Definition at_risk_tail : list string :=
  [ EmptyString;
    EmptyString;
    "For each district:";
    "1. RISK LEVEL: High/Medium/Low";
    "2. PRIMARY ISSUES: What's causing poor performance?";
    "3. IMMEDIATE ACTIONS: What to do in next 30 days?";
    "4. MEDIUM-TERM PLAN: 3-6 month improvement strategy";
    "5. RESOURCES NEEDED: Budget, staff, infrastructure";
    EmptyString;
    "Prioritize by urgency and feasibility." ].

Definition quick_summary_head : list string :=
  [ EmptyString;
    "Provide a brief summary of district performance:";
    EmptyString ].

Definition quick_summary_tail : list string :=
  [ EmptyString;
    EmptyString;
    "Include:";
    "- Overall state (1 sentence)";
    "- Top 3 performers";
    "- Bottom 3 performers  ";
    "- One key recommendation";
    EmptyString;
    "Keep it concise (under 200 words)." ].

Definition at_risk_students_head : list string :=
  [ EmptyString;
    "Analyze these at-risk students:";
    EmptyString ].

Definition at_risk_students_tail : list string :=
  [ EmptyString;
    EmptyString;
    "For each student or group:";
    "1. RISK ASSESSMENT: High/Medium/Low risk level";
    "2. RISK FACTORS: What's causing the issues?";
    "3. INTERVENTION PLAN: Specific actions to take";
    "4. TIMELINE: When to implement interventions";
    "5. SUCCESS METRICS: How to measure improvement";
    EmptyString;
    "Prioritize students by risk level." ].

Definition predictive_head : list string :=
  [ EmptyString;
    "Based on this current performance data:";
    EmptyString ].

Definition predictive_tail : list string :=
  [ EmptyString;
    EmptyString;
    "Provide predictive analysis:";
    "1. TRENDS: Which districts are improving/declining?";
    "2. PREDICTIONS: Expected performance next quarter";
    "3. EARLY WARNINGS: Signs of potential problems";
    "4. OPPORTUNITIES: Districts ready for breakthrough";
    "5. PREVENTIVE ACTIONS: What to do now to improve outcomes";
    EmptyString;
    "Use data-driven reasoning." ].

(** An f-string template with [data_json] put in its place. *)
Definition fill (head tail : list string) (data_json : string) : string :=
  unlines head +:+ data_json +:+ unlines tail.

(** The [prompts] dict of [create_bedrock_prompt]. *)
Definition prompts (data_json : string) : gmap string string :=
  list_to_map
    [ ("comprehensive", fill comprehensive_head comprehensive_tail data_json);
      ("at_risk", fill at_risk_head at_risk_tail data_json);
      ("quick_summary", fill quick_summary_head quick_summary_tail data_json);
      ("at_risk_students", fill at_risk_students_head at_risk_students_tail data_json);
      ("predictive", fill predictive_head predictive_tail data_json) ].

(** [create_bedrock_prompt] on rows that [json.dumps] accepts and a scalar
    analysis type; [Runtime.create_bedrock_prompt] is the function with its
    two ways to raise. *)
Definition create_bedrock_prompt (data : list row) (analysis_type : pyval) : string :=
  let data_json := json_dumps_indent2 data in
  default (prompts data_json !!! "comprehensive")
          (py_dict_get (prompts data_json) analysis_type).

(** ** The program *)

(** The [models] dict of [lambda_handler]. *)
Definition models : gmap string string :=
  list_to_map
    [ ("sonnet", "anthropic.claude-3-sonnet-20240229-v1:0");
      ("haiku", "anthropic.claude-3-haiku-20240307-v1:0");
      ("claude-2", "anthropic.claude-v2:1") ].

(** The value a handler invocation returns. *)
Record response := {
  statusCode : Z;
  headers : option (list (string * string));
  (** the document that [json.dumps] turns into the body text *)
  body : json
}.

Definition json_of_path (p : option string) : json :=
  match p with Some s => JStr s | None => JNull end.

(** [(t1 - t0).total_seconds()] *)
Definition total_seconds (t0 t1 : datetime) : Q :=
  (dt_micros t1 - dt_micros t0) # 1000000.

(** The request [invoke_bedrock] builds for a prompt and a model. *)
Definition inference_request (prompt model_id : string) : bedrock_request :=
  {| modelId := model_id;
     anthropic_version := "bedrock-2023-05-31";
     max_tokens := 2000;
     user_content := prompt;
     temperature := 7 # 10;
     top_p := 9 # 10 |}.

Section Program.

Variable w : world.

(** [datetime.now()] *)
Definition now : M datetime :=
  fun st =>
    (Ok (clock w (clock_reads st)),
     {| clock_reads := S (clock_reads st);
        bedrock_calls := bedrock_calls st;
        s3_calls := s3_calls st |}).

Definition fetch_district_kpis : M (list row) :=
  match db_district_join w with
  | inl e => raise e
  | inr joined => ret (district_kpis_query joined)
  end.

Definition fetch_at_risk_students : M (list row) :=
  match db_student_groups w with
  | inl e => raise e
  | inr groups => ret (at_risk_students_query groups)
  end.

(** [bedrock.invoke_model(modelId=..., body=...)] followed by the parsing of
    the response: the call is recorded, then its outcome is returned or
    raised.  The call is the program's; the requests the client sends for
    it are those of [client_invoke_model]. *)
Definition bedrock_invoke (req : bedrock_request) : M string :=
  fun st =>
    let st' := {| clock_reads := clock_reads st;
                  bedrock_calls := bedrock_calls st ++ [req];
                  s3_calls := s3_calls st |} in
    match bedrock_invoke_model w (length (bedrock_calls st)) req with
    | Completed text => (Ok text, st')
    | Malformed e => (Raise e, st')
    | Failed _ e => (Raise e, st')
    end.

Definition invoke_bedrock (prompt : string) (model_id : string) : M string :=
  let! analysis_text := bedrock_invoke (inference_request prompt model_id) in
  ret analysis_text.

(** [s3.put_object(...)] *)
Definition s3_put (req : s3_request) : M unit :=
  fun st =>
    let st' := {| clock_reads := clock_reads st;
                  bedrock_calls := bedrock_calls st;
                  s3_calls := s3_calls st ++ [req] |} in
    match s3_put_object w (length (s3_calls st)) req with
    | None => (Ok tt, st')
    | Some e => (Raise e, st')
    end.

Definition save_to_s3 (analysis : string) (analysis_type : pyval) (metadata : json)
  : M (option string) :=
  try_except
    (let! t_key := now in
     let key := "reports/" +:+ py_str analysis_type +:+ "/" +:+ dt_strftime t_key +:+ ".json" in
     let! t_report := now in
     let report := JObj [ ("timestamp", JStr (dt_isoformat t_report));
                          ("analysis_type", json_of_pyval analysis_type);
                          ("metadata", metadata);
                          ("analysis", JStr analysis) ] in
     let! _ := s3_put {| Bucket := S3_BUCKET w;
                    Key := key;
                    Body := report;
                    ContentType := "application/json" |} in
     let s3_path := "s3://" +:+ S3_BUCKET w +:+ "/" +:+ key in
     ret (Some s3_path))
    (fun e => ret None).

(** The part of [lambda_handler] that follows the fetch. *)
Definition analyse (start_time : datetime) (analysis_type model_choice save_s3 : pyval)
    (model_id : string) (data : list row) : M response :=
  let prompt := create_bedrock_prompt data analysis_type in
  let! analysis := invoke_bedrock prompt model_id in
  let! t_done := now in
  let execution_time := total_seconds start_time t_done in
  let metadata := JObj [ ("model", json_of_pyval model_choice);
                         ("model_id", JStr model_id);
                         ("records_analyzed", JInt (Z.of_nat (length data)));
                         ("execution_time_seconds", JFloat execution_time) ] in
  let! s3_path := (if py_truthy save_s3
              then save_to_s3 analysis analysis_type metadata
              else ret None) in
  let! t_stamp := now in
  ret {| statusCode := 200;
         headers := Some [ ("Content-Type", "application/json");
                           ("Access-Control-Allow-Origin", "*") ];
         body := JObj [ ("timestamp", JStr (dt_isoformat t_stamp));
                        ("analysis_type", json_of_pyval analysis_type);
                        ("metadata", metadata);
                        ("s3_path", json_of_path s3_path);
                        ("analysis", JStr analysis) ] |}.

Definition lambda_handler (event : gmap string pyval) : M response :=
  let! start_time := now in
  try_except
    (let analysis_type := default (PStr "comprehensive") (event !! "analysis_type") in
     let model_choice := default (PStr "sonnet") (event !! "model") in
     let save_s3 := default (PBool true) (event !! "save_to_s3") in
     let model_id := default (models !!! "sonnet") (py_dict_get models model_choice) in
     if decide (analysis_type = PStr "at_risk_students") then
       let! data := fetch_at_risk_students in
       match data with
       | [] =>
         ret {| statusCode := 200;
                headers := None;
                body := JObj [ ("message", JStr "No at-risk students identified");
                               ("analysis", JStr "All students are performing well!") ] |}
       | _ => analyse start_time analysis_type model_choice save_s3 model_id data
       end
     else
       let! data := fetch_district_kpis in
       analyse start_time analysis_type model_choice save_s3 model_id data)
    (fun e =>
       ret {| statusCode := 500;
              headers := None;
              body := JObj [ ("error", JStr (exc_msg e));
                             ("error_type", JStr (exc_type e)) ] |}).

End Program.

(** ** Vocabulary for the statements *)

(** The three parameters as [lambda_handler] reads them from the event. *)
Definition requested_analysis_type (event : gmap string pyval) : pyval :=
  default (PStr "comprehensive") (event !! "analysis_type").

Definition requested_model (event : gmap string pyval) : pyval :=
  default (PStr "sonnet") (event !! "model").

Definition requested_save (event : gmap string pyval) : pyval :=
  default (PBool true) (event !! "save_to_s3").

Definition resolve_model (model_choice : pyval) : string :=
  default (models !!! "sonnet") (py_dict_get models model_choice).

(** What the fetch chosen for an analysis type delivers. *)
Definition dataset (w : world) (analysis_type : pyval) : exn + list row :=
  if decide (analysis_type = PStr "at_risk_students") then
    match db_student_groups w with
    | inl e => inl e
    | inr groups => inr (at_risk_students_query groups)
    end
  else
    match db_district_join w with
    | inl e => inl e
    | inr joined => inr (district_kpis_query joined)
    end.

(** The empty at-risk-students result, which the handler answers itself. *)
Definition short_circuits (analysis_type : pyval) (data : list row) : bool :=
  bool_decide (analysis_type = PStr "at_risk_students")
  && match data with [] => true | _ => false end.

(** The request a run sends for its analysis type, model and dataset. *)
Definition run_request (event : gmap string pyval) (data : list row) : bedrock_request :=
  inference_request (create_bedrock_prompt data (requested_analysis_type event))
                    (resolve_model (requested_model event)).

(** [metadata.record_count] of an envelope; the handler's key for it is
    [records_analyzed]. *)
Definition metadata_record_count (r : response) : option json :=
  match json_get "metadata" (body r) with
  | Some m => json_get "records_analyzed" m
  | None => None
  end.

(** The provider calls and the S3 writes a run adds to the record. *)
Definition new_bedrock_calls (before after : state) : list bedrock_request :=
  drop (length (bedrock_calls before)) (bedrock_calls after).

Definition new_s3_calls (before after : state) : list s3_request :=
  drop (length (s3_calls before)) (s3_calls after).

(** A result envelope: a success carrying an analysis text, or a failure
    carrying exactly an error message and an error kind. *)
Definition well_formed_envelope (r : response) : Prop :=
  (statusCode r = 200 /\ exists text, json_get "analysis" (body r) = Some (JStr text))
  \/ (statusCode r = 500 /\
      exists msg kind, body r = JObj [("error", JStr msg); ("error_type", JStr kind)]).

(** The state after one more reading of the clock. *)
Definition tick (st : state) : state :=
  {| clock_reads := S (clock_reads st);
     bedrock_calls := bedrock_calls st;
     s3_calls := s3_calls st |}.

(** The state after one more provider call. *)
Definition called (req : bedrock_request) (st : state) : state :=
  {| clock_reads := clock_reads st;
     bedrock_calls := bedrock_calls st ++ [req];
     s3_calls := s3_calls st |}.

(** The state after [save_to_s3]: two clock readings and one write. *)
Definition after_save (req : s3_request) (st : state) : state :=
  {| clock_reads := S (S (clock_reads st));
     bedrock_calls := bedrock_calls st;
     s3_calls := s3_calls st ++ [req] |}.

(** The envelope of the handler's [except] branch. *)
Definition failure_envelope (e : exn) : response :=
  {| statusCode := 500;
     headers := None;
     body := JObj [("error", JStr (exc_msg e)); ("error_type", JStr (exc_type e))] |}.

(** The envelope of the empty at-risk-students result. *)
Definition no_risk_envelope : response :=
  {| statusCode := 200;
     headers := None;
     body := JObj [ ("message", JStr "No at-risk students identified");
                    ("analysis", JStr "All students are performing well!") ] |}.

(** The [metadata] dict of a run. *)
Definition run_metadata (model_choice : pyval) (model_id : string) (data : list row)
    (execution_time : Q) : json :=
  JObj [ ("model", json_of_pyval model_choice);
         ("model_id", JStr model_id);
         ("records_analyzed", JInt (Z.of_nat (length data)));
         ("execution_time_seconds", JFloat execution_time) ].

(** The envelope of a completed analysis. *)
Definition success_envelope (t_stamp : datetime) (analysis_type : pyval) (metadata : json)
    (s3_path : option string) (analysis : string) : response :=
  {| statusCode := 200;
     headers := Some [ ("Content-Type", "application/json");
                       ("Access-Control-Allow-Origin", "*") ];
     body := JObj [ ("timestamp", JStr (dt_isoformat t_stamp));
                    ("analysis_type", json_of_pyval analysis_type);
                    ("metadata", metadata);
                    ("s3_path", json_of_path s3_path);
                    ("analysis", JStr analysis) ] |}.

(** The write [save_to_s3] attempts from state [st]. *)
Definition report_request (w : world) (analysis : string) (analysis_type : pyval)
    (metadata : json) (st : state) : s3_request :=
  {| Bucket := S3_BUCKET w;
     Key := "reports/" +:+ py_str analysis_type +:+ "/"
            +:+ dt_strftime (clock w (clock_reads st)) +:+ ".json";
     Body := JObj [ ("timestamp", JStr (dt_isoformat (clock w (S (clock_reads st)))));
                    ("analysis_type", json_of_pyval analysis_type);
                    ("metadata", metadata);
                    ("analysis", JStr analysis) ];
     ContentType := "application/json" |}.

(** The five templates, each as its lines before and after the data. *)
Definition templates : list (list string * list string) :=
  [ (comprehensive_head, comprehensive_tail);
    (at_risk_head, at_risk_tail);
    (quick_summary_head, quick_summary_tail);
    (at_risk_students_head, at_risk_students_tail);
    (predictive_head, predictive_tail) ].

(** The columns each query declares as numbers. *)
Definition district_numeric_fields : list string :=
  [ "performance_index"; "student_attendance"; "pass_rate"; "sports_participation";
    "activity_engagement"; "teacher_attendance"; "inspection_score" ].

Definition at_risk_numeric_fields : list string := [ "avg_marks"; "attendance_pct" ].

(** Each numeric column of the district query with the column it is
    computed from. *)
Definition district_numeric_sources (j : district_join_row) : list (string * option Q) :=
  [ ("performance_index", c_district_performance_index j);
    ("student_attendance", sa_attendance_percentage j);
    ("pass_rate", ep_pass_percentage j);
    ("sports_participation", sp_sports_participation_rate j);
    ("activity_engagement", ae_activity_engagement_rate j);
    ("teacher_attendance", ta_teacher_attendance_percentage j);
    ("inspection_score", i_avg_inspection_score j) ].

(** Each numeric column of the at-risk-students query with the aggregate it
    is computed from. *)
Definition at_risk_numeric_sources (g : student_group) : list (string * option Q) :=
  [ ("avg_marks", SQL_AVG (map er_marks_obtained (group_rows g)));
    ("attendance_pct", attendance_ratio g) ].

(** ** Stubs *)

Definition utc (n : nat) : datetime :=
  {| dt_micros := 1767225600000000 + 250000 * Z.of_nat n;
     dt_strftime := "20260101_00000" +:+ pretty n;
     dt_isoformat := "2026-01-01T00:00:0" +:+ pretty n |}.

Definition district (name : string) (index : Q) : district_join_row :=
  {| d_district_name := Some name;
     s_state_name := Some "Karnataka";
     c_district_performance_index := Some index;
     sa_attendance_percentage := Some (883 # 10)%Q;
     ep_pass_percentage := None;
     sp_sports_participation_rate := Some (40255 # 1000)%Q;
     ae_activity_engagement_rate := None;
     ta_teacher_attendance_percentage := Some (95 # 1)%Q;
     i_avg_inspection_score := None |}.

Definition three_districts : list district_join_row :=
  [ district "Mysuru" (925 # 10); district "Hassan" (71 # 1); district "Kolar" (4025 # 100) ].

(** A world whose database holds [three_districts] and the given student
    groups, with the given provider and sink behaviour. *)
Definition stub_world (groups : list student_group)
    (provider : nat -> bedrock_request -> provider_outcome)
    (sink : nat -> s3_request -> option exn) : world :=
  {| db_district_join := inr three_districts;
     db_student_groups := inr groups;
     S3_BUCKET := "school-monitoring-reports";
     bedrock_invoke_model := provider;
     s3_put_object := sink;
     clock := utc |}.

(** A provider that fails with a timeout on its first [n] calls and then
    completes; read by attempts, a service that times out on the first [n]
    attempts of a call. *)
Definition timeouts_then_ok (n : nat) : nat -> bedrock_request -> provider_outcome :=
  fun i _ =>
    if (i <? n)%nat then Failed Timeout (Exn "ReadTimeoutError" "Read timeout on endpoint URL")
    else Completed "Districts are improving.".

Definition always_ok : nat -> bedrock_request -> provider_outcome :=
  timeouts_then_ok 0.

Definition sink_ok : nat -> s3_request -> option exn := fun _ _ => None.

Definition sink_down : nat -> s3_request -> option exn :=
  fun _ _ => Some (Exn "ClientError" "An error occurred (AccessDenied) when calling the PutObject operation").

(** A student with two attendance records, one of them present, and no exam
    result. *)
Definition student_without_exams : student_group :=
  {| s_student_name := Some "Asha";
     s_gender := Some "F";
     sc_school_name := Some "GHS Hunsur";
     g_district_name := Some "Mysuru";
     group_rows :=
       [ {| er_marks_obtained := None; sa_attendance_id := Some 11; sa_status := Some "Present" |};
         {| er_marks_obtained := None; sa_attendance_id := Some 12; sa_status := Some "Absent" |} ] |}.

(** ** The test client

    [test_bedrock_integration.py] calls the deployed function through the
    Lambda service and reads what comes back.  The lines it prints and the
    pauses between its tests are left out. *)

Module TestClient.

(** What [lambda_client.invoke] leads to for a payload: an exception (of the
    call, or of reading and parsing what it returned), or the [StatusCode]
    of the invocation with the parsed payload of the response.  The [body]
    of a payload stands for the document its text holds. *)
Definition transport : Type :=
  gmap string pyval -> state -> (exn + Z * json) * state.

(** The fields [invoke_lambda] reads from a body before it returns it; a
    missing one raises, which ends in the [except] branch. *)
Definition read_success_body (body : json) : option json :=
  _ ← json_get "timestamp" body;
  _ ← json_get "analysis_type" body;
  metadata ← json_get "metadata" body;
  _ ← json_get "records_analyzed" metadata;
  _ ← json_get "model" metadata;
  _ ← json_get "analysis" body;
  Some body.

Definition invoke_lambda (invoke : transport) (analysis_type model : string) (st : state)
  : option json * state :=
  let payload : gmap string pyval :=
    {[ "analysis_type" := PStr analysis_type;
       "model" := PStr model;
       "save_to_s3" := PBool true ]} in
  match invoke payload st with
  | (inl e, st') => (None, st')
  | (inr (status_code, response_payload), st') =>
    if status_code =? 200
    then (json_get "body" response_payload ≫= read_success_body, st')
    else (None, st')
  end.

(** The [tests] of [test_all_analysis_types]. *)
Definition tests : list (string * string) :=
  [ ("quick_summary", "haiku");
    ("comprehensive", "sonnet");
    ("at_risk", "sonnet");
    ("at_risk_students", "haiku") ].

Record test_result := {
  tr_analysis_type : string;
  tr_model : string;
  success : bool
}.

(** The loop of [test_all_analysis_types] over [tests], collecting
    [results]. *)
Fixpoint run_tests (invoke : transport) (tests : list (string * string)) (st : state)
  : list test_result * state :=
  match tests with
  | [] => ([], st)
  | (analysis_type, model) :: rest =>
    let '(result, st1) := invoke_lambda invoke analysis_type model st in
    let '(results, st2) := run_tests invoke rest st1 in
    ({| tr_analysis_type := analysis_type;
        tr_model := model;
        success := bool_decide (is_Some result) |} :: results, st2)
  end.

(** [test_all_analysis_types], by the [results] its summary is printed
    from. *)
Definition test_all_analysis_types (invoke : transport) (st : state)
  : list test_result * state :=
  run_tests invoke tests st.

(** The two numbers of the summary line. *)
Definition success_count (results : list test_result) : nat :=
  length (filter (fun r => success r = true) results).

Definition test_specific_analysis (invoke : transport) (analysis_type model : string)
    (st : state) : state :=
  (invoke_lambda invoke analysis_type model st).2.

(** What [main] does for a command line. *)
Inductive action :=
| RunAll
| ShowLogs
| RunOne (analysis_type model : string)
| UnknownCommand (command : string).

(** The dispatch of [main] on [sys.argv], the script's name first. *)
Definition main (argv : list string) : action :=
  match argv with
  | _ :: command :: rest =>
    if decide (command = "all") then RunAll
    else if decide (command = "logs") then ShowLogs
    else if decide (command ∈ [ "comprehensive"; "at_risk"; "quick_summary";
                                "at_risk_students"; "predictive" ])
    then RunOne command (match rest with model :: _ => model | [] => "sonnet" end)
    else UnknownCommand command
  | _ => RunOne "quick_summary" "haiku"
  end.

End TestClient.

(** The Lambda service with [lambda_handler] deployed in world [w]: a
    synchronous invocation runs the handler on the payload and answers with
    [StatusCode] 200 and, as payload, the dict the handler returned (or the
    error document of an exception that left it). *)
Definition lambda_service (w : world) : TestClient.transport :=
  fun event st =>
    match lambda_handler w event st with
    | (Ok r, st') =>
      (inr (200,
            JObj ([ ("statusCode", JInt (statusCode r)) ]
                  ++ match headers r with
                     | Some hs => [ ("headers", JObj (prod_map id JStr <$> hs)) ]
                     | None => []
                     end
                  ++ [ ("body", body r) ])), st')
    | (Raise e, st') =>
      (inr (200, JObj [ ("errorMessage", JStr (exc_msg e));
                        ("errorType", JStr (exc_type e)) ]), st')
    end.

(** ** The analyzer's prompts

    [SchoolMonitoringAnalyzer] in [llm_analysis_example.py] keeps one
    [prompts] dict per provider.  The data reaches every template as
    [data.to_string()], which is taken as given. *)

Module Analyzer.

Definition openai_district_performance_head : list string :=
  [ EmptyString;
    "You are an expert education data analyst for government schools in India.";
    EmptyString;
    "Analyze this district performance data:";
    EmptyString ].

Definition openai_district_performance_tail : list string :=
  [ EmptyString;
    EmptyString;
    "Provide a comprehensive analysis including:";
    EmptyString;
    "1. **Executive Summary** (2-3 sentences)";
    "2. **Top Performers** (Top 3 districts and what makes them successful)";
    "3. **Underperformers** (Bottom 3 districts needing immediate attention)";
    "4. **Key Insights** (Patterns, correlations, trends)";
    "5. **Recommendations** (Specific, actionable interventions)";
    "6. **Priority Actions** (What to do first, with timeline)";
    EmptyString;
    "Format your response in clear sections with bullet points." ].

Definition openai_at_risk_students_head : list string :=
  [ EmptyString;
    "You are an education counselor analyzing at-risk students in government schools.";
    EmptyString;
    "Student data:";
    EmptyString ].

Definition openai_at_risk_students_tail : list string :=
  [ EmptyString;
    EmptyString;
    "For each student or group, provide:";
    EmptyString;
    "1. **Risk Assessment** (High/Medium/Low risk level)";
    "2. **Risk Factors** (What's causing the issues)";
    "3. **Intervention Plan** (Specific actions to take)";
    "4. **Timeline** (When to implement interventions)";
    "5. **Success Metrics** (How to measure improvement)";
    EmptyString;
    "Prioritize students by risk level and provide actionable guidance." ].

Definition claude_district_performance_head : list string :=
  [ EmptyString;
    "Analyze this government school district performance data from India:";
    EmptyString ].

Definition claude_district_performance_tail : list string :=
  [ EmptyString;
    EmptyString;
    "Provide:";
    "1. Executive summary";
    "2. Top 3 performing districts and success factors";
    "3. Bottom 3 districts needing intervention";
    "4. Key patterns and insights";
    "5. Specific recommendations with priority levels";
    "6. Implementation roadmap";
    EmptyString;
    "Be specific and actionable." ].

Definition claude_at_risk_students_head : list string :=
  [ EmptyString;
    "Analyze these at-risk students from government schools:";
    EmptyString ].

Definition claude_at_risk_students_tail : list string :=
  [ EmptyString;
    EmptyString;
    "For each student/group:";
    "1. Risk level (High/Medium/Low)";
    "2. Primary risk factors";
    "3. Recommended interventions";
    "4. Timeline for action";
    "5. Expected outcomes";
    EmptyString;
    "Prioritize by urgency." ].

Definition bedrock_district_performance_head : list string :=
  [ EmptyString;
    "Analyze this district performance data:";
    EmptyString ].

Definition bedrock_district_performance_tail : list string :=
  [ EmptyString;
    EmptyString;
    "Provide comprehensive analysis with insights and recommendations." ].

Definition bedrock_at_risk_students_head : list string :=
  [ EmptyString;
    "Analyze these at-risk students:";
    EmptyString ].

Definition bedrock_at_risk_students_tail : list string :=
  [ EmptyString;
    EmptyString;
    "Provide risk assessment and intervention recommendations." ].

(** The [prompts] dicts of the three [analyze_with_llm_*] methods. *)
Definition openai_prompts (data_string : string) : gmap string string :=
  list_to_map
    [ ("district_performance",
       fill openai_district_performance_head openai_district_performance_tail data_string);
      ("at_risk_students",
       fill openai_at_risk_students_head openai_at_risk_students_tail data_string) ].

Definition claude_prompts (data_string : string) : gmap string string :=
  list_to_map
    [ ("district_performance",
       fill claude_district_performance_head claude_district_performance_tail data_string);
      ("at_risk_students",
       fill claude_at_risk_students_head claude_at_risk_students_tail data_string) ].

Definition bedrock_prompts (data_string : string) : gmap string string :=
  list_to_map
    [ ("district_performance",
       fill bedrock_district_performance_head bedrock_district_performance_tail data_string);
      ("at_risk_students",
       fill bedrock_at_risk_students_head bedrock_at_risk_students_tail data_string) ].

(** [prompts.get(analysis_type, prompts['district_performance'])] *)
Definition select_prompt (prompts : gmap string string) (analysis_type : pyval) : string :=
  default (prompts !!! "district_performance") (py_dict_get prompts analysis_type).

(** The three requests. *)
Record openai_request := {
  oa_model : string;
  oa_system : string;
  oa_user : string;
  oa_temperature : Q;
  oa_max_tokens : Z
}.

Record claude_request := {
  cl_model : string;
  cl_max_tokens : Z;
  cl_user : string
}.

Record bedrock_v2_request := {
  bv_modelId : string;
  bv_prompt : string;
  bv_max_tokens_to_sample : Z;
  bv_temperature : Q
}.

(** Each method builds its request and returns the text of the response;
    the call and the reading of its response are [create], which returns
    that text or raises. *)
Definition analyze_with_llm_openai (create : openai_request -> exn + string)
    (data_string : string) (analysis_type : pyval) : exn + string :=
  let prompt := select_prompt (openai_prompts data_string) analysis_type in
  create {| oa_model := "gpt-4";
            oa_system := "You are an expert education data analyst specializing in government school systems in India.";
            oa_user := prompt;
            oa_temperature := 7 # 10;
            oa_max_tokens := 2000 |}.

Definition analyze_with_llm_claude (create : claude_request -> exn + string)
    (data_string : string) (analysis_type : pyval) : exn + string :=
  let prompt := select_prompt (claude_prompts data_string) analysis_type in
  create {| cl_model := "claude-3-sonnet-20240229";
            cl_max_tokens := 2000;
            cl_user := prompt |}.

Definition analyze_with_llm_bedrock (invoke_model : bedrock_v2_request -> exn + string)
    (data_string : string) (analysis_type : pyval) : exn + string :=
  let prompt := select_prompt (bedrock_prompts data_string) analysis_type in
  invoke_model {| bv_modelId := "anthropic.claude-v2";
                  bv_prompt := newline +:+ newline +:+ "Human: " +:+ prompt
                               +:+ newline +:+ newline +:+ "Assistant:";
                  bv_max_tokens_to_sample := 2000;
                  bv_temperature := 7 # 10 |}.

(** The SELECT list of the analyzer's [fetch_district_kpis], over the same
    join as the handler's. *)
Definition select_district_kpis (j : district_join_row) : row :=
  [ ("district_name", cell_of_text (d_district_name j));
    ("state_name", cell_of_text (s_state_name j));
    ("student_attendance", cell_of_num (ROUND2 (COALESCE0 (sa_attendance_percentage j))));
    ("pass_rate", cell_of_num (ROUND2 (COALESCE0 (ep_pass_percentage j))));
    ("sports_participation", cell_of_num (ROUND2 (COALESCE0 (sp_sports_participation_rate j))));
    ("activity_engagement", cell_of_num (ROUND2 (COALESCE0 (ae_activity_engagement_rate j))));
    ("teacher_attendance", cell_of_num (ROUND2 (COALESCE0 (ta_teacher_attendance_percentage j))));
    ("inspection_score", cell_of_num (ROUND2 (COALESCE0 (i_avg_inspection_score j))));
    ("composite_index", cell_of_num (ROUND2 (COALESCE0 (c_district_performance_index j)))) ].

End Analyzer.

(** ** More stubs *)

(** A world whose database cannot be reached. *)
Definition db_down_world : world :=
  {| db_district_join := inl (Exn "OperationalError" "(2003, 'Can not connect to MySQL server')");
     db_student_groups := inl (Exn "OperationalError" "(2003, 'Can not connect to MySQL server')");
     S3_BUCKET := "school-monitoring-reports";
     bedrock_invoke_model := always_ok;
     s3_put_object := sink_ok;
     clock := utc |}.

(** The three model ids the handler knows. *)
Definition known_model_ids : list string :=
  [ "anthropic.claude-3-sonnet-20240229-v1:0";
    "anthropic.claude-3-haiku-20240307-v1:0";
    "anthropic.claude-v2:1" ].

(** A student whose marks average 59.996 and who was present at every
    recorded day. *)
Definition student_just_below_sixty : student_group :=
  {| s_student_name := Some "Ravi";
     s_gender := Some "M";
     sc_school_name := Some "GHS Hunsur";
     g_district_name := Some "Mysuru";
     group_rows :=
       [ {| er_marks_obtained := Some (59996 # 1000)%Q;
            sa_attendance_id := Some 21; sa_status := Some "Present" |} ] |}.

(** A student the database knows nothing about: no marks, no attendance
    record. *)
Definition student_without_records : student_group :=
  {| s_student_name := Some "Meena";
     s_gender := Some "F";
     sc_school_name := Some "GHS Hunsur";
     g_district_name := Some "Mysuru";
     group_rows :=
       [ {| er_marks_obtained := None; sa_attendance_id := None; sa_status := None |} ] |}.

(** ** The retries of the Bedrock client

    [bedrock] is built at line 13 with botocore's default configuration, so
    [bedrock.invoke_model] is more than one exchange with the service.  The
    client's retry handler (legacy mode) sends an attempt again when it
    failed transiently: a read or connect timeout or a dropped connection, a
    throttling answer (HTTP 429), an answer with status 500, 502, 503 or
    504.  After the failure of attempt number n it sleeps
    [random.random() * 2 ** (n - 1)] seconds, and it makes [max_attempts]
    attempts in all, 5 unless configured otherwise.  Any other failure, and
    the failure of the last attempt, is raised to the caller.

    The [bedrock_invoke_model] of a [world] is what a whole call leads to.
    Here a call is taken apart into its attempts. *)

(** What one [invoke_model] call did: its outcome, the requests it sent to
    the service, and the seconds it slept between them. *)
Record client_call := {
  call_outcome : provider_outcome;
  call_attempts : list bedrock_request;
  call_sleeps : list Q
}.

(** Modelled from the spec: the exponential backoff with jitter between the
    attempts of an inference call, which is not in the repository.  It is
    written as botocore's [delay_exponential] computes it, with growth
    factor 2 and the base [base] drawn by [random.random()]: the wait after
    the failure of attempt number [attempts], counted from 1. *)
Definition delay_exponential (base : Q) (attempts : nat) : Q :=
  (base * inject_Z (2 ^ Z.of_nat (attempts - 1)))%Q.

Definition single_attempt (outcome : provider_outcome) (req : bedrock_request) : client_call :=
  {| call_outcome := outcome; call_attempts := [req]; call_sleeps := [] |}.

(** Modelled from the spec: the retry loop of the inference call.  The
    repository has none of its own: [invoke_bedrock] calls
    [bedrock.invoke_model] once, and the attempts are made inside that call
    by the retry handler of the client, which is botocore's.  The policy is
    the specification's: a transient failure is retried up to a fixed bound,
    after a wait that grows exponentially, and any other failure surfaces at
    once.  It is the policy botocore's default handler follows, with a bound
    of four retries.

    These are the attempts of one call from attempt [attempt] on (counted
    from 0), with [retries_left] repetitions still allowed.  [service i req]
    is what the service does to attempt [i]; for a failure it carries the
    exception the client raises when it stops there.  [random i] is the draw
    for the wait after attempt [i]. *)
Fixpoint client_attempts (service : nat -> bedrock_request -> provider_outcome)
    (random : nat -> Q) (retries_left attempt : nat) (req : bedrock_request) : client_call :=
  match service attempt req with
  | Failed k e =>
    if transient k then
      match retries_left with
      | S retries =>
        let rest := client_attempts service random retries (S attempt) req in
        {| call_outcome := call_outcome rest;
           call_attempts := req :: call_attempts rest;
           call_sleeps := delay_exponential (random attempt) (S attempt) :: call_sleeps rest |}
      | O => single_attempt (Failed k e) req
      end
    else single_attempt (Failed k e) req
  | outcome => single_attempt outcome req
  end.

(** One [invoke_model] call of a client that makes at most [max_attempts]
    attempts. *)
Definition client_invoke_model (service : nat -> bedrock_request -> provider_outcome)
    (random : nat -> Q) (max_attempts : nat) (req : bedrock_request) : client_call :=
  client_attempts service random (max_attempts - 1) 0 req.

(** The number of attempts of botocore's default configuration. *)
Definition default_max_attempts : nat := 5.

(** The world [w] with its Bedrock calls made by a client over a service:
    [service n i] is what the service does to attempt [i] of call [n]. *)
Definition with_bedrock_client (w : world)
    (service : nat -> nat -> bedrock_request -> provider_outcome)
    (random : nat -> Q) (max_attempts : nat) : world :=
  {| db_district_join := db_district_join w;
     db_student_groups := db_student_groups w;
     S3_BUCKET := S3_BUCKET w;
     bedrock_invoke_model :=
       fun n req => call_outcome (client_invoke_model (service n) random max_attempts req);
     s3_put_object := s3_put_object w;
     clock := clock w |}.

(** ** The objects the runtime hands the program

    So far an event holds scalars and a fetched row holds what [json.dumps]
    accepts.  The runtime can hand the program more than that: [json.loads]
    builds lists and dicts for the arrays and objects of an event, and
    pymysql builds a [decimal.Decimal] for a value of a DECIMAL column.
    Neither can take the place of a scalar or a float: a list or a dict is
    unhashable, so [dict.get] raises [TypeError] on it, and [json.dumps]
    raises [TypeError] on a [Decimal].  [Runtime] is the program on these
    objects: the two failures are added where the source meets them, and
    past them a run is the run described so far. *)

Module Runtime.

(** A value of the event, as [json.loads] builds it.  As before, its
    numbers are integers. *)
#[warnings="-register-all"]
Inductive event_value :=
| VScalar (v : pyval)
| VList (items : list event_value)
| VDict (fields : list (string * event_value)).

(** [hash(v)], which a dict computes before it looks a key up. *)
Definition hashable (v : event_value) : exn + pyval :=
  match v with
  | VScalar p => inr p
  | VList _ => inl (Exn "TypeError" "unhashable type: 'list'")
  | VDict _ => inl (Exn "TypeError" "unhashable type: 'dict'")
  end.

(** [d.get(k, fallback)] on a dict whose keys are all strings. *)
Definition dict_get {V} (d : gmap string V) (k : event_value) (fallback : V) : exn + V :=
  match hashable k with
  | inl e => inl e
  | inr p => inr (default fallback (py_dict_get d p))
  end.

(** Truth value of [v] in [if v:]. *)
Definition truthy (v : event_value) : bool :=
  match v with
  | VScalar p => py_truthy p
  | VList items => match items with [] => false | _ => true end
  | VDict fields => match fields with [] => false | _ => true end
  end.

(** [v == 'at_risk_students'] *)
Definition is_at_risk_students (v : event_value) : bool :=
  match v with
  | VScalar (PStr s) => String.eqb s "at_risk_students"
  | _ => false
  end.

(** A cell of a row as pymysql builds it: [None], a [str], a [float] or a
    [decimal.Decimal], the numbers by their count of hundredths. *)
Inductive fetched :=
| FNone
| FStr (s : string)
| FFloat (hundredths : Z)
| FDecimal (hundredths : Z).

Definition fetched_row : Type := list (string * fetched).

(** The two kinds of type a rate, a percentage or a mark can have in MySQL:
    approximate-value (FLOAT, DOUBLE), which pymysql turns into a [float],
    and exact-value (DECIMAL; an average of integers is one too), which it
    turns into a [Decimal].  [ROUND], [COALESCE] with the literal 0 and
    [AVG] keep the kind of their argument. *)
Inductive column_kind := Approximate | Exact.

(** The column types the queries depend on; the schema and the views are
    not part of the program.  [kpi_column] gives the kind of each KPI column
    of [fetch_district_kpis], by its name in the SELECT list. *)
Record schema := {
  kpi_column : string -> column_kind;
  marks_obtained : column_kind
}.

(** The kinds of the two numeric columns of [fetch_at_risk_students].
    [avg_marks] is an average of [marks_obtained].  [attendance_pct] is
    exact-value whatever the schema says: [COUNT] is an integer and
    [100.0] is a DECIMAL literal, and so are their product and its
    quotient. *)
Definition at_risk_column (sch : schema) (name : string) : column_kind :=
  if String.eqb name "avg_marks" then marks_obtained sch else Exact.

(** The object pymysql builds for a cell of a column of kind [kind]. *)
Definition from_db (kind : column_kind) (c : cell) : fetched :=
  match c with
  | CNull => FNone
  | CStr s => FStr s
  | CNum h => match kind with Approximate => FFloat h | Exact => FDecimal h end
  end.

Definition rows_from_db (kind : string -> column_kind) (data : list row) : list fetched_row :=
  map (map (fun kv => (kv.1, from_db (kind kv.1) kv.2))) data.

(** What [json.dumps] makes of a cell: it has no encoding for a
    [Decimal]. *)
Definition serialisable_cell (v : fetched) : exn + cell :=
  match v with
  | FNone => inr CNull
  | FStr s => inr (CStr s)
  | FFloat h => inr (CNum h)
  | FDecimal _ => inl (Exn "TypeError" "Object of type Decimal is not JSON serializable")
  end.

Fixpoint serialisable_row (r : fetched_row) : exn + row :=
  match r with
  | [] => inr []
  | (k, v) :: r' =>
    match serialisable_cell v with
    | inl e => inl e
    | inr c =>
      match serialisable_row r' with
      | inl e => inl e
      | inr cs => inr ((k, c) :: cs)
      end
    end
  end.

Fixpoint serialisable (data : list fetched_row) : exn + list row :=
  match data with
  | [] => inr []
  | r :: data' =>
    match serialisable_row r with
    | inl e => inl e
    | inr r' =>
      match serialisable data' with
      | inl e => inl e
      | inr rs => inr (r' :: rs)
      end
    end
  end.

(** [json.dumps(data, indent=2)] *)
Definition json_dumps (data : list fetched_row) : exn + string :=
  match serialisable data with
  | inl e => inl e
  | inr rows => inr (json_dumps_indent2 rows)
  end.

(** [create_bedrock_prompt]: the rows are serialised at line 108, then the
    template is looked up at line 208. *)
Definition create_bedrock_prompt (data : list fetched_row) (analysis_type : event_value)
  : exn + string :=
  match json_dumps data with
  | inl e => inl e
  | inr data_json =>
    dict_get (prompts data_json) analysis_type (prompts data_json !!! "comprehensive")
  end.

(** [raise] or [return], by a result. *)
Definition lift {A} (x : exn + A) : M A :=
  match x with
  | inl e => raise e
  | inr a => ret a
  end.

Section Program.

Variable w : world.
Variable sch : schema.

Definition fetch_district_kpis : M (list fetched_row) :=
  match db_district_join w with
  | inl e => raise e
  | inr joined => ret (rows_from_db (kpi_column sch) (district_kpis_query joined))
  end.

Definition fetch_at_risk_students : M (list fetched_row) :=
  match db_student_groups w with
  | inl e => raise e
  | inr groups => ret (rows_from_db (at_risk_column sch) (at_risk_students_query groups))
  end.

(** The part of [lambda_handler] that follows the fetch.  The rows are
    serialised and the analysis type is hashed when the prompt is built at
    line 313; [model] is the model choice, which [models.get] has hashed at
    line 296.  From there on the run is [analyse] on the serialised rows and
    the two scalars; of [save_s3] only the truth value is used. *)
Definition analyse_fetched (start_time : datetime) (analysis_type : event_value)
    (model : pyval) (save_s3 : event_value) (model_id : string) (data : list fetched_row)
  : M response :=
  let! rows := lift (serialisable data) in
  let! key := lift (hashable analysis_type) in
  analyse w start_time key model (PBool (truthy save_s3)) model_id rows.

Definition lambda_handler (event : gmap string event_value) : M response :=
  let! start_time := now w in
  try_except
    (let analysis_type := default (VScalar (PStr "comprehensive")) (event !! "analysis_type") in
     let model_choice := default (VScalar (PStr "sonnet")) (event !! "model") in
     let save_s3 := default (VScalar (PBool true)) (event !! "save_to_s3") in
     let! model := lift (hashable model_choice) in
     let model_id := default (models !!! "sonnet") (py_dict_get models model) in
     if is_at_risk_students analysis_type then
       let! data := fetch_at_risk_students in
       match data with
       | [] =>
         ret {| statusCode := 200;
                headers := None;
                body := JObj [ ("message", JStr "No at-risk students identified");
                               ("analysis", JStr "All students are performing well!") ] |}
       | _ => analyse_fetched start_time analysis_type model save_s3 model_id data
       end
     else
       let! data := fetch_district_kpis in
       analyse_fetched start_time analysis_type model save_s3 model_id data)
    (fun e =>
       ret {| statusCode := 500;
              headers := None;
              body := JObj [ ("error", JStr (exc_msg e));
                             ("error_type", JStr (exc_type e)) ] |}).

End Program.

(** The three parameters as [lambda_handler] reads them from the event. *)
Definition requested_analysis_type (event : gmap string event_value) : event_value :=
  default (VScalar (PStr "comprehensive")) (event !! "analysis_type").

Definition requested_model (event : gmap string event_value) : event_value :=
  default (VScalar (PStr "sonnet")) (event !! "model").

Definition requested_save (event : gmap string event_value) : event_value :=
  default (VScalar (PBool true)) (event !! "save_to_s3").

(** What the fetch chosen for an analysis type delivers. *)
Definition dataset (w : world) (sch : schema) (analysis_type : event_value)
  : exn + list fetched_row :=
  if is_at_risk_students analysis_type then
    match db_student_groups w with
    | inl e => inl e
    | inr groups => inr (rows_from_db (at_risk_column sch) (at_risk_students_query groups))
    end
  else
    match db_district_join w with
    | inl e => inl e
    | inr joined => inr (rows_from_db (kpi_column sch) (district_kpis_query joined))
    end.

(** An event whose values are all scalars. *)
Definition scalar_event (event : gmap string pyval) : gmap string event_value :=
  VScalar <$> event.

(** A schema whose KPI columns and marks are all approximate-value, and one
    where they are all exact-value. *)
Definition double_columns : schema :=
  {| kpi_column := fun _ => Approximate; marks_obtained := Approximate |}.

Definition decimal_columns : schema :=
  {| kpi_column := fun _ => Exact; marks_obtained := Exact |}.

End Runtime.


(** A student whose two marks average 46.75 and who has no attendance
    record. *)
Definition student_with_low_marks : student_group :=
  {| s_student_name := Some "Kiran";
     s_gender := Some "M";
     sc_school_name := Some "GHS Hunsur";
     g_district_name := Some "Mysuru";
     group_rows :=
       [ {| er_marks_obtained := Some (425 # 10)%Q; sa_attendance_id := None; sa_status := None |};
         {| er_marks_obtained := Some (51 # 1)%Q; sa_attendance_id := None; sa_status := None |} ] |}.

(** A service that times out on the first two attempts of every call and
    then completes, and a random source that always draws one half. *)
Definition two_timeouts : nat -> nat -> bedrock_request -> provider_outcome :=
  fun _ => timeouts_then_ok 2.

Definition half : nat -> Q := fun _ => (1 # 2)%Q.



(** ** Reading back what [json.dumps] wrote

    A reader for the strings of the serialisation, and the characters that
    can continue a number.  They serve to show that the serialisation keeps
    every row apart from every other. *)

Definition is_digit (c : ascii) : bool :=
  let n := N_of_ascii c in ((48 <=? n) && (n <=? 57))%N.

Fixpoint digits_only (s : string) : bool :=
  match s with
  | EmptyString => true
  | String c s' => is_digit c && digits_only s'
  end.

Definition starts_with_digit (s : string) : bool :=
  match s with
  | EmptyString => false
  | String c _ => is_digit c
  end.

(** The value of a hexadecimal digit as [hex_digit] writes it. *)
Definition hex_value (c : ascii) : N :=
  let n := N_of_ascii c in if (n <? 58)%N then (n - 48)%N else (n - 87)%N.

(** The character a two-character escape stands for, by its second
    character. *)
Definition unescape_short (c : ascii) : option ascii :=
  let n := N_of_ascii c in
  if (n =? 34)%N then Some "034"%char
  else if (n =? 92)%N then Some "092"%char
  else if (n =? 110)%N then Some "010"%char
  else if (n =? 114)%N then Some "013"%char
  else if (n =? 116)%N then Some "009"%char
  else if (n =? 98)%N then Some "008"%char
  else if (n =? 102)%N then Some "012"%char
  else None.

(** Reads a JSON string from behind its opening quote: the string and what
    follows its closing quote. *)
Fixpoint json_read_string (t : string) : option (string * string) :=
  match t with
  | EmptyString => None
  | String c t' =>
    if (N_of_ascii c =? 34)%N then Some (EmptyString, t')
    else if (N_of_ascii c =? 92)%N then
      match t' with
      | EmptyString => None
      | String e t'' =>
        if (N_of_ascii e =? 117)%N then
          match t'' with
          | String _ (String _ (String x (String y t3))) =>
            match json_read_string t3 with
            | Some (s, rest) =>
              Some (String (ascii_of_N (16 * hex_value x + hex_value y)) s, rest)
            | None => None
            end
          | _ => None
          end
        else
          match unescape_short e, json_read_string t'' with
          | Some d, Some (s, rest) => Some (String d s, rest)
          | _, _ => None
          end
      end
    else
      match json_read_string t' with
      | Some (s, rest) => Some (String c s, rest)
      | None => None
      end
  end.

(** ** Running the program *)

Lemma save_to_s3_run w analysis analysis_type metadata st :
  let req := report_request w analysis analysis_type metadata st in
  save_to_s3 w analysis analysis_type metadata st =
  (Ok (match s3_put_object w (length (s3_calls st)) req with
       | None => Some ("s3://" +:+ S3_BUCKET w +:+ "/" +:+ Key req)
       | Some _ => None
       end),
   after_save req st).
Proof.
  unfold save_to_s3, try_except, bind, now, s3_put, report_request, after_save; simpl.
  destruct (s3_put_object w _ _); reflexivity.
Qed.

(** [invoke_bedrock] makes one call and hands on its outcome. *)
Lemma invoke_bedrock_run w prompt model_id st :
  invoke_bedrock w prompt model_id st =
  (match bedrock_invoke_model w (length (bedrock_calls st)) (inference_request prompt model_id) with
   | Completed text => Ok text
   | Malformed e => Raise e
   | Failed _ e => Raise e
   end,
   called (inference_request prompt model_id) st).
Proof.
  unfold invoke_bedrock, bind, bedrock_invoke, ret, called.
  destruct (bedrock_invoke_model w _ _); reflexivity.
Qed.

(** The stages after the fetch: one provider call; on its failure the
    exception leaves [analyse], otherwise the clock is read, the report is
    saved when asked for, and the envelope is built. *)
Lemma analyse_run w t0 analysis_type model_choice save_s3 model_id data st :
  let req := inference_request (create_bedrock_prompt data analysis_type) model_id in
  let st1 := called req st in
  let metadata := run_metadata model_choice model_id data
                    (total_seconds t0 (clock w (clock_reads st))) in
  analyse w t0 analysis_type model_choice save_s3 model_id data st =
  match bedrock_invoke_model w (length (bedrock_calls st)) req with
  | Completed text =>
    if py_truthy save_s3 then
      let put := report_request w text analysis_type metadata (tick st1) in
      (Ok (success_envelope (clock w (S (S (S (clock_reads st))))) analysis_type metadata
             (match s3_put_object w (length (s3_calls st)) put with
              | None => Some ("s3://" +:+ S3_BUCKET w +:+ "/" +:+ Key put)
              | Some _ => None
              end) text),
       tick (after_save put (tick st1)))
    else
      (Ok (success_envelope (clock w (S (clock_reads st))) analysis_type metadata None text),
       tick (tick st1))
  | Malformed e => (Raise e, st1)
  | Failed _ e => (Raise e, st1)
  end.
Proof.
  intros req st1 metadata.
  unfold analyse. unfold bind at 1. rewrite invoke_bedrock_run.
  fold req. fold st1.
  destruct (bedrock_invoke_model w _ req) as [text|e|k e]; try reflexivity.
  unfold bind at 1. unfold now at 1. cbn [clock_reads st1 called].
  fold (tick st1). fold metadata.
  destruct (py_truthy save_s3).
  - unfold bind at 1. rewrite save_to_s3_run. reflexivity.
  - reflexivity.
Qed.

(** The handler, stage by stage: a failed fetch and a failure after the
    fetch end in the failure envelope, the empty at-risk-students result in
    the fixed answer, and everything else in what [analyse] returns. *)
Lemma lambda_handler_run w event st :
  lambda_handler w event st =
  match dataset w (requested_analysis_type event) with
  | inl e => (Ok (failure_envelope e), tick st)
  | inr data =>
    if short_circuits (requested_analysis_type event) data
    then (Ok no_risk_envelope, tick st)
    else
      match analyse w (clock w (clock_reads st)) (requested_analysis_type event)
                    (requested_model event) (requested_save event)
                    (resolve_model (requested_model event)) data (tick st) with
      | (Ok r, st') => (Ok r, st')
      | (Raise e, st') => (Ok (failure_envelope e), st')
      end
  end.
Proof.
  unfold lambda_handler, dataset, requested_analysis_type, requested_model,
    requested_save, resolve_model, short_circuits, bind, try_except, now.
  fold (tick st).
  destruct (decide (default (PStr "comprehensive") (event !! "analysis_type")
                    = PStr "at_risk_students")) as [Heq|Hne].
  - rewrite bool_decide_eq_true_2 by assumption.
    unfold fetch_at_risk_students.
    destruct (db_student_groups w) as [e|groups]; [reflexivity|].
    unfold ret at 1.
    destruct (at_risk_students_query groups); reflexivity.
  - rewrite bool_decide_eq_false_2 by assumption.
    unfold fetch_district_kpis.
    destruct (db_district_join w) as [e|joined]; reflexivity.
Qed.

(** ** Text and prompts *)

Lemma length_append (a b : string) :
  String.length (a +:+ b) = (String.length a + String.length b)%nat.
Proof. induction a as [|c a IH]; simpl; [reflexivity | rewrite IH; reflexivity]. Qed.

(** Joined parts that each hold a character are at least as long as their
    number. *)
Lemma length_join_ge sep (parts : list string) :
  Forall (fun p => (1 <= String.length p)%nat) parts ->
  (length parts <= String.length (join sep parts))%nat.
Proof.
  induction 1 as [|p ps Hp Hps IH]; simpl; [lia|].
  destruct ps as [|q ps]; [simpl in *; lia|].
  rewrite !length_append. simpl in IH. simpl. lia.
Qed.

Lemma json_dumps_indent2_length (data : list row) :
  (length data <= String.length (json_dumps_indent2 data))%nat.
Proof.
  destruct data as [|r data]; [simpl; lia|].
  unfold json_dumps_indent2.
  rewrite !length_append.
  pose proof (length_join_ge ("," +:+ newline)
                (map (fun r => "  " +:+ json_dumps_row r) (r :: data))) as H.
  rewrite length_map in H.
  assert (Forall (fun p => (1 <= String.length p)%nat)
            (map (fun r => "  " +:+ json_dumps_row r) (r :: data))) as HF.
  { apply Forall_forall. intros p Hp. apply (list_elem_of_fmap_1 (fun r => "  " +:+ json_dumps_row r)) in Hp.
    destruct Hp as [r' [-> _]]. simpl. lia. }
  specialize (H HF). lia.
Qed.

Lemma prompts_lookup data_json (s : string) :
  prompts data_json !! s =
  if decide ("comprehensive" = s) then Some (fill comprehensive_head comprehensive_tail data_json)
  else if decide ("at_risk" = s) then Some (fill at_risk_head at_risk_tail data_json)
  else if decide ("quick_summary" = s) then Some (fill quick_summary_head quick_summary_tail data_json)
  else if decide ("at_risk_students" = s)
       then Some (fill at_risk_students_head at_risk_students_tail data_json)
  else if decide ("predictive" = s) then Some (fill predictive_head predictive_tail data_json)
  else None.
Proof.
  unfold prompts. cbn [list_to_map foldr uncurry fst snd].
  rewrite !lookup_insert.
  repeat (case_decide; [reflexivity|]).
  apply lookup_empty.
Qed.

Lemma prompts_comprehensive data_json :
  prompts data_json !!! "comprehensive" = fill comprehensive_head comprehensive_tail data_json.
Proof.
  apply lookup_total_correct. rewrite prompts_lookup. reflexivity.
Qed.

Lemma models_lookup (s : string) :
  models !! s =
  if decide ("sonnet" = s) then Some "anthropic.claude-3-sonnet-20240229-v1:0"
  else if decide ("haiku" = s) then Some "anthropic.claude-3-haiku-20240307-v1:0"
  else if decide ("claude-2" = s) then Some "anthropic.claude-v2:1"
  else None.
Proof.
  unfold models. cbn [list_to_map foldr uncurry fst snd].
  rewrite !lookup_insert.
  repeat (case_decide; [reflexivity|]).
  apply lookup_empty.
Qed.

(** Every prompt is one of the five templates around the serialisation of
    the whole dataset. *)
Lemma create_bedrock_prompt_shape data analysis_type :
  exists head tail,
    (head, tail) ∈ templates /\
    create_bedrock_prompt data analysis_type = fill head tail (json_dumps_indent2 data).
Proof.
  unfold create_bedrock_prompt. cbv zeta. rewrite prompts_comprehensive.
  unfold templates.
  destruct analysis_type as [| b | z | s]; simpl;
    try (exists comprehensive_head, comprehensive_tail; split; [set_solver | reflexivity]).
  rewrite prompts_lookup.
  repeat (case_decide;
          [eexists _, _; split; [|simpl; reflexivity]; set_solver|]).
  exists comprehensive_head, comprehensive_tail; split; [set_solver | reflexivity].
Qed.

Lemma create_bedrock_prompt_length data analysis_type :
  (length data <= String.length (create_bedrock_prompt data analysis_type))%nat.
Proof.
  destruct (create_bedrock_prompt_shape data analysis_type) as (h & t & _ & ->).
  unfold fill. rewrite !length_append.
  pose proof (json_dumps_indent2_length data). lia.
Qed.

(** ** The state a run leaves *)

Lemma drop_own_length {A} (l : list A) : drop (length l) l = [].
Proof. apply drop_all. Qed.

Lemma drop_length_app {A} (l k : list A) : drop (length l) (l ++ k) = k.
Proof. apply drop_app_length. Qed.

Lemma new_bedrock_calls_tick st : new_bedrock_calls st (tick st) = [].
Proof. apply drop_own_length. Qed.

Lemma new_s3_calls_tick st : new_s3_calls st (tick st) = [].
Proof. apply drop_own_length. Qed.

Lemma new_bedrock_calls_called st req :
  new_bedrock_calls st (called req st) = [req].
Proof. apply drop_length_app. Qed.

(** ** The inference gateway *)

(** A call whose first [N] attempts from attempt [a] on fail transiently
    ends at attempt [a + N] when that one does anything else and [N]
    repetitions are allowed. *)
Lemma client_attempts_ends service random retries a req (N : nat) outcome :
  (forall i, (i < N)%nat -> exists k e, service (a + i)%nat req = Failed k e /\ transient k = true) ->
  service (a + N)%nat req = outcome ->
  (forall k e, outcome = Failed k e -> transient k = false) ->
  (N <= retries)%nat ->
  client_attempts service random retries a req =
  {| call_outcome := outcome;
     call_attempts := replicate (S N) req;
     call_sleeps := (fun i : nat => (random i * inject_Z (2 ^ Z.of_nat i))%Q) <$> seq a N |}.
Proof.
  revert retries a.
  induction N as [|N IH]; intros retries a Hfail Hend Hnot Hle.
  - rewrite Nat.add_0_r in Hend.
    destruct retries; simpl; rewrite Hend;
      destruct outcome as [text|e|k e]; try reflexivity;
      rewrite (Hnot k e eq_refl); reflexivity.
  - destruct retries as [|retries]; [lia|].
    destruct (Hfail 0%nat ltac:(lia)) as (k & e & Hk & Ht).
    rewrite Nat.add_0_r in Hk.
    cbn [client_attempts]. rewrite Hk, Ht.
    rewrite (IH retries (S a)).
    + cbn [call_outcome call_attempts call_sleeps]. unfold delay_exponential.
      replace (S a - 1)%nat with a by lia. reflexivity.
    + intros i Hi. destruct (Hfail (S i) ltac:(lia)) as (k' & e' & Hk' & Ht').
      exists k', e'. replace (S a + i)%nat with (a + S i)%nat by lia. auto.
    + replace (S a + N)%nat with (a + S N)%nat by lia. exact Hend.
    + exact Hnot.
    + lia.
Qed.

(** A call whose attempts all fail transiently stops when no repetition is
    left, with the failure of its last attempt. *)
Lemma client_attempts_stops service random retries a req :
  (forall i, (i <= retries)%nat ->
             exists k e, service (a + i)%nat req = Failed k e /\ transient k = true) ->
  client_attempts service random retries a req =
  {| call_outcome := service (a + retries)%nat req;
     call_attempts := replicate (S retries) req;
     call_sleeps := (fun i : nat => (random i * inject_Z (2 ^ Z.of_nat i))%Q) <$> seq a retries |}.
Proof.
  revert a.
  induction retries as [|retries IH]; intros a Hfail.
  - destruct (Hfail 0%nat ltac:(lia)) as (k & e & Hk & Ht).
    rewrite Nat.add_0_r in *. simpl. rewrite Hk, Ht. reflexivity.
  - destruct (Hfail 0%nat ltac:(lia)) as (k & e & Hk & Ht).
    rewrite Nat.add_0_r in Hk.
    cbn [client_attempts]. rewrite Hk, Ht.
    rewrite (IH (S a)).
    + cbn [call_outcome call_attempts call_sleeps]. unfold delay_exponential.
      replace (S a - 1)%nat with a by lia.
      replace (S a + retries)%nat with (a + S retries)%nat by lia. reflexivity.
    + intros i Hi. destruct (Hfail (S i) ltac:(lia)) as (k' & e' & Hk' & Ht').
      exists k', e'. replace (S a + i)%nat with (a + S i)%nat by lia. auto.
Qed.

(** C1: the retries are those of the client.  Take a service that fails
    transiently on the first [N] attempts of a call and then does something
    else: completes, answers something malformed, or fails for good.  When
    [N] is at most the retry bound, [invoke_bedrock] ends with what attempt
    [N] did, after exactly [N + 1] requests and [N] waits that double from
    one to the next: it succeeds when that attempt completes, and a failure
    that is not transient surfaces there, after a single request when it is
    the first.  When [N] is beyond the bound, [invoke_bedrock] raises the
    failure of the last allowed attempt after bound + 1 requests, and the
    handler answers with the failure envelope of that exception. *)
Theorem invoke_bedrock_retries_transient_failures (w : world)
    (service : nat -> nat -> bedrock_request -> provider_outcome) (random : nat -> Q)
    (max_attempts : nat) (prompt model_id : string) (st : state)
    (N : nat) (outcome : provider_outcome) :
  let req := inference_request prompt model_id in
  let attempt := service (length (bedrock_calls st)) in
  let client := with_bedrock_client w service random max_attempts in
  let call := client_invoke_model attempt random max_attempts req in
  let bound := (max_attempts - 1)%nat in
  (forall i, (i < N)%nat -> exists k e, attempt i req = Failed k e /\ transient k = true) ->
  attempt N req = outcome ->
  (forall k e, outcome = Failed k e -> transient k = false) ->
  ((N <= bound)%nat ->
     invoke_bedrock client prompt model_id st
     = (match outcome with
        | Completed text => Ok text
        | Malformed e => Raise e
        | Failed _ e => Raise e
        end, called req st)
     /\ call_outcome call = outcome
     /\ call_attempts call = replicate (S N) req
     /\ call_sleeps call
        = (fun i : nat => (random i * inject_Z (2 ^ Z.of_nat i))%Q) <$> seq 0 N)
  /\ ((bound < N)%nat ->
      exists k e,
        attempt bound req = Failed k e
        /\ transient k = true
        /\ invoke_bedrock client prompt model_id st = (Raise e, called req st)
        /\ call_attempts call = replicate (S bound) req
        /\ call_sleeps call
           = (fun i : nat => (random i * inject_Z (2 ^ Z.of_nat i))%Q) <$> seq 0 bound
        /\ forall event data,
             dataset client (requested_analysis_type event) = inr data ->
             short_circuits (requested_analysis_type event) data = false ->
             run_request event data = req ->
             lambda_handler client event st
             = (Ok (failure_envelope e), called req (tick st))).
Proof.
  intros req attempt client call bound Hfail Hend Hnot.
  split.
  - intros Hle.
    pose proof (client_attempts_ends attempt random bound 0 req N outcome Hfail Hend Hnot Hle)
      as Hcall.
    rewrite invoke_bedrock_run. fold req.
    change (bedrock_invoke_model client (length (bedrock_calls st)) req)
      with (call_outcome (client_attempts attempt random bound 0 req)).
    change call with (client_attempts attempt random bound 0 req).
    rewrite Hcall. cbn [call_outcome call_attempts call_sleeps].
    repeat split.
  - intros Hlt.
    assert (forall i, (i <= bound)%nat ->
                      exists k e, attempt (0 + i)%nat req = Failed k e /\ transient k = true)
      as Hall by (intros i Hi; apply Hfail; lia).
    pose proof (client_attempts_stops attempt random bound 0 req Hall) as Hcall.
    destruct (Hfail bound Hlt) as (k & e & Hk & Ht).
    simpl in Hcall. rewrite Hk in Hcall.
    exists k, e.
    assert (invoke_bedrock client prompt model_id st = (Raise e, called req st)) as Hinv.
    { rewrite invoke_bedrock_run. fold req.
      change (bedrock_invoke_model client (length (bedrock_calls st)) req)
        with (call_outcome (client_attempts attempt random bound 0 req)).
      rewrite Hcall. reflexivity. }
    change call with (client_attempts attempt random bound 0 req).
    repeat split; try assumption; try (rewrite Hcall; reflexivity).
    intros event data HD Hsc Hreq.
    rewrite lambda_handler_run, HD, Hsc, analyse_run. cbv zeta.
    unfold run_request in Hreq. rewrite Hreq.
    cbn [tick bedrock_calls].
    change (bedrock_invoke_model client (length (bedrock_calls st)) req)
      with (call_outcome (client_attempts attempt random bound 0 req)).
    rewrite Hcall. reflexivity.
Qed.

Lemma invoke_bedrock_retries_transient_failures_witness :
  let req := inference_request "Summarise." "anthropic.claude-3-haiku-20240307-v1:0" in
  let client := with_bedrock_client (stub_world [] always_ok sink_ok) two_timeouts half
                  default_max_attempts in
  let call := client_invoke_model (timeouts_then_ok 2) half default_max_attempts req in
  invoke_bedrock client "Summarise." "anthropic.claude-3-haiku-20240307-v1:0" initial_state
  = (Ok "Districts are improving.", called req initial_state)
  /\ call_outcome call = Completed "Districts are improving."
  /\ call_attempts call = [req; req; req]
  /\ call_sleeps call = [((1 # 2) * inject_Z 1)%Q; ((1 # 2) * inject_Z 2)%Q].
Proof.
  apply (invoke_bedrock_retries_transient_failures (stub_world [] always_ok sink_ok)
           two_timeouts half default_max_attempts "Summarise."
           "anthropic.claude-3-haiku-20240307-v1:0" initial_state 2
           (Completed "Districts are improving.")).
  - intros i Hi. exists Timeout, (Exn "ReadTimeoutError" "Read timeout on endpoint URL").
    destruct i as [|[|i]]; [split; reflexivity | split; reflexivity | lia].
  - reflexivity.
  - discriminate.
  - unfold default_max_attempts. lia.
Defined.

(** A service that keeps timing out: the client stops after its five
    attempts, having slept half a second, one, two and four seconds, and
    the failure of the fifth is raised. *)
Example scenario_retries_exhausted :
  let call := client_invoke_model (timeouts_then_ok 7) half default_max_attempts
                (inference_request "Summarise." "anthropic.claude-v2:1") in
  call_outcome call = Failed Timeout (Exn "ReadTimeoutError" "Read timeout on endpoint URL")
  /\ length (call_attempts call) = 5%nat
  /\ Forall2 Qeq (call_sleeps call) [1 # 2; 1; 2; 4]%Q.
Proof. repeat split. repeat constructor. Qed.

(** A service that rejects the credentials: one attempt, no wait. *)
Example scenario_not_retried :
  let call := client_invoke_model
                (fun _ _ => Failed AuthError (Exn "ClientError" "AccessDeniedException"))
                half default_max_attempts
                (inference_request "Summarise." "anthropic.claude-v2:1") in
  call_outcome call = Failed AuthError (Exn "ClientError" "AccessDeniedException")
  /\ length (call_attempts call) = 1%nat
  /\ call_sleeps call = [].
Proof. repeat split. Qed.

(** ** The empty at-risk-students result *)

(** C2, as the specification has it, fails on the code: the envelope of the
    short circuit has no [metadata], so it reports no record count. *)
Lemma empty_at_risk_metadata_counterexample :
  dataset (stub_world [] always_ok sink_ok) (PStr "at_risk_students") = inr []
  /\ ~ exists r st',
      lambda_handler (stub_world [] always_ok sink_ok)
        {[ "analysis_type" := PStr "at_risk_students" ]} initial_state = (Ok r, st')
      /\ metadata_record_count r = Some (JInt 0).
Proof.
  split; [reflexivity|].
  intros (r & st' & Hrun & Hcount).
  vm_compute in Hrun. injection Hrun as <- _.
  vm_compute in Hcount. discriminate.
Qed.

(** C2, amended: when the at-risk-students fetch returns no row, the handler
    returns status 200 with the fixed message and analysis and nothing else
    in the body (no metadata, hence no record count), and it calls neither
    the inference provider nor S3. *)
Theorem empty_at_risk_short_circuit (w : world) (event : gmap string pyval) (st : state) :
  requested_analysis_type event = PStr "at_risk_students" ->
  dataset w (PStr "at_risk_students") = inr [] ->
  exists r st',
    lambda_handler w event st = (Ok r, st')
    /\ statusCode r = 200
    /\ body r = JObj [ ("message", JStr "No at-risk students identified");
                       ("analysis", JStr "All students are performing well!") ]
    /\ json_get "metadata" (body r) = None
    /\ new_bedrock_calls st st' = []
    /\ new_s3_calls st st' = [].
Proof.
  intros HT HD.
  exists no_risk_envelope, (tick st).
  rewrite lambda_handler_run, HT, HD. cbn [short_circuits].
  repeat split; auto using new_bedrock_calls_tick, new_s3_calls_tick.
Qed.

Lemma empty_at_risk_short_circuit_witness :
  exists r st',
    lambda_handler (stub_world [] always_ok sink_ok)
      {[ "analysis_type" := PStr "at_risk_students" ]} initial_state = (Ok r, st')
    /\ statusCode r = 200
    /\ body r = JObj [ ("message", JStr "No at-risk students identified");
                       ("analysis", JStr "All students are performing well!") ]
    /\ json_get "metadata" (body r) = None
    /\ new_bedrock_calls initial_state st' = []
    /\ new_s3_calls initial_state st' = [].
Proof.
  apply (empty_at_risk_short_circuit (stub_world [] always_ok sink_ok)
           {[ "analysis_type" := PStr "at_risk_students" ]} initial_state);
    reflexivity.
Defined.

(** ** Persistence failures *)

(** C3: when fetch, templating and inference succeed and every write to
    the report sink fails, the handler still returns status 200; the
    analysis of the envelope is the provider's text, unchanged, and the
    persisted location ([s3_path]) is null.  When persistence was asked for,
    the one write was attempted. *)
Theorem persistence_failure_is_not_fatal (w : world) (event : gmap string pyval)
    (st : state) (data : list row) (text : string) :
  dataset w (requested_analysis_type event) = inr data ->
  short_circuits (requested_analysis_type event) data = false ->
  bedrock_invoke_model w (length (bedrock_calls st)) (run_request event data) = Completed text ->
  (forall n req, s3_put_object w n req <> None) ->
  exists r st',
    lambda_handler w event st = (Ok r, st')
    /\ statusCode r = 200
    /\ json_get "analysis" (body r) = Some (JStr text)
    /\ json_get "s3_path" (body r) = Some JNull
    /\ (py_truthy (requested_save event) = true -> length (new_s3_calls st st') = 1%nat).
Proof.
  intros HD Hsc Hinf Hsink.
  rewrite lambda_handler_run, HD, Hsc, analyse_run. cbv zeta.
  unfold run_request in Hinf. cbn [tick bedrock_calls].
  rewrite Hinf.
  destruct (py_truthy (requested_save event)) eqn:Hsave.
  - match goal with
    | |- context [s3_put_object w ?n ?req] =>
        destruct (s3_put_object w n req) as [e|] eqn:Hput;
          [|exfalso; exact (Hsink _ _ Hput)]
    end.
    eexists _, _. split; [reflexivity|].
    repeat split.
    intros _. unfold new_s3_calls, tick, after_save, called. simpl.
    rewrite drop_length_app. reflexivity.
  - eexists _, _. split; [reflexivity|].
    repeat split. discriminate.
Qed.

Lemma persistence_failure_is_not_fatal_witness :
  exists r st',
    lambda_handler (stub_world [] always_ok sink_down) ∅ initial_state = (Ok r, st')
    /\ statusCode r = 200
    /\ json_get "analysis" (body r) = Some (JStr "Districts are improving.")
    /\ json_get "s3_path" (body r) = Some JNull
    /\ (py_truthy (requested_save ∅) = true -> length (new_s3_calls initial_state st') = 1%nat).
Proof.
  apply (persistence_failure_is_not_fatal (stub_world [] always_ok sink_down) ∅ initial_state
           (district_kpis_query three_districts) "Districts are improving.");
    [reflexivity | reflexivity | reflexivity | discriminate].
Defined.

(** ** Inference failures *)

(** C4, as the specification has it, fails on the code: three districts are
    fetched, the provider times out, and the envelope carries no metadata,
    so its record count is not 3. *)
Lemma inference_failure_metadata_counterexample :
  (exists data, dataset (stub_world [] (timeouts_then_ok 1) sink_ok) (requested_analysis_type ∅)
                = inr data /\ length data = 3%nat)
  /\ ~ exists r st',
      lambda_handler (stub_world [] (timeouts_then_ok 1) sink_ok) ∅ initial_state = (Ok r, st')
      /\ metadata_record_count r = Some (JInt 3).
Proof.
  split.
  - eexists. split; reflexivity.
  - intros (r & st' & Hrun & Hcount).
    vm_compute in Hrun. injection Hrun as <- _.
    vm_compute in Hcount. discriminate.
Qed.

(** C4, amended: when the fetch succeeds and the inference call fails (the
    call raises, or its response is malformed), the handler returns status
    500 and a body that holds exactly the exception's message as [error] and
    its class name as [error_type].  The body has no [analysis] and no
    [metadata]: the size of the fetched dataset is not reported. *)
Theorem inference_failure_envelope (w : world) (event : gmap string pyval) (st : state)
    (data : list row) (e : exn) :
  dataset w (requested_analysis_type event) = inr data ->
  short_circuits (requested_analysis_type event) data = false ->
  (bedrock_invoke_model w (length (bedrock_calls st)) (run_request event data) = Malformed e
   \/ exists k, bedrock_invoke_model w (length (bedrock_calls st)) (run_request event data)
                = Failed k e) ->
  exists r st',
    lambda_handler w event st = (Ok r, st')
    /\ statusCode r = 500
    /\ body r = JObj [("error", JStr (exc_msg e)); ("error_type", JStr (exc_type e))]
    /\ json_get "analysis" (body r) = None
    /\ json_get "metadata" (body r) = None
    /\ metadata_record_count r = None.
Proof.
  intros HD Hsc Hinf.
  rewrite lambda_handler_run, HD, Hsc, analyse_run. cbv zeta.
  unfold run_request in Hinf. cbn [tick bedrock_calls].
  destruct Hinf as [Hinf | [k Hinf]]; rewrite Hinf;
    eexists _, _; (split; [reflexivity|]); repeat split.
Qed.

Lemma inference_failure_envelope_witness :
  exists r st',
    lambda_handler (stub_world [] (timeouts_then_ok 1) sink_ok) ∅ initial_state = (Ok r, st')
    /\ statusCode r = 500
    /\ body r = JObj [ ("error", JStr "Read timeout on endpoint URL");
                       ("error_type", JStr "ReadTimeoutError") ]
    /\ json_get "analysis" (body r) = None
    /\ json_get "metadata" (body r) = None
    /\ metadata_record_count r = None.
Proof.
  apply (inference_failure_envelope (stub_world [] (timeouts_then_ok 1) sink_ok) ∅ initial_state
           (district_kpis_query three_districts)
           (Exn "ReadTimeoutError" "Read timeout on endpoint URL"));
    [reflexivity | reflexivity | right; exists Timeout; reflexivity].
Defined.

(** ** The invocation boundary *)

(** C5: every invocation returns, and returns one well-formed envelope: a
    success with an analysis text, or a failure with an error message and an
    error kind.  No exception leaves the handler, whatever the event asks
    for and whatever the database, the provider and the sink do. *)
Theorem lambda_handler_always_returns_envelope (w : world) (event : gmap string pyval)
    (st : state) :
  exists r st', lambda_handler w event st = (Ok r, st') /\ well_formed_envelope r.
Proof.
  rewrite lambda_handler_run.
  destruct (dataset w _) as [e|data].
  { eexists _, _. split; [reflexivity|]. right. split; [reflexivity|]. eauto. }
  destruct (short_circuits _ data).
  { eexists _, _. split; [reflexivity|]. left. split; [reflexivity|]. simpl. eauto. }
  rewrite analyse_run. cbv zeta.
  destruct (bedrock_invoke_model w _ _) as [text|e|k e].
  - destruct (py_truthy _);
      (eexists _, _; split; [reflexivity|]; left; split; [reflexivity|]; simpl; eauto).
  - eexists _, _. split; [reflexivity|]. right. split; [reflexivity|]. simpl. eauto.
  - eexists _, _. split; [reflexivity|]. right. split; [reflexivity|]. simpl. eauto.
Qed.

(** ** Prompt construction *)

(** The prompts a run hands to the provider: none when the handler answers
    the empty at-risk-students result itself, otherwise the one built from
    the fetched dataset and the analysis type. *)
Lemma lambda_handler_prompts w event st data :
  dataset w (requested_analysis_type event) = inr data ->
  new_bedrock_calls st (lambda_handler w event st).2 =
  if short_circuits (requested_analysis_type event) data then []
  else [run_request event data].
Proof.
  intros HD. rewrite lambda_handler_run, HD.
  destruct (short_circuits _ data); cbn [snd]; [apply new_bedrock_calls_tick|].
  rewrite analyse_run. cbv zeta. fold (run_request event data).
  assert (forall req, new_bedrock_calls st (called req (tick st)) = [req]) as Hone.
  { intros req. unfold new_bedrock_calls, called, tick. simpl. apply drop_length_app. }
  destruct (bedrock_invoke_model w _ _) as [text|e|k e]; cbn [snd]; try apply Hone.
  destruct (py_truthy _); cbn [snd];
    unfold new_bedrock_calls, tick, after_save, called; simpl; apply drop_length_app.
Qed.

(** C8: the prompt depends on the dataset and the analysis type alone.  Two
    runs that ask for the same analysis type and fetch the same dataset hand
    byte-identical prompts to the provider, whatever else differs between
    them: the clock, the model, the persistence flag, the provider's and the
    sink's behaviour, the calls made before.  Unless the handler answers the
    empty at-risk-students result itself, that prompt is
    [create_bedrock_prompt] of the dataset and the type. *)
Theorem prompt_construction_is_deterministic (w1 w2 : world) (ev1 ev2 : gmap string pyval)
    (st1 st2 : state) (data : list row) :
  requested_analysis_type ev1 = requested_analysis_type ev2 ->
  dataset w1 (requested_analysis_type ev1) = inr data ->
  dataset w2 (requested_analysis_type ev2) = inr data ->
  user_content <$> new_bedrock_calls st1 (lambda_handler w1 ev1 st1).2
  = user_content <$> new_bedrock_calls st2 (lambda_handler w2 ev2 st2).2
  /\ (short_circuits (requested_analysis_type ev1) data = false ->
      user_content <$> new_bedrock_calls st1 (lambda_handler w1 ev1 st1).2
      = [create_bedrock_prompt data (requested_analysis_type ev1)]).
Proof.
  intros HT HD1 HD2.
  rewrite (lambda_handler_prompts w1 ev1 st1 data HD1).
  rewrite (lambda_handler_prompts w2 ev2 st2 data HD2).
  rewrite <- HT. unfold run_request. rewrite <- HT.
  destruct (short_circuits _ data); split; try reflexivity; discriminate.
Qed.

Lemma prompt_construction_is_deterministic_witness :
  user_content <$> new_bedrock_calls initial_state
    (lambda_handler (stub_world [] always_ok sink_ok) ∅ initial_state).2
  = user_content <$> new_bedrock_calls (tick initial_state)
      (lambda_handler (stub_world [student_without_exams] (timeouts_then_ok 1) sink_down)
         {[ "model" := PStr "haiku"; "save_to_s3" := PBool false ]} (tick initial_state)).2
  /\ (short_circuits (requested_analysis_type ∅) (district_kpis_query three_districts) = false ->
      user_content <$> new_bedrock_calls initial_state
        (lambda_handler (stub_world [] always_ok sink_ok) ∅ initial_state).2
      = [create_bedrock_prompt (district_kpis_query three_districts) (requested_analysis_type ∅)]).
Proof.
  apply (prompt_construction_is_deterministic
           (stub_world [] always_ok sink_ok)
           (stub_world [student_without_exams] (timeouts_then_ok 1) sink_down)
           ∅ {[ "model" := PStr "haiku"; "save_to_s3" := PBool false ]}
           initial_state (tick initial_state)
           (district_kpis_query three_districts));
    reflexivity.
Defined.

(** C9, as the specification has it, fails on the code: no input-size budget
    bounds the length of the prompts. *)
Lemma prompt_budget_counterexample :
  ~ exists budget : nat,
      forall (data : list row) (analysis_type : pyval),
        (String.length (create_bedrock_prompt data analysis_type) <= budget)%nat.
Proof.
  intros [budget Hb].
  specialize (Hb (replicate (S budget) []) (PStr "comprehensive")).
  pose proof (create_bedrock_prompt_length (replicate (S budget) []) (PStr "comprehensive")) as Hl.
  rewrite length_replicate in Hl. lia.
Qed.

(** C9, amended: [create_bedrock_prompt] never truncates.  The prompt is one
    of the five templates with the serialisation of the whole dataset in it
    and nothing added, so it is at least as long as the dataset has records
    and exceeds any budget for a dataset large enough; the metadata of a
    completed analysis holds the model, the model id, the number of all
    fetched records and the execution time, and no note of a truncation. *)
Theorem prompt_embeds_whole_dataset (data : list row) (analysis_type : pyval) :
  (exists head tail,
     (head, tail) ∈ templates /\
     create_bedrock_prompt data analysis_type
     = unlines head +:+ json_dumps_indent2 data +:+ unlines tail)
  /\ (length data <= String.length (create_bedrock_prompt data analysis_type))%nat
  /\ (forall budget : nat, exists data' : list row,
        (budget < String.length (create_bedrock_prompt data' analysis_type))%nat)
  /\ (forall w t0 model_choice save_s3 model_id st,
        match analyse w t0 analysis_type model_choice save_s3 model_id data st with
        | (Ok r, _) =>
          exists seconds,
            json_get "metadata" (body r)
            = Some (JObj [ ("model", json_of_pyval model_choice);
                           ("model_id", JStr model_id);
                           ("records_analyzed", JInt (Z.of_nat (length data)));
                           ("execution_time_seconds", JFloat seconds) ])
        | (Raise _, _) => True
        end).
Proof.
  split; [exact (create_bedrock_prompt_shape data analysis_type)|].
  split; [exact (create_bedrock_prompt_length data analysis_type)|].
  split.
  - intros budget. exists (replicate (S budget) []).
    pose proof (create_bedrock_prompt_length (replicate (S budget) []) analysis_type) as Hl.
    rewrite length_replicate in Hl. lia.
  - intros w t0 model_choice save_s3 model_id st.
    rewrite analyse_run. cbv zeta.
    destruct (bedrock_invoke_model w _ _) as [text|e|k e]; [|exact I|exact I].
    destruct (py_truthy save_s3); eexists; reflexivity.
Qed.

(** ** The queries' SELECT lists *)

Lemma round_half_away_close (q : Q) :
  (inject_Z (round_half_away q) - q <= 1 # 2)%Q /\ (q - inject_Z (round_half_away q) <= 1 # 2)%Q.
Proof.
  unfold round_half_away.
  destruct (Qle_bool 0 q).
  - pose proof (Qfloor_le (q + (1 # 2))) as Hlo.
    pose proof (Qlt_floor (q + (1 # 2))) as Hhi.
    rewrite inject_Z_plus in Hhi. change (inject_Z 1) with 1%Q in Hhi.
    set (f := inject_Z (Qfloor (q + (1 # 2)))) in *. clearbody f.
    split; lra.
  - pose proof (Qfloor_le (- q + (1 # 2))) as Hlo.
    pose proof (Qlt_floor (- q + (1 # 2))) as Hhi.
    rewrite inject_Z_plus in Hhi. change (inject_Z 1) with 1%Q in Hhi.
    rewrite inject_Z_opp.
    set (f := inject_Z (Qfloor (- q + (1 # 2)))) in *. clearbody f.
    split; lra.
Qed.

Lemma SQL_AVG_null {A} (f : A -> option Q) (rows : list A) :
  SQL_AVG (map f rows) = None <-> Forall (fun r => f r = None) rows.
Proof.
  unfold SQL_AVG.
  assert (omap id (map f rows) = [] <-> Forall (fun r => f r = None) rows) as Hnil.
  { induction rows as [|r rows IH]; simpl.
    - split; [constructor | reflexivity].
    - destruct (f r) eqn:Hr; simpl.
      + split; [discriminate | intros H; inversion H; congruence].
      + rewrite IH. split; [intros H; constructor; assumption | intros H; inversion H; assumption]. }
  destruct (omap id (map f rows)) as [|v vs].
  - split; [intros _; apply Hnil; reflexivity | reflexivity].
  - split; [discriminate | intros H; apply Hnil in H; discriminate].
Qed.

Lemma attendance_ratio_null (g : student_group) :
  attendance_ratio g = None <-> Forall (fun r => sa_attendance_id r = None) (group_rows g).
Proof.
  unfold attendance_ratio, NULLIF0, SQL_COUNT.
  set (rows := group_rows g). clearbody rows.
  assert (omap id (map sa_attendance_id rows) = []
          <-> Forall (fun r => sa_attendance_id r = None) rows) as Hnil.
  { induction rows as [|r rows IH]; simpl.
    - split; [constructor | reflexivity].
    - destruct (sa_attendance_id r) eqn:Hr; simpl.
      + split; [discriminate | intros H; inversion H; congruence].
      + rewrite IH. split; [intros H; constructor; assumption | intros H; inversion H; assumption]. }
  destruct (omap id (map sa_attendance_id rows)) as [|v vs] eqn:Hv.
  - simpl. split; [intros _; apply Hnil; reflexivity | reflexivity].
  - replace (Z.of_nat (length (v :: vs)) =? 0) with false
      by (symmetry; apply Z.eqb_neq; simpl length; lia).
    split; [discriminate | intros H; apply Hnil in H; discriminate].
Qed.

Lemma cell_of_num_null (x : option Z) : cell_of_num x = CNull <-> x = None.
Proof. destruct x; simpl; split; congruence. Qed.

Lemma ROUND2_null (x : option Q) : ROUND2 x = None <-> x = None.
Proof. destruct x; simpl; split; congruence. Qed.

(** C7, as the specification has it, fails on the code: a student with
    attendance records and no exam result passes the HAVING clause, and the
    row fetched for this student has a null [avg_marks]. *)
Lemma at_risk_null_counterexample :
  having_at_risk (select_at_risk_students student_without_exams) = true
  /\ ~ (forall r, r ∈ at_risk_students_query [student_without_exams] ->
        forall f, f ∈ at_risk_numeric_fields -> exists h, assoc f r = Some (CNum h)).
Proof.
  split; [reflexivity|].
  intros H.
  destruct (H (select_at_risk_students student_without_exams)
              ltac:(vm_compute; left) "avg_marks" ltac:(left)) as [h Hh].
  vm_compute in Hh. discriminate.
Qed.

(** C7, amended.  The district query returns one row per joined row, in
    the same order; its two name columns pass through unchanged, and each of
    its seven numeric columns is the source column with NULL replaced by 0,
    rounded to the nearest hundredth, hence present and non-null.  The
    at-risk-students query returns the selected rows of the groups that pass
    its HAVING clause, in the same order, up to its LIMIT of 20; its four
    text columns pass through unchanged, and its two numeric columns are
    rounded to the nearest hundredth but not coalesced: [avg_marks] is null
    exactly for a student without marks, [attendance_pct] exactly for a
    student without attendance records. *)
Theorem normalisation_by_query :
  (forall joined : list district_join_row,
     length (district_kpis_query joined) = length joined
     /\ forall (i : nat) j, joined !! i = Some j ->
        exists r, district_kpis_query joined !! i = Some r
          /\ assoc "district_name" r = Some (cell_of_text (d_district_name j))
          /\ assoc "state_name" r = Some (cell_of_text (s_state_name j))
          /\ (forall f, f ∈ district_numeric_fields -> exists h, assoc f r = Some (CNum h))
          /\ forall f x, (f, x) ∈ district_numeric_sources j ->
             exists h, assoc f r = Some (CNum h)
               /\ h = round_half_away (default 0 x * 100)%Q
               /\ (inject_Z h - default 0 x * 100 <= 1 # 2)%Q
               /\ (default 0 x * 100 - inject_Z h <= 1 # 2)%Q)
  /\ (forall groups : list student_group,
        at_risk_students_query groups
        = select_at_risk_students
            <$> take 20 (filter (fun g => having_at_risk (select_at_risk_students g) = true) groups))
  /\ (forall g : student_group,
        let r := select_at_risk_students g in
        assoc "student_name" r = Some (cell_of_text (s_student_name g))
        /\ assoc "gender" r = Some (cell_of_text (s_gender g))
        /\ assoc "school_name" r = Some (cell_of_text (sc_school_name g))
        /\ assoc "district_name" r = Some (cell_of_text (g_district_name g))
        /\ (forall f x, (f, x) ∈ at_risk_numeric_sources g ->
            match x with
            | Some q =>
              exists h, assoc f r = Some (CNum h)
                /\ h = round_half_away (q * 100)%Q
                /\ (inject_Z h - q * 100 <= 1 # 2)%Q
                /\ (q * 100 - inject_Z h <= 1 # 2)%Q
            | None => assoc f r = Some CNull
            end)
        /\ (assoc "avg_marks" r = Some CNull
            <-> Forall (fun row => er_marks_obtained row = None) (group_rows g))
        /\ (assoc "attendance_pct" r = Some CNull
            <-> Forall (fun row => sa_attendance_id row = None) (group_rows g))).
Proof.
  split; [|split].
  - intros joined. unfold district_kpis_query. split; [apply length_map|].
    intros i j Hj. exists (select_district_kpis j).
    split; [change (map select_district_kpis joined) with (select_district_kpis <$> joined);
            rewrite list_lookup_fmap, Hj; reflexivity|].
    split; [reflexivity|]. split; [reflexivity|].
    split.
    { intros f Hin. unfold district_numeric_fields in Hin. set_unfold in Hin.
      repeat (destruct Hin as [->|Hin]; [eexists; reflexivity|]).
      destruct Hin. }
    intros f x Hin. exists (round_half_away (default 0 x * 100)%Q).
    split.
    + unfold district_numeric_sources in Hin. set_unfold in Hin.
      repeat (destruct Hin as [Hin|Hin]; [injection Hin as -> ->; reflexivity|]).
      destruct Hin.
    + split; [reflexivity|]. apply round_half_away_close.
  - intros groups. unfold at_risk_students_query.
    change (map select_at_risk_students groups) with (select_at_risk_students <$> groups).
    rewrite fmap_take. f_equal.
    induction groups as [|g groups IH]; [reflexivity|].
    rewrite fmap_cons, !filter_cons.
    destruct (decide (having_at_risk (select_at_risk_students g) = true));
      rewrite IH; reflexivity.
  - intros g r. subst r.
    repeat (split; [reflexivity|]).
    split; [|split].
    + intros f x Hin. unfold at_risk_numeric_sources in Hin. set_unfold in Hin.
      destruct Hin as [Hin|[Hin|[]]]; injection Hin as -> ->; cbn [select_at_risk_students assoc String.eqb Ascii.eqb Bool.eqb].
      * destruct (SQL_AVG _) as [q|]; simpl; [|reflexivity].
        eexists. split; [reflexivity|]. split; [reflexivity|]. apply round_half_away_close.
      * destruct (attendance_ratio g) as [q|]; simpl; [|reflexivity].
        eexists. split; [reflexivity|]. split; [reflexivity|]. apply round_half_away_close.
    + cbn [select_at_risk_students assoc String.eqb Ascii.eqb Bool.eqb].
      rewrite <- SQL_AVG_null, <- ROUND2_null, <- cell_of_num_null.
      split; congruence.
    + cbn [select_at_risk_students assoc String.eqb Ascii.eqb Bool.eqb].
      rewrite <- attendance_ratio_null, <- ROUND2_null, <- cell_of_num_null.
      split; congruence.
Qed.

(** ** Scenarios *)

(** Three districts with composite scores 92.5, 71.0 and 40.25: the run
    succeeds and counts three records. *)
Example scenario_three_districts :
  exists r st',
    lambda_handler (stub_world [] always_ok sink_ok) {[ "analysis_type" := PStr "comprehensive" ]}
      initial_state = (Ok r, st')
    /\ statusCode r = 200
    /\ metadata_record_count r = Some (JInt 3)
    /\ length (bedrock_calls st') = 1%nat
    /\ length (s3_calls st') = 1%nat.
Proof. eexists _, _. split; [vm_compute; reflexivity|]. repeat split. Qed.

(** A provider that always rejects the credentials: the run fails after one
    call. *)
Example scenario_auth_error :
  exists r st',
    lambda_handler
      (stub_world [] (fun _ _ => Failed AuthError (Exn "ClientError" "AccessDeniedException")) sink_ok)
      {[ "analysis_type" := PStr "quick_summary" ]} initial_state = (Ok r, st')
    /\ statusCode r = 500
    /\ json_get "error_type" (body r) = Some (JStr "ClientError")
    /\ length (bedrock_calls st') = 1%nat
    /\ s3_calls st' = [].
Proof. eexists _, _. split; [vm_compute; reflexivity|]. repeat split. Qed.

(** The first district row as [json.dumps(data, indent=2)] writes it. *)
Example three_districts_first_row :
  json_dumps_indent2 (take 1 (district_kpis_query three_districts)) =
  unlines [ "[";
            "  {";
            "    " +:+ dquote +:+ "district_name" +:+ dquote +:+ ": " +:+ dquote +:+ "Mysuru" +:+ dquote +:+ ",";
            "    " +:+ dquote +:+ "state_name" +:+ dquote +:+ ": " +:+ dquote +:+ "Karnataka" +:+ dquote +:+ ",";
            "    " +:+ dquote +:+ "performance_index" +:+ dquote +:+ ": 92.5,";
            "    " +:+ dquote +:+ "student_attendance" +:+ dquote +:+ ": 88.3,";
            "    " +:+ dquote +:+ "pass_rate" +:+ dquote +:+ ": 0.0,";
            "    " +:+ dquote +:+ "sports_participation" +:+ dquote +:+ ": 40.26,";
            "    " +:+ dquote +:+ "activity_engagement" +:+ dquote +:+ ": 0.0,";
            "    " +:+ dquote +:+ "teacher_attendance" +:+ dquote +:+ ": 95.0,";
            "    " +:+ dquote +:+ "inspection_score" +:+ dquote +:+ ": 0.0";
            "  }" ] +:+ "]".
Proof. vm_compute. reflexivity. Qed.

(** ** The requests and writes of a run *)

(** The provider calls a run adds, by stage. *)
Lemma lambda_handler_calls w event st :
  new_bedrock_calls st (lambda_handler w event st).2 =
  match dataset w (requested_analysis_type event) with
  | inl _ => []
  | inr data =>
    if short_circuits (requested_analysis_type event) data then []
    else [run_request event data]
  end.
Proof.
  destruct (dataset w (requested_analysis_type event)) as [e|data] eqn:HD.
  - rewrite lambda_handler_run, HD. apply new_bedrock_calls_tick.
  - apply lambda_handler_prompts, HD.
Qed.

Lemma resolve_model_known (model_choice : pyval) :
  resolve_model model_choice ∈ known_model_ids.
Proof.
  unfold resolve_model, known_model_ids.
  replace (models !!! "sonnet") with "anthropic.claude-3-sonnet-20240229-v1:0"
    by (symmetry; apply lookup_total_correct; rewrite models_lookup; reflexivity).
  destruct model_choice as [| b | z | s]; simpl; try set_solver.
  rewrite models_lookup.
  repeat (case_decide; [simpl; set_solver|]).
  simpl. set_solver.
Qed.

(** X2: when the fetch chosen for the analysis type raises, the handler
    returns status 500 with the exception's message and class name, after
    one reading of the clock and without any provider call or S3 write. *)
Theorem fetch_failure_envelope (w : world) (event : gmap string pyval) (st : state) (e : exn) :
  dataset w (requested_analysis_type event) = inl e ->
  exists r st',
    lambda_handler w event st = (Ok r, st')
    /\ statusCode r = 500
    /\ body r = JObj [("error", JStr (exc_msg e)); ("error_type", JStr (exc_type e))]
    /\ headers r = None
    /\ new_bedrock_calls st st' = []
    /\ new_s3_calls st st' = []
    /\ clock_reads st' = S (clock_reads st).
Proof.
  intros HD. rewrite lambda_handler_run, HD.
  eexists _, _. split; [reflexivity|].
  repeat split; auto using new_bedrock_calls_tick, new_s3_calls_tick.
Qed.

Lemma fetch_failure_envelope_witness :
  exists r st',
    lambda_handler db_down_world {[ "analysis_type" := PStr "at_risk_students" ]} initial_state
    = (Ok r, st')
    /\ statusCode r = 500
    /\ body r = JObj [ ("error", JStr "(2003, 'Can not connect to MySQL server')");
                       ("error_type", JStr "OperationalError") ]
    /\ headers r = None
    /\ new_bedrock_calls initial_state st' = []
    /\ new_s3_calls initial_state st' = []
    /\ clock_reads st' = 1%nat.
Proof.
  apply (fetch_failure_envelope db_down_world {[ "analysis_type" := PStr "at_risk_students" ]}
           initial_state (Exn "OperationalError" "(2003, 'Can not connect to MySQL server')")).
  reflexivity.
Defined.

(** A run whose fetch and inference succeed, in full. *)
Lemma lambda_handler_completed w event st data text :
  dataset w (requested_analysis_type event) = inr data ->
  short_circuits (requested_analysis_type event) data = false ->
  bedrock_invoke_model w (length (bedrock_calls st)) (run_request event data) = Completed text ->
  let T := requested_analysis_type event in
  let st1 := called (run_request event data) (tick st) in
  let metadata := run_metadata (requested_model event) (resolve_model (requested_model event)) data
                    (total_seconds (clock w (clock_reads st)) (clock w (S (clock_reads st)))) in
  let put := report_request w text T metadata (tick st1) in
  lambda_handler w event st =
  if py_truthy (requested_save event) then
    (Ok (success_envelope (clock w (S (S (S (S (clock_reads st)))))) T metadata
           (match s3_put_object w (length (s3_calls st)) put with
            | None => Some ("s3://" +:+ S3_BUCKET w +:+ "/" +:+ Key put)
            | Some _ => None
            end) text),
     tick (after_save put (tick st1)))
  else
    (Ok (success_envelope (clock w (S (S (clock_reads st)))) T metadata None text),
     tick (tick st1)).
Proof.
  intros HD Hsc Hinf. cbv zeta.
  rewrite lambda_handler_run, HD, Hsc, analyse_run. cbv zeta.
  unfold run_request in *. cbn [tick bedrock_calls clock_reads s3_calls].
  rewrite Hinf.
  destruct (py_truthy (requested_save event)); reflexivity.
Qed.

Lemma new_s3_calls_saved st req put :
  new_s3_calls st (tick (after_save put (tick (called req (tick st))))) = [put].
Proof. unfold new_s3_calls, tick, after_save, called. simpl. apply drop_length_app. Qed.

Lemma new_s3_calls_unsaved st req :
  new_s3_calls st (tick (tick (called req (tick st)))) = [].
Proof. unfold new_s3_calls, tick, called. simpl. apply drop_own_length. Qed.

Lemma new_s3_calls_called st req :
  new_s3_calls st (called req (tick st)) = [].
Proof. unfold new_s3_calls, tick, called. simpl. apply drop_own_length. Qed.

(** X3: a run writes to S3 at most once, and only after a completed
    analysis with a true persistence flag.  The report it writes goes to the
    configured bucket as JSON and holds the analysis text, the metadata and
    the analysis type of the returned envelope; it has no [s3_path], and its
    timestamp is the clock reading just before the one of the envelope. *)
Theorem report_written_only_after_analysis (w : world) (event : gmap string pyval) (st : state) :
  let run := lambda_handler w event st in
  (py_truthy (requested_save event) = false -> new_s3_calls st run.2 = [])
  /\ (new_s3_calls st run.2 = []
      \/ exists put r text metadata,
           new_s3_calls st run.2 = [put]
           /\ run.1 = Ok r
           /\ statusCode r = 200
           /\ py_truthy (requested_save event) = true
           /\ json_get "analysis" (body r) = Some (JStr text)
           /\ json_get "metadata" (body r) = Some metadata
           /\ Bucket put = S3_BUCKET w
           /\ ContentType put = "application/json"
           /\ json_get "analysis" (Body put) = Some (JStr text)
           /\ json_get "metadata" (Body put) = Some metadata
           /\ json_get "analysis_type" (Body put) = json_get "analysis_type" (body r)
           /\ json_get "s3_path" (Body put) = None
           /\ json_get "timestamp" (Body put)
              = Some (JStr (dt_isoformat (clock w (3 + clock_reads st))))
           /\ json_get "timestamp" (body r)
              = Some (JStr (dt_isoformat (clock w (4 + clock_reads st))))).
Proof.
  cbv zeta. rewrite lambda_handler_run.
  destruct (dataset w _) as [e|data] eqn:HD; cbn [fst snd].
  { rewrite new_s3_calls_tick. auto. }
  destruct (short_circuits _ data) eqn:Hsc; cbn [fst snd].
  { rewrite new_s3_calls_tick. auto. }
  rewrite analyse_run. cbv zeta.
  destruct (bedrock_invoke_model w _ _) as [text|e|k e]; cbn [fst snd];
    try (rewrite new_s3_calls_called; auto).
  destruct (py_truthy (requested_save event)) eqn:Hsave; cbn [fst snd].
  - rewrite new_s3_calls_saved. split; [discriminate|]. right.
    eexists _, _, text, _. split; [reflexivity|]. split; [reflexivity|].
    repeat split.
  - rewrite new_s3_calls_unsaved. auto.
Qed.

(** X4: when a completed analysis is to be persisted and the sink accepts
    the write, the envelope's [s3_path] is [s3://], the bucket, a slash and
    the key of that write, and the key is [reports/], the requested analysis
    type as [str] prints it, a slash, the third clock reading of the run in
    the form [%Y%m%d_%H%M%S], and [.json]. *)
Theorem persisted_location_names_the_report (w : world) (event : gmap string pyval)
    (st : state) (data : list row) (text : string) :
  dataset w (requested_analysis_type event) = inr data ->
  short_circuits (requested_analysis_type event) data = false ->
  bedrock_invoke_model w (length (bedrock_calls st)) (run_request event data) = Completed text ->
  py_truthy (requested_save event) = true ->
  (forall n req, s3_put_object w n req = None) ->
  exists r st' put,
    lambda_handler w event st = (Ok r, st')
    /\ new_s3_calls st st' = [put]
    /\ Key put = "reports/" +:+ py_str (requested_analysis_type event) +:+ "/"
                 +:+ dt_strftime (clock w (2 + clock_reads st)) +:+ ".json"
    /\ json_get "s3_path" (body r)
       = Some (JStr ("s3://" +:+ S3_BUCKET w +:+ "/" +:+ Key put)).
Proof.
  intros HD Hsc Hinf Hsave Hsink.
  rewrite (lambda_handler_completed w event st data text HD Hsc Hinf). cbv zeta.
  rewrite Hsave, Hsink.
  eexists _, _, _. split; [reflexivity|].
  split; [apply new_s3_calls_saved|].
  split; reflexivity.
Qed.

Lemma persisted_location_names_the_report_witness :
  exists r st' put,
    lambda_handler (stub_world [] always_ok sink_ok) {[ "analysis_type" := PStr "predictive" ]}
      initial_state = (Ok r, st')
    /\ new_s3_calls initial_state st' = [put]
    /\ Key put = "reports/" +:+ py_str (requested_analysis_type {[ "analysis_type" := PStr "predictive" ]})
                 +:+ "/" +:+ dt_strftime (clock (stub_world [] always_ok sink_ok)
                                            (2 + clock_reads initial_state)) +:+ ".json"
    /\ json_get "s3_path" (body r)
       = Some (JStr ("s3://" +:+ S3_BUCKET (stub_world [] always_ok sink_ok) +:+ "/" +:+ Key put)).
Proof.
  apply (persisted_location_names_the_report (stub_world [] always_ok sink_ok)
           {[ "analysis_type" := PStr "predictive" ]} initial_state
           (district_kpis_query three_districts) "Districts are improving.");
    reflexivity.
Defined.

(** X5: the envelope of a completed analysis echoes the requested analysis
    type and model choice as given, names the resolved model id, counts all
    fetched records, and reports as execution time the seconds between the
    first and the second clock reading of the run, that is, up to the end of
    the inference call: persisting the report is not included. *)
Theorem completed_analysis_envelope (w : world) (event : gmap string pyval) (st : state)
    (data : list row) (text : string) :
  dataset w (requested_analysis_type event) = inr data ->
  short_circuits (requested_analysis_type event) data = false ->
  bedrock_invoke_model w (length (bedrock_calls st)) (run_request event data) = Completed text ->
  exists r st',
    lambda_handler w event st = (Ok r, st')
    /\ statusCode r = 200
    /\ headers r = Some [ ("Content-Type", "application/json");
                          ("Access-Control-Allow-Origin", "*") ]
    /\ json_get "analysis_type" (body r) = Some (json_of_pyval (requested_analysis_type event))
    /\ json_get "analysis" (body r) = Some (JStr text)
    /\ json_get "metadata" (body r)
       = Some (JObj [ ("model", json_of_pyval (requested_model event));
                      ("model_id", JStr (resolve_model (requested_model event)));
                      ("records_analyzed", JInt (Z.of_nat (length data)));
                      ("execution_time_seconds",
                       JFloat ((dt_micros (clock w (S (clock_reads st)))
                                - dt_micros (clock w (clock_reads st))) # 1000000)) ]).
Proof.
  intros HD Hsc Hinf.
  rewrite (lambda_handler_completed w event st data text HD Hsc Hinf). cbv zeta.
  destruct (py_truthy (requested_save event));
    (eexists _, _; split; [reflexivity|]; repeat split).
Qed.

Lemma completed_analysis_envelope_witness :
  exists r st',
    lambda_handler (stub_world [] always_ok sink_down) {[ "model" := PStr "gpt-4" ]} initial_state
    = (Ok r, st')
    /\ statusCode r = 200
    /\ headers r = Some [ ("Content-Type", "application/json");
                          ("Access-Control-Allow-Origin", "*") ]
    /\ json_get "analysis_type" (body r)
       = Some (json_of_pyval (requested_analysis_type {[ "model" := PStr "gpt-4" ]}))
    /\ json_get "analysis" (body r) = Some (JStr "Districts are improving.")
    /\ json_get "metadata" (body r)
       = Some (JObj [ ("model", json_of_pyval (requested_model {[ "model" := PStr "gpt-4" ]}));
                      ("model_id", JStr (resolve_model (requested_model {[ "model" := PStr "gpt-4" ]})));
                      ("records_analyzed",
                       JInt (Z.of_nat (length (district_kpis_query three_districts))));
                      ("execution_time_seconds",
                       JFloat ((dt_micros (clock (stub_world [] always_ok sink_down)
                                             (S (clock_reads initial_state)))
                                - dt_micros (clock (stub_world [] always_ok sink_down)
                                               (clock_reads initial_state))) # 1000000)) ]).
Proof.
  apply (completed_analysis_envelope (stub_world [] always_ok sink_down)
           {[ "model" := PStr "gpt-4" ]} initial_state
           (district_kpis_query three_districts) "Districts are improving.");
    reflexivity.
Defined.

(** X6: every analysis type other than [at_risk_students] is run on the
    complete district list: one row per joined row, none filtered out.  This
    holds for the type [at_risk] too, whose template speaks of districts
    with a performance index below 60. *)
Theorem other_types_use_all_districts (w : world) (event : gmap string pyval) (st : state)
    (joined : list district_join_row) :
  requested_analysis_type event <> PStr "at_risk_students" ->
  db_district_join w = inr joined ->
  user_content <$> new_bedrock_calls st (lambda_handler w event st).2
  = [create_bedrock_prompt (select_district_kpis <$> joined) (requested_analysis_type event)]
  /\ (requested_analysis_type event = PStr "at_risk" ->
      user_content <$> new_bedrock_calls st (lambda_handler w event st).2
      = [fill at_risk_head at_risk_tail (json_dumps_indent2 (select_district_kpis <$> joined))]).
Proof.
  intros Hne Hdb.
  assert (dataset w (requested_analysis_type event) = inr (district_kpis_query joined)) as HD.
  { unfold dataset. destruct (decide _) as [Heq|_]; [contradiction|]. rewrite Hdb. reflexivity. }
  assert (short_circuits (requested_analysis_type event) (district_kpis_query joined) = false)
    as Hsc.
  { unfold short_circuits. rewrite bool_decide_eq_false_2 by assumption. reflexivity. }
  rewrite (lambda_handler_prompts w event st _ HD), Hsc.
  split; [reflexivity|].
  intros HT. unfold run_request. rewrite HT. cbn [fmap list_fmap user_content inference_request].
  unfold create_bedrock_prompt. cbv zeta. simpl py_dict_get. rewrite prompts_lookup.
  reflexivity.
Qed.

Lemma other_types_use_all_districts_witness :
  user_content <$> new_bedrock_calls initial_state
    (lambda_handler (stub_world [] always_ok sink_ok) {[ "analysis_type" := PStr "at_risk" ]}
       initial_state).2
  = [create_bedrock_prompt (select_district_kpis <$> three_districts)
       (requested_analysis_type {[ "analysis_type" := PStr "at_risk" ]})]
  /\ (requested_analysis_type {[ "analysis_type" := PStr "at_risk" ]} = PStr "at_risk" ->
      user_content <$> new_bedrock_calls initial_state
        (lambda_handler (stub_world [] always_ok sink_ok) {[ "analysis_type" := PStr "at_risk" ]}
           initial_state).2
      = [fill at_risk_head at_risk_tail
           (json_dumps_indent2 (select_district_kpis <$> three_districts))]).
Proof.
  apply (other_types_use_all_districts (stub_world [] always_ok sink_ok)
           {[ "analysis_type" := PStr "at_risk" ]} initial_state three_districts);
    [discriminate | reflexivity].
Defined.

(** X7: a run for an analysis type without a template is analysed with the
    comprehensive prompt but keeps the requested type everywhere else: the
    envelope reports the requested type, and the report is filed under
    [reports/] followed by the requested type, not under comprehensive. *)
Theorem fallback_run_keeps_requested_type (w : world) (event : gmap string pyval) (st : state)
    (data : list row) (text : string) :
  py_dict_get (prompts (json_dumps_indent2 data)) (requested_analysis_type event) = None ->
  dataset w (requested_analysis_type event) = inr data ->
  bedrock_invoke_model w (length (bedrock_calls st)) (run_request event data) = Completed text ->
  py_truthy (requested_save event) = true ->
  exists r st' put,
    lambda_handler w event st = (Ok r, st')
    /\ user_content <$> new_bedrock_calls st st'
       = [fill comprehensive_head comprehensive_tail (json_dumps_indent2 data)]
    /\ json_get "analysis_type" (body r) = Some (json_of_pyval (requested_analysis_type event))
    /\ new_s3_calls st st' = [put]
    /\ Key put = "reports/" +:+ py_str (requested_analysis_type event) +:+ "/"
                 +:+ dt_strftime (clock w (2 + clock_reads st)) +:+ ".json"
    /\ json_get "analysis_type" (Body put) = Some (json_of_pyval (requested_analysis_type event)).
Proof.
  intros Hnone HD Hinf Hsave.
  assert (short_circuits (requested_analysis_type event) data = false) as Hsc.
  { unfold short_circuits.
    destruct (decide (requested_analysis_type event = PStr "at_risk_students")) as [Heq|Hne].
    - rewrite Heq in Hnone. simpl in Hnone. rewrite prompts_lookup in Hnone. discriminate.
    - rewrite bool_decide_eq_false_2 by assumption. reflexivity. }
  pose proof (lambda_handler_prompts w event st data HD) as Hcalls.
  rewrite Hsc in Hcalls.
  rewrite (lambda_handler_completed w event st data text HD Hsc Hinf) in *. cbv zeta in *.
  rewrite Hsave in *. cbn [snd] in Hcalls.
  eexists _, _, _. split; [reflexivity|].
  split.
  { rewrite Hcalls. unfold run_request. cbn [fmap list_fmap user_content inference_request].
    unfold create_bedrock_prompt. cbv zeta. rewrite Hnone, prompts_comprehensive. reflexivity. }
  split; [reflexivity|].
  split; [apply new_s3_calls_saved|].
  split; reflexivity.
Qed.

Lemma fallback_run_keeps_requested_type_witness :
  exists r st' put,
    lambda_handler (stub_world [] always_ok sink_ok) {[ "analysis_type" := PStr "weekly_digest" ]}
      initial_state = (Ok r, st')
    /\ user_content <$> new_bedrock_calls initial_state st'
       = [fill comprehensive_head comprehensive_tail
            (json_dumps_indent2 (district_kpis_query three_districts))]
    /\ json_get "analysis_type" (body r)
       = Some (json_of_pyval (requested_analysis_type {[ "analysis_type" := PStr "weekly_digest" ]}))
    /\ new_s3_calls initial_state st' = [put]
    /\ Key put = "reports/"
                 +:+ py_str (requested_analysis_type {[ "analysis_type" := PStr "weekly_digest" ]})
                 +:+ "/" +:+ dt_strftime (clock (stub_world [] always_ok sink_ok)
                                            (2 + clock_reads initial_state)) +:+ ".json"
    /\ json_get "analysis_type" (Body put)
       = Some (json_of_pyval (requested_analysis_type {[ "analysis_type" := PStr "weekly_digest" ]})).
Proof.
  apply (fallback_run_keeps_requested_type (stub_world [] always_ok sink_ok)
           {[ "analysis_type" := PStr "weekly_digest" ]} initial_state
           (district_kpis_query three_districts) "Districts are improving.");
    reflexivity.
Defined.

(** ** The at-risk-students query *)

Lemma at_risk_students_query_length groups :
  (length (at_risk_students_query groups) <= 20)%nat.
Proof. unfold at_risk_students_query. rewrite length_firstn. lia. Qed.

Lemma at_risk_students_query_having groups r :
  r ∈ at_risk_students_query groups ->
  having_at_risk r = true /\ exists g, g ∈ groups /\ r = select_at_risk_students g.
Proof.
  unfold at_risk_students_query. intros Hin.
  apply (subseteq_take 20) in Hin.
  apply list_elem_of_filter in Hin as [Hh Hin].
  split; [exact Hh|].
  change (map select_at_risk_students groups) with (select_at_risk_students <$> groups) in Hin.
  apply list_elem_of_fmap_1 in Hin as [g [-> Hg]]. eauto.
Qed.

(** Rounding to the nearest integer stays below a positive integer bound
    exactly for the numbers below the bound less one half. *)
Lemma round_half_away_lt (x : Q) (n : Z) :
  0 < n -> (round_half_away x < n <-> (x < inject_Z n - (1 # 2))%Q).
Proof.
  intros Hn. unfold round_half_away.
  destruct (Qle_bool 0 x) eqn:Hx.
  - pose proof (Qfloor_le (x + (1 # 2))) as Hlo.
    pose proof (Qlt_floor (x + (1 # 2))) as Hhi.
    split.
    + intros Hlt.
      assert (inject_Z (Qfloor (x + (1 # 2)) + 1) <= inject_Z n)%Q as Hle
        by (rewrite <- Zle_Qle; lia).
      lra.
    + intros Hlt. rewrite Zlt_Qlt. lra.
  - assert (x < 0)%Q as Hneg.
    { apply Qnot_le_lt. intros Hle. apply Qle_bool_iff in Hle. congruence. }
    assert (0 <= Qfloor (- x + (1 # 2))) as Hfloor.
    { change 0 with (Qfloor 0). apply Qfloor_resp_le. lra. }
    assert (inject_Z 1 <= inject_Z n)%Q as Hone by (rewrite <- Zle_Qle; lia).
    change (inject_Z 1) with 1%Q in Hone.
    split; [intros _; lra | intros _; lia].
Qed.

Lemma having_at_risk_true (r : row) :
  having_at_risk r = true <->
  (exists h, assoc "avg_marks" r = Some (CNum h) /\ h < 6000)
  \/ (exists h, assoc "attendance_pct" r = Some (CNum h) /\ h < 7000).
Proof.
  unfold having_at_risk, sql_lt, sql_or.
  destruct (assoc "avg_marks" r) as [[| s | h1]|];
    destruct (assoc "attendance_pct" r) as [[| s' | h2]|];
    repeat match goal with
           | |- context [?a <? ?b] => destruct (Z.ltb_spec a b)
           end;
    split; try discriminate; try reflexivity;
    try (intros [(h & Hh & Hlt) | (h & Hh & Hlt)]; simplify_eq; lia);
    intros _; eauto.
Qed.

(** X9: the HAVING clause keeps a student exactly when the average of the
    marks is known and below 59.995, or the attendance percentage is known
    and below 69.995: the thresholds 60 and 70 are applied to the rounded
    columns, and a NULL column never flags anyone.  Every row the query
    returns is the selected row of such a student, and a student without
    marks and without attendance records is never returned. *)
Theorem at_risk_having_thresholds :
  (forall g : student_group,
     having_at_risk (select_at_risk_students g) = true <->
     (exists q, SQL_AVG (map er_marks_obtained (group_rows g)) = Some q
                /\ (q < 59995 # 1000)%Q)
     \/ (exists q, attendance_ratio g = Some q /\ (q < 69995 # 1000)%Q))
  /\ (forall groups r,
        r ∈ at_risk_students_query groups ->
        exists g, g ∈ groups /\ r = select_at_risk_students g
                  /\ having_at_risk (select_at_risk_students g) = true)
  /\ (forall groups g,
        Forall (fun row => er_marks_obtained row = None) (group_rows g) ->
        Forall (fun row => sa_attendance_id row = None) (group_rows g) ->
        select_at_risk_students g ∉ at_risk_students_query groups).
Proof.
  assert (forall q bound, 0 < bound ->
            (round_half_away (q * 100) < bound
             <-> (q < (inject_Z bound - (1 # 2)) / 100)%Q)) as Hround.
  { intros q bound Hb. rewrite round_half_away_lt by assumption.
    split; intros H.
    - apply Qlt_shift_div_l; [reflexivity | exact H].
    - apply (Qmult_lt_r _ _ 100) in H; [|reflexivity].
      assert ((inject_Z bound - (1 # 2)) / 100 * 100 == inject_Z bound - (1 # 2))%Q as Heq
        by (field).
      rewrite Heq in H. exact H. }
  assert (forall g : student_group,
     having_at_risk (select_at_risk_students g) = true <->
     (exists q, SQL_AVG (map er_marks_obtained (group_rows g)) = Some q
                /\ (q < 59995 # 1000)%Q)
     \/ (exists q, attendance_ratio g = Some q /\ (q < 69995 # 1000)%Q)) as Hhaving.
  { intros g. rewrite having_at_risk_true.
    cbn [select_at_risk_students assoc String.eqb Ascii.eqb Bool.eqb].
    assert (forall (x : option Q) bound, 0 < bound ->
              (exists h, Some (cell_of_num (ROUND2 x)) = Some (CNum h) /\ h < bound)
              <-> (exists q, x = Some q /\ (q < (inject_Z bound - (1 # 2)) / 100)%Q)) as Hcol.
    { intros [q|] bound Hb; simpl.
      - split.
        + intros (h & Hh & Hlt). injection Hh as <-. exists q. split; [reflexivity|].
          apply Hround; assumption.
        + intros (q' & Hq & Hlt). injection Hq as <-. eexists. split; [reflexivity|].
          apply Hround; assumption.
      - split; [intros (h & Hh & _); discriminate | intros (q & Hq & _); discriminate]. }
    rewrite (Hcol _ 6000), (Hcol _ 7000) by lia.
    assert (forall q, (q < (inject_Z 6000 - (1 # 2)) / 100 <-> q < 59995 # 1000)%Q) as H60.
    { intros q. assert ((inject_Z 6000 - (1 # 2)) / 100 == 59995 # 1000)%Q as -> by reflexivity.
      reflexivity. }
    assert (forall q, (q < (inject_Z 7000 - (1 # 2)) / 100 <-> q < 69995 # 1000)%Q) as H70.
    { intros q. assert ((inject_Z 7000 - (1 # 2)) / 100 == 69995 # 1000)%Q as -> by reflexivity.
      reflexivity. }
    split; (intros [(q & Hq & Hlt) | (q & Hq & Hlt)];
            [left | right]; exists q; (split; [exact Hq|]));
      first [apply H60; exact Hlt | apply H70; exact Hlt]. }
  split; [exact Hhaving|]. split.
  - intros groups r Hin.
    apply at_risk_students_query_having in Hin as (Hh & g & Hg & ->). eauto.
  - intros groups g Hmarks Hatt Hin.
    apply at_risk_students_query_having in Hin as (Hh & _).
    apply Hhaving in Hh.
    apply SQL_AVG_null in Hmarks. apply attendance_ratio_null in Hatt.
    destruct Hh as [(q & Hq & _) | (q & Hq & _)]; congruence.
Qed.

Lemma count_present_le_total (rows : list student_join_row) :
  Forall (fun r => sa_attendance_id r = None -> sa_status r = None) rows ->
  0 <= SQL_COUNT (map case_present rows) <= SQL_COUNT (map sa_attendance_id rows).
Proof.
  intros Hinv. unfold SQL_COUNT.
  assert (length (omap id (map case_present rows))
          <= length (omap id (map sa_attendance_id rows)))%nat as Hle; [|lia].
  induction Hinv as [|r rows Hr _ IH]; [reflexivity|].
  cbn [map omap list_omap]. unfold case_present at 1.
  destruct (sa_attendance_id r) as [i|]; cbn [id].
  - destruct (sa_status r) as [s|]; [destruct (String.eqb s "Present")|]; simpl; lia.
  - rewrite Hr by reflexivity. exact IH.
Qed.

Lemma round_half_away_between (x : Q) (lo hi : Z) :
  (inject_Z lo <= x)%Q -> (x <= inject_Z hi)%Q -> lo <= round_half_away x <= hi.
Proof.
  intros Hlo Hhi.
  destruct (round_half_away_close x) as [Hup Hdown].
  assert (inject_Z lo < inject_Z (round_half_away x + 1))%Q as H1.
  { rewrite inject_Z_plus. change (inject_Z 1) with 1%Q.
    set (r := inject_Z (round_half_away x)) in *. set (l := inject_Z lo) in *.
    clearbody r l. lra. }
  assert (inject_Z (round_half_away x) < inject_Z (hi + 1))%Q as H2.
  { rewrite inject_Z_plus. change (inject_Z 1) with 1%Q.
    set (r := inject_Z (round_half_away x)) in *. set (u := inject_Z hi) in *.
    clearbody r u. lra. }
  rewrite <- Zlt_Qlt in H1, H2. lia.
Qed.

(** X10: when every joined row that carries an attendance status also
    carries its attendance id, as rows of one LEFT JOINed table do, the
    attendance percentage of a fetched student, if not null, lies between
    0.00 and 100.00. *)
Theorem attendance_pct_is_a_percentage (g : student_group) (h : Z) :
  Forall (fun r => sa_attendance_id r = None -> sa_status r = None) (group_rows g) ->
  assoc "attendance_pct" (select_at_risk_students g) = Some (CNum h) ->
  0 <= h <= 10000.
Proof.
  intros Hinv Hh.
  cbn [select_at_risk_students assoc String.eqb Ascii.eqb Bool.eqb] in Hh.
  pose proof (count_present_le_total _ Hinv) as [Hp Hpt].
  unfold attendance_ratio, NULLIF0 in Hh.
  destruct (Z.eqb_spec (SQL_COUNT (map sa_attendance_id (group_rows g))) 0) as [|Hne];
    [discriminate|].
  simpl in Hh. injection Hh as <-.
  set (p := SQL_COUNT (map case_present (group_rows g))) in *.
  set (t := SQL_COUNT (map sa_attendance_id (group_rows g))) in *.
  assert (0 <= inject_Z p)%Q as HP by (change 0%Q with (inject_Z 0); rewrite <- Zle_Qle; lia).
  assert (inject_Z p <= inject_Z t)%Q as HPT by (rewrite <- Zle_Qle; lia).
  assert (0 < inject_Z t)%Q as HT by (change 0%Q with (inject_Z 0); rewrite <- Zlt_Qlt; lia).
  set (P := inject_Z p) in *. set (T := inject_Z t) in *. clearbody P T.
  apply round_half_away_between.
  - change (inject_Z 0) with 0%Q.
    apply Qmult_le_0_compat; [|discriminate].
    apply Qle_shift_div_l; [exact HT | lra].
  - assert (P * 100 / T <= 100)%Q as Hq
      by (apply Qle_shift_div_r; [exact HT | lra]).
    change (inject_Z 10000) with 10000%Q.
    set (q := (P * 100 / T)%Q) in *. clearbody q. lra.
Qed.

Lemma attendance_pct_is_a_percentage_witness :
  assoc "attendance_pct" (select_at_risk_students student_without_exams) = Some (CNum 5000)
  /\ 0 <= 5000 <= 10000.
Proof.
  split; [reflexivity|].
  apply (attendance_pct_is_a_percentage student_without_exams 5000).
  - repeat constructor; discriminate.
  - reflexivity.
Defined.

(** ** The district ranking *)

Lemma round_half_away_monotone (x y : Q) :
  (x <= y)%Q -> round_half_away x <= round_half_away y.
Proof.
  intros Hxy. unfold round_half_away.
  destruct (Qle_bool 0 x) eqn:Hx; destruct (Qle_bool 0 y) eqn:Hy.
  - apply Qfloor_resp_le. lra.
  - apply Qle_bool_iff in Hx.
    assert (~ (0 <= y)%Q) as Hny by (intros H; apply Qle_bool_iff in H; congruence).
    exfalso. apply Hny. lra.
  - assert (~ (0 <= x)%Q) as Hnx by (intros H; apply Qle_bool_iff in H; congruence).
    apply Qle_bool_iff in Hy.
    assert (0 <= Qfloor (- x + (1 # 2))) as H1.
    { change 0 with (Qfloor 0). apply Qfloor_resp_le. apply Qnot_le_lt in Hnx. lra. }
    assert (0 <= Qfloor (y + (1 # 2))) as H2.
    { change 0 with (Qfloor 0). apply Qfloor_resp_le. lra. }
    lia.
  - assert (Qfloor (- y + (1 # 2)) <= Qfloor (- x + (1 # 2))) as H
      by (apply Qfloor_resp_le; lra).
    lia.
Qed.

(** X11: rounding never inverts the ranking of the districts.  When the
    joined rows arrive in descending order of their performance index (NULL
    counted as 0), the [performance_index] values of the fetched rows
    descend as well; rounding can only turn a difference into a tie. *)
Theorem rounding_keeps_district_ranking (joined : list district_join_row)
    (i j : nat) (ra rb : row) :
  (forall (i j : nat) a b,
     (i <= j)%nat -> joined !! i = Some a -> joined !! j = Some b ->
     (default 0 (c_district_performance_index b)
      <= default 0 (c_district_performance_index a))%Q) ->
  (i <= j)%nat ->
  district_kpis_query joined !! i = Some ra ->
  district_kpis_query joined !! j = Some rb ->
  exists ha hb,
    assoc "performance_index" ra = Some (CNum ha)
    /\ assoc "performance_index" rb = Some (CNum hb)
    /\ hb <= ha.
Proof.
  intros Hsorted Hij Ha Hb.
  unfold district_kpis_query in Ha, Hb.
  change (map select_district_kpis joined) with (select_district_kpis <$> joined) in Ha, Hb.
  rewrite list_lookup_fmap in Ha, Hb.
  destruct (joined !! i) as [a|] eqn:Hi; [|discriminate].
  destruct (joined !! j) as [b|] eqn:Hj; [|discriminate].
  simpl in Ha, Hb. injection Ha as <-. injection Hb as <-.
  eexists _, _. split; [reflexivity|]. split; [reflexivity|].
  apply round_half_away_monotone.
  specialize (Hsorted i j a b Hij Hi Hj).
  apply Qmult_le_compat_r; [exact Hsorted | discriminate].
Qed.

Lemma rounding_keeps_district_ranking_witness :
  exists ha hb,
    assoc "performance_index" (select_district_kpis (district "Mysuru" (925 # 10)))
    = Some (CNum ha)
    /\ assoc "performance_index" (select_district_kpis (district "Kolar" (4025 # 100)))
       = Some (CNum hb)
    /\ hb <= ha.
Proof.
  apply (rounding_keeps_district_ranking three_districts 0 2).
  - intros i j a b Hij Ha Hb.
    destruct i as [|[|[|i]]]; destruct j as [|[|[|j]]];
      simpl in Ha, Hb; try discriminate; try lia;
      injection Ha as <-; injection Hb as <-; vm_compute; discriminate.
  - lia.
  - reflexivity.
  - reflexivity.
Defined.

(** ** The test client against the deployed handler *)

Lemma client_payload_requests (a m : string) :
  let payload : gmap string pyval :=
    {[ "analysis_type" := PStr a; "model" := PStr m; "save_to_s3" := PBool true ]} in
  requested_analysis_type payload = PStr a
  /\ requested_model payload = PStr m
  /\ requested_save payload = PBool true.
Proof.
  cbv zeta. unfold requested_analysis_type, requested_model, requested_save.
  repeat split.
Qed.

(** What the client makes of each envelope of the handler. *)
Lemma read_failure_envelope e : TestClient.read_success_body (body (failure_envelope e)) = None.
Proof. reflexivity. Qed.

Lemma read_no_risk_envelope : TestClient.read_success_body (body no_risk_envelope) = None.
Proof. reflexivity. Qed.

Lemma read_success_envelope t T mc mid data q path text :
  TestClient.read_success_body
    (body (success_envelope t T (run_metadata mc mid data q) path text))
  = Some (body (success_envelope t T (run_metadata mc mid data q) path text)).
Proof. reflexivity. Qed.

Lemma invoke_lambda_served w a m st :
  TestClient.invoke_lambda (lambda_service w) a m st =
  match lambda_handler w {[ "analysis_type" := PStr a; "model" := PStr m;
                            "save_to_s3" := PBool true ]} st with
  | (Ok r, st') => (TestClient.read_success_body (body r), st')
  | (Raise e, st') => (None, st')
  end.
Proof.
  unfold TestClient.invoke_lambda, lambda_service. cbv zeta.
  destruct (lambda_handler w _ st) as [[r|e] st']; [|reflexivity].
  cbn [Z.eqb Pos.eqb].
  destruct (headers r); reflexivity.
Qed.

(** X12: against the deployed handler, [invoke_lambda] never raises and
    leaves the state the handler left; it returns the body exactly when the
    handler completed an analysis (status 200 with metadata).  A failure
    envelope gives [None], and so does the valid answer to an empty
    at-risk-students result, which has neither timestamp nor metadata. *)
Theorem client_returns_completed_analyses_only (w : world) (a m : string) (st : state) :
  let event : gmap string pyval :=
    {[ "analysis_type" := PStr a; "model" := PStr m; "save_to_s3" := PBool true ]} in
  let served := lambda_handler w event st in
  let got := TestClient.invoke_lambda (lambda_service w) a m st in
  got.2 = served.2
  /\ exists r,
       served.1 = Ok r
       /\ got.1 = (if decide (statusCode r = 200 /\ is_Some (json_get "metadata" (body r)))
                   then Some (body r) else None)
       /\ (a = "at_risk_students" -> dataset w (PStr "at_risk_students") = inr [] ->
           statusCode r = 200 /\ got.1 = None).
Proof.
  cbv zeta. rewrite invoke_lambda_served.
  destruct (client_payload_requests a m) as (HT & HM & HS). cbv zeta in HT, HM, HS.
  rewrite lambda_handler_run, HT, HM, HS.
  destruct (dataset w (PStr a)) as [e|data] eqn:HD; cbn [fst snd].
  { split; [reflexivity|]. eexists. split; [reflexivity|].
    split; [reflexivity|]. intros -> Hempty. congruence. }
  destruct (short_circuits (PStr a) data) eqn:Hsc; cbn [fst snd].
  { split; [reflexivity|]. eexists. split; [reflexivity|].
    split; [reflexivity|]. auto. }
  rewrite analyse_run. cbv zeta.
  destruct (bedrock_invoke_model w _ _) as [text|e|k e]; cbn [fst snd].
  - destruct (py_truthy (PBool true)); cbn [fst snd];
      (split; [reflexivity|]; eexists; split; [reflexivity|];
       split; [reflexivity|]; intros -> Hempty; rewrite Hempty in HD;
       injection HD as <-; discriminate).
  - split; [reflexivity|]. eexists. split; [reflexivity|].
    split; [reflexivity|]. intros -> Hempty. rewrite Hempty in HD.
    injection HD as <-. discriminate.
  - split; [reflexivity|]. eexists. split; [reflexivity|].
    split; [reflexivity|]. intros -> Hempty. rewrite Hempty in HD.
    injection HD as <-. discriminate.
Qed.

Lemma invoke_lambda_no_risk w m st :
  dataset w (PStr "at_risk_students") = inr [] ->
  TestClient.invoke_lambda (lambda_service w) "at_risk_students" m st = (None, tick st).
Proof.
  intros HD. rewrite invoke_lambda_served.
  destruct (client_payload_requests "at_risk_students" m) as (HT & HM & HS).
  cbv zeta in HT, HM, HS.
  rewrite lambda_handler_run, HT, HD. reflexivity.
Qed.

(** X13: when no student is at risk, the suite of
    [test_all_analysis_types] cannot pass in full: its four tests run in the
    listed order, the last one (at_risk_students with haiku) is counted as
    failed although the handler answered it with status 200, and the
    summary shows at most 3 of 4. *)
Theorem suite_fails_without_at_risk_students (w : world) (st : state) :
  dataset w (PStr "at_risk_students") = inr [] ->
  let results := (TestClient.test_all_analysis_types (lambda_service w) st).1 in
  (fun r => (TestClient.tr_analysis_type r, TestClient.tr_model r)) <$> results
  = TestClient.tests
  /\ last results = Some {| TestClient.tr_analysis_type := "at_risk_students";
                            TestClient.tr_model := "haiku";
                            TestClient.success := false |}
  /\ length results = 4%nat
  /\ (TestClient.success_count results <= 3)%nat.
Proof.
  intros HD. cbv zeta.
  unfold TestClient.test_all_analysis_types, TestClient.tests, TestClient.run_tests.
  destruct (TestClient.invoke_lambda (lambda_service w) "quick_summary" "haiku" st)
    as [r1 st1].
  destruct (TestClient.invoke_lambda (lambda_service w) "comprehensive" "sonnet" st1)
    as [r2 st2].
  destruct (TestClient.invoke_lambda (lambda_service w) "at_risk" "sonnet" st2)
    as [r3 st3].
  rewrite (invoke_lambda_no_risk w "haiku" st3 HD).
  cbn [fst].
  split; [reflexivity|]. split; [reflexivity|]. split; [reflexivity|].
  unfold TestClient.success_count.
  destruct r1, r2, r3; vm_compute; lia.
Qed.

Lemma suite_fails_without_at_risk_students_witness :
  (fun r => (TestClient.tr_analysis_type r, TestClient.tr_model r))
    <$> (TestClient.test_all_analysis_types
           (lambda_service (stub_world [] always_ok sink_ok)) initial_state).1
  = TestClient.tests
  /\ last (TestClient.test_all_analysis_types
             (lambda_service (stub_world [] always_ok sink_ok)) initial_state).1
     = Some {| TestClient.tr_analysis_type := "at_risk_students";
               TestClient.tr_model := "haiku";
               TestClient.success := false |}
  /\ length (TestClient.test_all_analysis_types
               (lambda_service (stub_world [] always_ok sink_ok)) initial_state).1 = 4%nat
  /\ (TestClient.success_count
        (TestClient.test_all_analysis_types
           (lambda_service (stub_world [] always_ok sink_ok)) initial_state).1 <= 3)%nat.
Proof.
  apply (suite_fails_without_at_risk_students (stub_world [] always_ok sink_ok) initial_state).
  reflexivity.
Defined.

(** X14: the command line of the test client accepts as an analysis type
    exactly the types that have a template in [create_bedrock_prompt].  Such
    a command runs one test with the model given as second argument, or
    sonnet when there is none; [all] and [logs] select the suite and the
    logs; any other command is reported as unknown; without a command one
    test of quick_summary with haiku is run. *)
Theorem cli_accepts_the_registered_types (script command data_json : string)
    (rest : list string) :
  (is_Some (prompts data_json !! command)
   <-> exists model, TestClient.main (script :: command :: rest)
                     = TestClient.RunOne command model)
  /\ (is_Some (prompts data_json !! command) ->
      TestClient.main (script :: command :: rest)
      = TestClient.RunOne command (default "sonnet" (head rest)))
  /\ (command = "all" <-> TestClient.main (script :: command :: rest) = TestClient.RunAll)
  /\ (command = "logs" <-> TestClient.main (script :: command :: rest) = TestClient.ShowLogs)
  /\ (prompts data_json !! command = None -> command <> "all" -> command <> "logs" ->
      TestClient.main (script :: command :: rest) = TestClient.UnknownCommand command)
  /\ TestClient.main [script] = TestClient.RunOne "quick_summary" "haiku".
Proof.
  assert (is_Some (prompts data_json !! command)
          <-> command ∈ [ "comprehensive"; "at_risk"; "quick_summary";
                          "at_risk_students"; "predictive" ]) as Hreg.
  { rewrite prompts_lookup. set_unfold.
    repeat case_decide; subst;
      (split; [intros Hsome | intros Hin]);
      first [ solve [eauto 10]
            | solve [destruct Hsome; discriminate]
            | solve [destruct Hin as [Hc|[Hc|[Hc|[Hc|[Hc|[]]]]]]; congruence] ]. }
  assert (command ∈ [ "comprehensive"; "at_risk"; "quick_summary";
                      "at_risk_students"; "predictive" ] ->
          command <> "all" /\ command <> "logs") as Hnot.
  { set_unfold. intros [Hc|[Hc|[Hc|[Hc|[Hc|[]]]]]]; subst; split; discriminate. }
  unfold TestClient.main.
  repeat split.
  - intros H. apply Hreg in H. destruct (Hnot H) as [Ha Hl].
    rewrite !decide_False by assumption. rewrite decide_True by assumption. eauto.
  - intros [model Hrun]. apply Hreg.
    repeat case_decide; try discriminate. assumption.
  - intros H. apply Hreg in H. destruct (Hnot H) as [Ha Hl].
    rewrite !decide_False by assumption. rewrite decide_True by assumption.
    destruct rest; reflexivity.
  - intros ->. reflexivity.
  - repeat case_decide; try discriminate. auto.
  - intros ->. reflexivity.
  - repeat case_decide; try discriminate; auto.
  - intros Hnone Ha Hl.
    rewrite !decide_False; try assumption; [reflexivity|].
    intros Hin. apply Hreg in Hin. rewrite Hnone in Hin. destruct Hin. discriminate.
Qed.

(** ** The analyzer *)

Lemma analyzer_select_prompt_fallback (registry : gmap string string) (T : pyval) :
  py_dict_get registry T = None ->
  Analyzer.select_prompt registry T = registry !!! "district_performance".
Proof. intros H. unfold Analyzer.select_prompt. rewrite H. reflexivity. Qed.

Lemma analyzer_registry_lookup (district at_risk : string) (T : pyval) :
  T <> PStr "district_performance" ->
  T <> PStr "at_risk_students" ->
  py_dict_get (list_to_map [ ("district_performance", district);
                             ("at_risk_students", at_risk) ] : gmap string string) T = None.
Proof.
  intros Hd Ha. destruct T as [| b | z | s]; try reflexivity.
  cbn [py_dict_get list_to_map foldr uncurry fst snd].
  rewrite !lookup_insert.
  repeat (case_decide; [subst; congruence|]).
  apply lookup_empty.
Qed.

(** X15: in [SchoolMonitoringAnalyzer], each of the three
    [analyze_with_llm_*] methods sends, for any analysis type other than
    district_performance and at_risk_students, the request it sends for
    district_performance: the data is put into that provider's district
    template.  The handler's own type names comprehensive, at_risk,
    quick_summary and predictive are among these. *)
Theorem analyzer_falls_back_to_district_performance (data_string : string) (T : pyval) :
  T <> PStr "district_performance" ->
  T <> PStr "at_risk_students" ->
  (forall create,
     Analyzer.analyze_with_llm_openai create data_string T
     = Analyzer.analyze_with_llm_openai create data_string (PStr "district_performance"))
  /\ (forall create,
        Analyzer.analyze_with_llm_claude create data_string T
        = Analyzer.analyze_with_llm_claude create data_string (PStr "district_performance"))
  /\ (forall invoke_model,
        Analyzer.analyze_with_llm_bedrock invoke_model data_string T
        = Analyzer.analyze_with_llm_bedrock invoke_model data_string (PStr "district_performance"))
  /\ Analyzer.select_prompt (Analyzer.openai_prompts data_string) T
     = fill Analyzer.openai_district_performance_head
            Analyzer.openai_district_performance_tail data_string
  /\ Analyzer.select_prompt (Analyzer.claude_prompts data_string) T
     = fill Analyzer.claude_district_performance_head
            Analyzer.claude_district_performance_tail data_string
  /\ Analyzer.select_prompt (Analyzer.bedrock_prompts data_string) T
     = fill Analyzer.bedrock_district_performance_head
            Analyzer.bedrock_district_performance_tail data_string.
Proof.
  intros Hd Ha.
  assert (Analyzer.select_prompt (Analyzer.openai_prompts data_string) T
          = fill Analyzer.openai_district_performance_head
                 Analyzer.openai_district_performance_tail data_string) as Ho.
  { rewrite analyzer_select_prompt_fallback
      by (apply analyzer_registry_lookup; assumption).
    apply lookup_total_correct. reflexivity. }
  assert (Analyzer.select_prompt (Analyzer.claude_prompts data_string) T
          = fill Analyzer.claude_district_performance_head
                 Analyzer.claude_district_performance_tail data_string) as Hc.
  { rewrite analyzer_select_prompt_fallback
      by (apply analyzer_registry_lookup; assumption).
    apply lookup_total_correct. reflexivity. }
  assert (Analyzer.select_prompt (Analyzer.bedrock_prompts data_string) T
          = fill Analyzer.bedrock_district_performance_head
                 Analyzer.bedrock_district_performance_tail data_string) as Hb.
  { rewrite analyzer_select_prompt_fallback
      by (apply analyzer_registry_lookup; assumption).
    apply lookup_total_correct. reflexivity. }
  repeat split; try assumption.
  - intros create. unfold Analyzer.analyze_with_llm_openai. cbv zeta. rewrite Ho. reflexivity.
  - intros create. unfold Analyzer.analyze_with_llm_claude. cbv zeta. rewrite Hc. reflexivity.
  - intros invoke_model. unfold Analyzer.analyze_with_llm_bedrock. cbv zeta. rewrite Hb.
    reflexivity.
Qed.

Lemma analyzer_falls_back_to_district_performance_witness :
  (forall create,
     Analyzer.analyze_with_llm_openai create "district  composite_index" (PStr "comprehensive")
     = Analyzer.analyze_with_llm_openai create "district  composite_index"
         (PStr "district_performance"))
  /\ (forall create,
        Analyzer.analyze_with_llm_claude create "district  composite_index" (PStr "comprehensive")
        = Analyzer.analyze_with_llm_claude create "district  composite_index"
            (PStr "district_performance"))
  /\ (forall invoke_model,
        Analyzer.analyze_with_llm_bedrock invoke_model "district  composite_index"
          (PStr "comprehensive")
        = Analyzer.analyze_with_llm_bedrock invoke_model "district  composite_index"
            (PStr "district_performance"))
  /\ Analyzer.select_prompt (Analyzer.openai_prompts "district  composite_index")
       (PStr "comprehensive")
     = fill Analyzer.openai_district_performance_head
            Analyzer.openai_district_performance_tail "district  composite_index"
  /\ Analyzer.select_prompt (Analyzer.claude_prompts "district  composite_index")
       (PStr "comprehensive")
     = fill Analyzer.claude_district_performance_head
            Analyzer.claude_district_performance_tail "district  composite_index"
  /\ Analyzer.select_prompt (Analyzer.bedrock_prompts "district  composite_index")
       (PStr "comprehensive")
     = fill Analyzer.bedrock_district_performance_head
            Analyzer.bedrock_district_performance_tail "district  composite_index".
Proof.
  apply (analyzer_falls_back_to_district_performance "district  composite_index"
           (PStr "comprehensive")); discriminate.
Defined.

(** X16: the analyzer's district query and the handler's normalise alike.
    For every joined row the two fetched rows agree on every column other
    than the composite one, which holds the same value under the name
    [composite_index] in the analyzer and [performance_index] in the
    handler; neither row has the other's name for it. *)
Theorem analyzer_and_handler_rows_agree (j : district_join_row) (column : string) :
  column <> "performance_index" ->
  column <> "composite_index" ->
  assoc column (Analyzer.select_district_kpis j) = assoc column (select_district_kpis j)
  /\ assoc "composite_index" (Analyzer.select_district_kpis j)
     = assoc "performance_index" (select_district_kpis j)
  /\ assoc "performance_index" (Analyzer.select_district_kpis j) = None
  /\ assoc "composite_index" (select_district_kpis j) = None
  /\ length (Analyzer.select_district_kpis j) = length (select_district_kpis j).
Proof.
  intros Hp Hc.
  apply String.eqb_neq in Hp, Hc.
  split; [|repeat split].
  unfold Analyzer.select_district_kpis, select_district_kpis. cbn [assoc].
  rewrite Hp, Hc.
  repeat (destruct (String.eqb column _); [reflexivity|]).
  reflexivity.
Qed.

Lemma analyzer_and_handler_rows_agree_witness :
  assoc "pass_rate" (Analyzer.select_district_kpis (district "Kolar" (4025 # 100)))
  = assoc "pass_rate" (select_district_kpis (district "Kolar" (4025 # 100)))
  /\ assoc "composite_index" (Analyzer.select_district_kpis (district "Kolar" (4025 # 100)))
     = assoc "performance_index" (select_district_kpis (district "Kolar" (4025 # 100)))
  /\ assoc "performance_index" (Analyzer.select_district_kpis (district "Kolar" (4025 # 100)))
     = None
  /\ assoc "composite_index" (select_district_kpis (district "Kolar" (4025 # 100))) = None
  /\ length (Analyzer.select_district_kpis (district "Kolar" (4025 # 100)))
     = length (select_district_kpis (district "Kolar" (4025 # 100))).
Proof.
  apply (analyzer_and_handler_rows_agree (district "Kolar" (4025 # 100)) "pass_rate");
    discriminate.
Defined.

(** ** The average of the marks *)

Lemma sum_between (vs : list Q) (L H : Q) :
  Forall (fun v => (L <= v /\ v <= H)%Q) vs ->
  (inject_Z (Z.of_nat (length vs)) * L <= foldr Qplus 0 vs
   /\ foldr Qplus 0 vs <= inject_Z (Z.of_nat (length vs)) * H)%Q.
Proof.
  induction 1 as [|v vs [Hl Hh] _ [IHl IHh]].
  - cbn [length foldr]. change (inject_Z (Z.of_nat 0)) with 0%Q. split; lra.
  - cbn [length foldr]. rewrite Nat2Z.inj_succ, <- Z.add_1_r, inject_Z_plus.
    change (inject_Z 1) with 1%Q.
    set (N := inject_Z (Z.of_nat (length vs))) in *.
    set (s := foldr Qplus 0%Q vs) in *. clearbody N s.
    split; lra.
Qed.

Lemma marks_between (rows : list student_join_row) (L H : Q) :
  Forall (fun r => forall q, er_marks_obtained r = Some q -> (L <= q /\ q <= H)%Q) rows ->
  Forall (fun v => (L <= v /\ v <= H)%Q) (omap id (map er_marks_obtained rows)).
Proof.
  induction 1 as [|r rows Hr _ IH]; [constructor|].
  cbn [map omap list_omap].
  destruct (er_marks_obtained r) as [q|]; cbn [id]; [|exact IH].
  constructor; [apply Hr; reflexivity | exact IH].
Qed.

Lemma mean_between (s N L H : Q) :
  (0 < N)%Q -> (N * L <= s)%Q -> (s <= N * H)%Q ->
  (100 * L <= s / N * 100 /\ s / N * 100 <= 100 * H)%Q.
Proof.
  intros HN Hl Hu.
  assert (L <= s / N)%Q as Hlo by (apply Qle_shift_div_l; [exact HN | lra]).
  assert (s / N <= H)%Q as Hhi by (apply Qle_shift_div_r; [exact HN | lra]).
  set (a := (s / N)%Q) in *. clearbody a. split; lra.
Qed.

(** X17: the average never leaves the range of the marks.  When every mark
    of a student lies between two whole numbers, the student's [avg_marks],
    if not null, lies between them as well (in hundredths: between 100
    times the one and 100 times the other). *)
Theorem avg_marks_within_the_range_of_the_marks (g : student_group) (lo hi h : Z) :
  Forall (fun r => forall q, er_marks_obtained r = Some q ->
                             (inject_Z lo <= q /\ q <= inject_Z hi)%Q) (group_rows g) ->
  assoc "avg_marks" (select_at_risk_students g) = Some (CNum h) ->
  100 * lo <= h <= 100 * hi.
Proof.
  intros Hrange Hh.
  cbn [select_at_risk_students assoc String.eqb Ascii.eqb Bool.eqb] in Hh.
  apply marks_between, sum_between in Hrange as [Hl Hu].
  unfold SQL_AVG in Hh.
  destruct (omap id (map er_marks_obtained (group_rows g))) as [|v vs] eqn:Hvs;
    [discriminate|].
  simpl in Hh. injection Hh as <-.
  assert (0 < inject_Z (Z.of_nat (length (v :: vs))))%Q as Hn.
  { change 0%Q with (inject_Z 0). rewrite <- Zlt_Qlt. simpl length. lia. }
  destruct (mean_between _ _ _ _ Hn Hl Hu) as [Hlo Hhi].
  apply round_half_away_between.
  - rewrite inject_Z_mult. exact Hlo.
  - rewrite inject_Z_mult. exact Hhi.
Qed.

Lemma avg_marks_within_the_range_of_the_marks_witness :
  assoc "avg_marks" (select_at_risk_students student_just_below_sixty) = Some (CNum 6000)
  /\ 100 * 0 <= 6000 <= 100 * 100.
Proof.
  split; [reflexivity|].
  apply (avg_marks_within_the_range_of_the_marks student_just_below_sixty 0 100 6000).
  - repeat constructor; simpl in *; injection H as <-; discriminate.
  - reflexivity.
Defined.

(** Three students at the edges of the HAVING clause: without exams but
    absent half the time (returned, with a null average), averaging 59.996
    with full attendance (rounded to 60.00, not returned), and without any
    record (not returned). *)
Example students_at_the_thresholds :
  at_risk_students_query
    [student_just_below_sixty; student_without_exams; student_without_records]
  = [select_at_risk_students student_without_exams]
  /\ assoc "avg_marks" (select_at_risk_students student_just_below_sixty) = Some (CNum 6000)
  /\ assoc "attendance_pct" (select_at_risk_students student_just_below_sixty)
     = Some (CNum 10000)
  /\ assoc "avg_marks" (select_at_risk_students student_without_records) = Some CNull
  /\ assoc "attendance_pct" (select_at_risk_students student_without_records) = Some CNull.
Proof. repeat split. Qed.

(** The test client on a world where every stage works and no student is at
    risk: three tests pass, the fourth does not. *)
Example suite_on_a_healthy_world :
  TestClient.success <$> (TestClient.test_all_analysis_types
                            (lambda_service (stub_world [] always_ok sink_ok)) initial_state).1
  = [true; true; true; false].
Proof. vm_compute. reflexivity. Qed.

(** ** The program on the runtime's objects *)

Lemma serialisable_row_from_db kind (r : row) :
  match Runtime.serialisable_row (map (fun kv => (kv.1, Runtime.from_db (kind kv.1) kv.2)) r) with
  | inl e => e = Exn "TypeError" "Object of type Decimal is not JSON serializable"
             /\ exists k h, (k, CNum h) ∈ r /\ kind k = Runtime.Exact
  | inr r' => r' = r /\ forall k h, (k, CNum h) ∈ r -> kind k = Runtime.Approximate
  end.
Proof.
  induction r as [|[k c] r IH]; simpl.
  - split; [reflexivity|]. intros k h Hin. inversion Hin.
  - destruct c as [|s|h]; simpl.
    + destruct (Runtime.serialisable_row _) as [e|r'].
      * destruct IH as (-> & k' & h' & Hin & Hk). split; [reflexivity|].
        exists k', h'. split; [right; exact Hin | exact Hk].
      * destruct IH as [-> IH]. split; [reflexivity|].
        intros k' h' Hin. inversion Hin; subst; eauto.
    + destruct (Runtime.serialisable_row _) as [e|r'].
      * destruct IH as (-> & k' & h' & Hin & Hk). split; [reflexivity|].
        exists k', h'. split; [right; exact Hin | exact Hk].
      * destruct IH as [-> IH]. split; [reflexivity|].
        intros k' h' Hin. inversion Hin; subst; eauto.
    + destruct (kind k) eqn:Hkind; simpl.
      * destruct (Runtime.serialisable_row _) as [e|r'].
        -- destruct IH as (-> & k' & h' & Hin & Hk). split; [reflexivity|].
           exists k', h'. split; [right; exact Hin | exact Hk].
        -- destruct IH as [-> IH]. split; [reflexivity|].
           intros k' h' Hin. inversion Hin; subst; eauto.
      * split; [reflexivity|]. exists k, h. split; [left | exact Hkind].
Qed.

(** Rows come through [json.dumps] unchanged when none of their numbers is
    of an exact-value column, and raise its [TypeError] otherwise. *)
Lemma serialisable_rows_from_db kind (data : list row) :
  match Runtime.serialisable (Runtime.rows_from_db kind data) with
  | inl e => e = Exn "TypeError" "Object of type Decimal is not JSON serializable"
             /\ exists r k h, r ∈ data /\ (k, CNum h) ∈ r /\ kind k = Runtime.Exact
  | inr rows => rows = data
                /\ forall r k h, r ∈ data -> (k, CNum h) ∈ r -> kind k = Runtime.Approximate
  end.
Proof.
  induction data as [|r data IH]; simpl.
  - split; [reflexivity|]. intros r k h Hin. inversion Hin.
  - pose proof (serialisable_row_from_db kind r) as Hr.
    destruct (Runtime.serialisable_row _) as [e|r'].
    + destruct Hr as (-> & k & h & Hin & Hk). split; [reflexivity|].
      exists r, k, h. split; [left | auto].
    + destruct Hr as [-> Hr].
      fold (Runtime.rows_from_db kind data).
      destruct (Runtime.serialisable (Runtime.rows_from_db kind data)) as [e|rows].
      * destruct IH as (-> & r0 & k & h & Hin & Hc & Hk). split; [reflexivity|].
        exists r0, k, h. split; [right; exact Hin | auto].
      * destruct IH as [-> IH]. split; [reflexivity|].
        intros r0 k h Hin Hc. inversion Hin; subst; eauto.
Qed.

Lemma rows_from_db_length kind data : length (Runtime.rows_from_db kind data) = length data.
Proof. apply length_map. Qed.

Lemma is_at_risk_students_scalar (key : pyval) :
  Runtime.is_at_risk_students (Runtime.VScalar key) = bool_decide (key = PStr "at_risk_students").
Proof.
  destruct key as [| b | z | s]; simpl; try reflexivity.
  destruct (String.eqb_spec s "at_risk_students") as [->|Hne].
  - reflexivity.
  - symmetry. apply bool_decide_eq_false_2. congruence.
Qed.

(** What a fetch of the runtime delivers, by the fetch of the scalar
    program. *)
Lemma runtime_dataset w sch (T : Runtime.event_value) :
  Runtime.dataset w sch T =
  if Runtime.is_at_risk_students T then
    match dataset w (PStr "at_risk_students") with
    | inl e => inl e
    | inr data => inr (Runtime.rows_from_db (Runtime.at_risk_column sch) data)
    end
  else
    match dataset w (PStr "comprehensive") with
    | inl e => inl e
    | inr data => inr (Runtime.rows_from_db (Runtime.kpi_column sch) data)
    end.
Proof.
  unfold Runtime.dataset, dataset. simpl.
  destruct (Runtime.is_at_risk_students T).
  - destruct (db_student_groups w); reflexivity.
  - destruct (db_district_join w); reflexivity.
Qed.

(** The handler of the runtime, stage by stage.  An unhashable model choice
    ends the run before the fetch; a [Decimal] among the fetched rows and an
    unhashable analysis type end it when the prompt is built. *)
Lemma runtime_handler_run w sch event st :
  Runtime.lambda_handler w sch event st =
  match Runtime.hashable (Runtime.requested_model event) with
  | inl e => (Ok (failure_envelope e), tick st)
  | inr model =>
    match Runtime.dataset w sch (Runtime.requested_analysis_type event) with
    | inl e => (Ok (failure_envelope e), tick st)
    | inr data =>
      if Runtime.is_at_risk_students (Runtime.requested_analysis_type event)
         && match data with [] => true | _ => false end
      then (Ok no_risk_envelope, tick st)
      else
        match Runtime.serialisable data with
        | inl e => (Ok (failure_envelope e), tick st)
        | inr rows =>
          match Runtime.hashable (Runtime.requested_analysis_type event) with
          | inl e => (Ok (failure_envelope e), tick st)
          | inr key =>
            match analyse w (clock w (clock_reads st)) key model
                          (PBool (Runtime.truthy (Runtime.requested_save event)))
                          (resolve_model model) rows (tick st) with
            | (Ok r, st') => (Ok r, st')
            | (Raise e, st') => (Ok (failure_envelope e), st')
            end
          end
        end
    end
  end.
Proof.
  unfold Runtime.lambda_handler, Runtime.dataset, Runtime.requested_analysis_type,
    Runtime.requested_model, Runtime.requested_save, resolve_model, bind, try_except, now.
  fold (tick st).
  destruct (Runtime.hashable (default (Runtime.VScalar (PStr "sonnet")) (event !! "model")))
    as [e|model]; [reflexivity|].
  cbn [Runtime.lift ret].
  destruct (Runtime.is_at_risk_students _).
  - unfold Runtime.fetch_at_risk_students.
    destruct (db_student_groups w) as [e|groups]; [reflexivity|].
    unfold ret at 1.
    destruct (Runtime.rows_from_db _ (at_risk_students_query groups)) as [|r data]; [reflexivity|].
    cbn [andb]. unfold Runtime.analyse_fetched, bind.
    destruct (Runtime.serialisable (r :: data)) as [e|rows]; [reflexivity|].
    cbn [Runtime.lift ret].
    destruct (Runtime.hashable _) as [e|key]; reflexivity.
  - unfold Runtime.fetch_district_kpis.
    destruct (db_district_join w) as [e|joined]; [reflexivity|].
    unfold ret at 1. cbn [andb].
    unfold Runtime.analyse_fetched, bind.
    destruct (Runtime.serialisable _) as [e|rows]; [reflexivity|].
    cbn [Runtime.lift ret].
    destruct (Runtime.hashable _) as [e|key]; reflexivity.
Qed.

(** An event of scalars with the given parameters. *)
Lemma scalar_request_requested (key model : pyval) (save : bool) :
  let event : gmap string pyval :=
    {[ "analysis_type" := key; "model" := model; "save_to_s3" := PBool save ]} in
  requested_analysis_type event = key
  /\ requested_model event = model
  /\ requested_save event = PBool save.
Proof. repeat split. Qed.

(** Past its three checks, a run of the runtime is the run of the scalar
    program for the hashed parameters. *)
Lemma runtime_handler_refines w sch event st model key data rows :
  Runtime.hashable (Runtime.requested_model event) = inr model ->
  Runtime.hashable (Runtime.requested_analysis_type event) = inr key ->
  Runtime.dataset w sch (Runtime.requested_analysis_type event) = inr data ->
  Runtime.serialisable data = inr rows ->
  dataset w key = inr rows
  /\ Runtime.lambda_handler w sch event st
     = lambda_handler w {[ "analysis_type" := key; "model" := model;
                           "save_to_s3" := PBool (Runtime.truthy (Runtime.requested_save event)) ]}
         st.
Proof.
  intros Hm Hk HD Hs.
  assert (Runtime.requested_analysis_type event = Runtime.VScalar key) as HT.
  { destruct (Runtime.requested_analysis_type event); simpl in Hk; congruence. }
  assert (dataset w key = inr rows) as HD'.
  { rewrite runtime_dataset, HT, is_at_risk_students_scalar in HD.
    unfold dataset in *. rewrite decide_True in HD by reflexivity.
    rewrite decide_False in HD by discriminate.
    destruct (decide (key = PStr "at_risk_students")) as [Heq|Hne].
    - rewrite bool_decide_eq_true_2 in HD by assumption.
      destruct (db_student_groups w) as [e|groups]; [discriminate|].
      injection HD as <-.
      pose proof (serialisable_rows_from_db (Runtime.at_risk_column sch)
                    (at_risk_students_query groups)) as H.
      rewrite Hs in H. destruct H as [-> _]. reflexivity.
    - rewrite bool_decide_eq_false_2 in HD by assumption.
      destruct (db_district_join w) as [e|joined]; [discriminate|].
      injection HD as <-.
      pose proof (serialisable_rows_from_db (Runtime.kpi_column sch)
                    (district_kpis_query joined)) as H.
      rewrite Hs in H. destruct H as [-> _]. reflexivity. }
  split; [exact HD'|].
  rewrite runtime_handler_run, Hm, HD, Hs, Hk, lambda_handler_run.
  destruct (scalar_request_requested key model
              (Runtime.truthy (Runtime.requested_save event))) as (-> & -> & ->).
  rewrite HD'. unfold short_circuits. rewrite HT, is_at_risk_students_scalar.
  assert (match data with [] => true | _ => false end
          = match rows with [] => true | _ => false end) as ->.
  { destruct data as [|r data]; simpl in Hs; [injection Hs as <-; reflexivity|].
    destruct (Runtime.serialisable_row r); [discriminate|].
    destruct (Runtime.serialisable data); [discriminate|].
    injection Hs as <-. reflexivity. }
  reflexivity.
Qed.

(** A run whose inference call does not complete. *)
Lemma lambda_handler_not_completed w event st data e :
  dataset w (requested_analysis_type event) = inr data ->
  short_circuits (requested_analysis_type event) data = false ->
  (bedrock_invoke_model w (length (bedrock_calls st)) (run_request event data) = Malformed e
   \/ exists k, bedrock_invoke_model w (length (bedrock_calls st)) (run_request event data)
                = Failed k e) ->
  lambda_handler w event st
  = (Ok (failure_envelope e), called (run_request event data) (tick st)).
Proof.
  intros HD Hsc Hinf.
  rewrite lambda_handler_run, HD, Hsc, analyse_run. cbv zeta.
  unfold run_request in *. cbn [tick bedrock_calls].
  destruct Hinf as [Hinf | [k Hinf]]; rewrite Hinf; reflexivity.
Qed.

(** The three ways a run of the runtime can go: it ends in a failure
    envelope before any call, it answers the empty at-risk-students result,
    or it is the run of the scalar program on the serialised rows. *)
Lemma runtime_handler_cases w sch event st :
  let run := Runtime.lambda_handler w sch event st in
  (exists e, run = (Ok (failure_envelope e), tick st))
  \/ run = (Ok no_risk_envelope, tick st)
  \/ exists model key data rows,
       Runtime.hashable (Runtime.requested_model event) = inr model
       /\ Runtime.hashable (Runtime.requested_analysis_type event) = inr key
       /\ Runtime.dataset w sch (Runtime.requested_analysis_type event) = inr data
       /\ Runtime.serialisable data = inr rows
       /\ dataset w key = inr rows
       /\ short_circuits key rows = false
       /\ run = lambda_handler w {[ "analysis_type" := key; "model" := model;
                                    "save_to_s3" := PBool (Runtime.truthy
                                                             (Runtime.requested_save event)) ]} st.
Proof.
  intros run. subst run.
  destruct (Runtime.hashable (Runtime.requested_model event)) as [e|model] eqn:Hm.
  { left. exists e. rewrite runtime_handler_run, Hm. reflexivity. }
  destruct (Runtime.dataset w sch (Runtime.requested_analysis_type event)) as [e|data] eqn:HD.
  { left. exists e. rewrite runtime_handler_run, Hm, HD. reflexivity. }
  destruct (Runtime.is_at_risk_students (Runtime.requested_analysis_type event)
            && match data with [] => true | _ => false end) eqn:Hsc.
  { right. left. rewrite runtime_handler_run, Hm, HD, Hsc. reflexivity. }
  destruct (Runtime.serialisable data) as [e|rows] eqn:Hs.
  { left. exists e. rewrite runtime_handler_run, Hm, HD, Hsc, Hs. reflexivity. }
  destruct (Runtime.hashable (Runtime.requested_analysis_type event)) as [e|key] eqn:Hk.
  { left. exists e. rewrite runtime_handler_run, Hm, HD, Hsc, Hs, Hk. reflexivity. }
  right. right. exists model, key, data, rows.
  destruct (runtime_handler_refines w sch event st model key data rows Hm Hk HD Hs)
    as [HD' Hrun].
  repeat (split; [first [assumption | reflexivity]|]).
  split; [|exact Hrun].
  assert (Runtime.requested_analysis_type event = Runtime.VScalar key) as HT.
  { destruct (Runtime.requested_analysis_type event); simpl in Hk; congruence. }
  rewrite HT, is_at_risk_students_scalar in Hsc.
  unfold short_circuits.
  replace (match rows with [] => true | _ => false end)
    with (match data with [] => true | _ => false end); [exact Hsc|].
  destruct data as [|r data]; simpl in Hs; [injection Hs as <-; reflexivity|].
  destruct (Runtime.serialisable_row r); [discriminate|].
  destruct (Runtime.serialisable data); [discriminate|].
  injection Hs as <-. reflexivity.
Qed.

(** What a run of the scalar program returns and leaves, by the outcome of
    its one inference call. *)
Lemma lambda_handler_outcomes w event st data :
  dataset w (requested_analysis_type event) = inr data ->
  short_circuits (requested_analysis_type event) data = false ->
  let req := run_request event data in
  let T := requested_analysis_type event in
  let metadata := run_metadata (requested_model event) (resolve_model (requested_model event)) data
                    (total_seconds (clock w (clock_reads st)) (clock w (S (clock_reads st)))) in
  (exists e, lambda_handler w event st = (Ok (failure_envelope e), called req (tick st)))
  \/ (exists text t,
        py_truthy (requested_save event) = false
        /\ lambda_handler w event st
           = (Ok (success_envelope t T metadata None text), tick (tick (called req (tick st)))))
  \/ (exists text t path,
        let put := report_request w text T metadata (tick (called req (tick st))) in
        py_truthy (requested_save event) = true
        /\ lambda_handler w event st
           = (Ok (success_envelope t T metadata path text),
              tick (after_save put (tick (called req (tick st)))))).
Proof.
  intros HD Hsc req T metadata.
  destruct (bedrock_invoke_model w (length (bedrock_calls st)) req) as [text|e|k e] eqn:Hinf.
  - rewrite (lambda_handler_completed w event st data text HD Hsc Hinf). cbv zeta.
    destruct (py_truthy (requested_save event)) eqn:Hsave.
    + right. right. eexists text, _, _. split; reflexivity.
    + right. left. eexists text, _. split; reflexivity.
  - left. exists e. apply lambda_handler_not_completed; auto.
  - left. exists e. apply lambda_handler_not_completed; eauto.
Qed.

(** ** The two descriptions of the handler *)

(** [analyse] reads the persistence flag for its truth value only. *)
Lemma analyse_truthy w t0 analysis_type model_choice save_s3 model_id data st :
  analyse w t0 analysis_type model_choice (PBool (py_truthy save_s3)) model_id data st
  = analyse w t0 analysis_type model_choice save_s3 model_id data st.
Proof. rewrite !analyse_run. reflexivity. Qed.

(** The prompt step of the runtime is [Runtime.create_bedrock_prompt]: when
    it raises, so does the analysis, before any call; when it returns a
    prompt, the analysis is [analyse] on the serialised rows, which builds
    that same prompt. *)
Lemma analyse_fetched_prompt w t0 analysis_type model save_s3 model_id data st :
  match Runtime.create_bedrock_prompt data analysis_type with
  | inl e =>
    Runtime.analyse_fetched w t0 analysis_type model save_s3 model_id data st = (Raise e, st)
  | inr prompt =>
    exists rows key,
      Runtime.serialisable data = inr rows
      /\ analysis_type = Runtime.VScalar key
      /\ prompt = create_bedrock_prompt rows key
      /\ Runtime.analyse_fetched w t0 analysis_type model save_s3 model_id data st
         = analyse w t0 key model (PBool (Runtime.truthy save_s3)) model_id rows st
  end.
Proof.
  unfold Runtime.create_bedrock_prompt, Runtime.json_dumps, Runtime.analyse_fetched, bind.
  destruct (Runtime.serialisable data) as [e|rows]; [reflexivity|].
  cbn [Runtime.lift ret]. unfold Runtime.dict_get.
  destruct analysis_type as [key|items|fields]; cbn [Runtime.hashable Runtime.lift ret raise];
    try reflexivity.
  exists rows, key. repeat split.
Qed.

(** X22: on the values the program is written for, the two descriptions
    agree.  For an event of scalars whose fetched rows [json.dumps] can
    serialise, the handler with its failure paths runs exactly as the
    handler on scalars: same answer, same calls, same clock readings. *)
Theorem runtime_handler_on_scalars (w : world) (sch : Runtime.schema)
    (event : gmap string pyval) (st : state) :
  (forall data,
     Runtime.dataset w sch (Runtime.VScalar (requested_analysis_type event)) = inr data ->
     exists rows, Runtime.serialisable data = inr rows) ->
  Runtime.lambda_handler w sch (Runtime.scalar_event event) st = lambda_handler w event st.
Proof.
  intros Hser.
  assert (Runtime.requested_analysis_type (Runtime.scalar_event event)
          = Runtime.VScalar (requested_analysis_type event)) as HT.
  { unfold Runtime.requested_analysis_type, requested_analysis_type, Runtime.scalar_event.
    rewrite lookup_fmap. destruct (event !! "analysis_type"); reflexivity. }
  assert (Runtime.requested_model (Runtime.scalar_event event)
          = Runtime.VScalar (requested_model event)) as HM.
  { unfold Runtime.requested_model, requested_model, Runtime.scalar_event.
    rewrite lookup_fmap. destruct (event !! "model"); reflexivity. }
  assert (Runtime.truthy (Runtime.requested_save (Runtime.scalar_event event))
          = py_truthy (requested_save event)) as HS.
  { unfold Runtime.requested_save, requested_save, Runtime.scalar_event.
    rewrite lookup_fmap. destruct (event !! "save_to_s3"); reflexivity. }
  rewrite runtime_handler_run, lambda_handler_run, HT, HM, HS.
  cbn [Runtime.hashable].
  rewrite is_at_risk_students_scalar.
  specialize (Hser).
  rewrite runtime_dataset, is_at_risk_students_scalar in Hser |- *.
  unfold short_circuits.
  destruct (decide (requested_analysis_type event = PStr "at_risk_students")) as [Heq|Hne].
  - rewrite bool_decide_eq_true_2 in Hser |- * by assumption.
    rewrite Heq.
    destruct (dataset w (PStr "at_risk_students")) as [e|data]; [reflexivity|].
    destruct (Hser _ eq_refl) as [rows Hrows].
    pose proof (serialisable_rows_from_db (Runtime.at_risk_column sch) data) as Hdb.
    rewrite Hrows in Hdb |- *. destruct Hdb as [-> _].
    destruct data as [|r data]; [reflexivity|].
    cbn [Runtime.rows_from_db map andb]. rewrite analyse_truthy. reflexivity.
  - rewrite bool_decide_eq_false_2 in Hser |- * by assumption.
    assert (dataset w (requested_analysis_type event) = dataset w (PStr "comprehensive")) as ->.
    { unfold dataset. rewrite decide_False by assumption.
      rewrite decide_False by discriminate. reflexivity. }
    destruct (dataset w (PStr "comprehensive")) as [e|data]; [reflexivity|].
    destruct (Hser _ eq_refl) as [rows Hrows].
    pose proof (serialisable_rows_from_db (Runtime.kpi_column sch) data) as Hdb.
    rewrite Hrows in Hdb |- *. destruct Hdb as [-> _].
    cbn [andb]. rewrite analyse_truthy. reflexivity.
Qed.

Lemma runtime_handler_on_scalars_witness :
  Runtime.lambda_handler (stub_world [student_with_low_marks] always_ok sink_down)
    Runtime.double_columns
    (Runtime.scalar_event {[ "analysis_type" := PStr "at_risk_students";
                             "model" := PStr "haiku" ]}) initial_state
  = lambda_handler (stub_world [student_with_low_marks] always_ok sink_down)
      {[ "analysis_type" := PStr "at_risk_students"; "model" := PStr "haiku" ]} initial_state.
Proof.
  apply (runtime_handler_on_scalars (stub_world [student_with_low_marks] always_ok sink_down)
           Runtime.double_columns
           {[ "analysis_type" := PStr "at_risk_students"; "model" := PStr "haiku" ]}
           initial_state).
  intros data Hdata. vm_compute in Hdata. injection Hdata as <-.
  eexists. vm_compute. reflexivity.
Defined.

(** ** Defaults *)

Lemma runtime_handler_requested w sch ev1 ev2 st :
  Runtime.requested_analysis_type ev1 = Runtime.requested_analysis_type ev2 ->
  Runtime.requested_model ev1 = Runtime.requested_model ev2 ->
  Runtime.requested_save ev1 = Runtime.requested_save ev2 ->
  Runtime.lambda_handler w sch ev1 st = Runtime.lambda_handler w sch ev2 st.
Proof.
  intros HT HM HS. rewrite !runtime_handler_run, HT, HM, HS. reflexivity.
Qed.

Lemma create_bedrock_prompt_comprehensive data :
  create_bedrock_prompt data (PStr "comprehensive")
  = fill comprehensive_head comprehensive_tail (json_dumps_indent2 data).
Proof.
  unfold create_bedrock_prompt. cbv zeta. simpl py_dict_get.
  rewrite prompts_lookup. reflexivity.
Qed.

Lemma failure_envelope_has_no_metadata e : json_get "metadata" (body (failure_envelope e)) = None.
Proof. reflexivity. Qed.

(** C10: a parameter the event omits takes its default, and the run goes
    on.  Without [analysis_type] the run is the run for the type
    comprehensive: when the district rows are fetched and serialised, one
    request is sent, its prompt the comprehensive template around all
    district rows, and when the provider completes the answer has status
    200, names the type comprehensive and counts every district.  Without
    [model] the run is the run for sonnet: every request names the sonnet
    model id, and the metadata of a completed analysis name sonnet and that
    id.  Without [save_to_s3] the run is the run with the flag true: a
    completed analysis is written to S3, once, with the analysis and the
    metadata of the answer. *)
Theorem omitted_parameters_take_defaults (w : world) (sch : Runtime.schema)
    (event : gmap string Runtime.event_value) (st : state) :
  let run := Runtime.lambda_handler w sch event st in
  (event !! "analysis_type" = None ->
   run = Runtime.lambda_handler w sch
           (<["analysis_type" := Runtime.VScalar (PStr "comprehensive")]> event) st
   /\ forall joined rows model,
        db_district_join w = inr joined ->
        Runtime.serialisable
          (Runtime.rows_from_db (Runtime.kpi_column sch) (district_kpis_query joined))
        = inr rows ->
        Runtime.hashable (Runtime.requested_model event) = inr model ->
        let req := inference_request
                     (fill comprehensive_head comprehensive_tail
                        (json_dumps_indent2 (select_district_kpis <$> joined)))
                     (resolve_model model) in
        new_bedrock_calls st run.2 = [req]
        /\ forall text,
             bedrock_invoke_model w (length (bedrock_calls st)) req = Completed text ->
             exists r,
               run.1 = Ok r
               /\ statusCode r = 200
               /\ json_get "analysis_type" (body r) = Some (JStr "comprehensive")
               /\ json_get "analysis" (body r) = Some (JStr text)
               /\ metadata_record_count r = Some (JInt (Z.of_nat (length joined))))
  /\ (event !! "model" = None ->
      run = Runtime.lambda_handler w sch
              (<["model" := Runtime.VScalar (PStr "sonnet")]> event) st
      /\ Forall (fun req => modelId req = "anthropic.claude-3-sonnet-20240229-v1:0")
                (new_bedrock_calls st run.2)
      /\ forall r metadata,
           run.1 = Ok r ->
           json_get "metadata" (body r) = Some metadata ->
           json_get "model" metadata = Some (JStr "sonnet")
           /\ json_get "model_id" metadata
              = Some (JStr "anthropic.claude-3-sonnet-20240229-v1:0"))
  /\ (event !! "save_to_s3" = None ->
      run = Runtime.lambda_handler w sch
              (<["save_to_s3" := Runtime.VScalar (PBool true)]> event) st
      /\ forall r metadata,
           run.1 = Ok r ->
           json_get "metadata" (body r) = Some metadata ->
           exists put,
             new_s3_calls st run.2 = [put]
             /\ Bucket put = S3_BUCKET w
             /\ json_get "analysis" (Body put) = json_get "analysis" (body r)
             /\ json_get "metadata" (Body put) = Some metadata).
Proof.
  intros run. split; [|split].
  - intros Hnone. split.
    { apply runtime_handler_requested;
        unfold Runtime.requested_analysis_type, Runtime.requested_model, Runtime.requested_save;
        rewrite ?lookup_insert_eq, ?Hnone; try reflexivity;
        rewrite lookup_insert_ne by discriminate; reflexivity. }
    intros joined rows model Hdb Hs Hm req.
    assert (Runtime.requested_analysis_type event = Runtime.VScalar (PStr "comprehensive")) as HT.
    { unfold Runtime.requested_analysis_type. rewrite Hnone. reflexivity. }
    assert (Runtime.dataset w sch (Runtime.requested_analysis_type event)
            = inr (Runtime.rows_from_db (Runtime.kpi_column sch) (district_kpis_query joined)))
      as HD.
    { rewrite HT. unfold Runtime.dataset. simpl. rewrite Hdb. reflexivity. }
    assert (Runtime.hashable (Runtime.requested_analysis_type event) = inr (PStr "comprehensive"))
      as Hk by (rewrite HT; reflexivity).
    destruct (runtime_handler_refines w sch event st model (PStr "comprehensive") _ rows
                Hm Hk HD Hs) as [HD' Hrun].
    assert (rows = district_kpis_query joined) as ->.
    { pose proof (serialisable_rows_from_db (Runtime.kpi_column sch)
                    (district_kpis_query joined)) as H.
      rewrite Hs in H. tauto. }
    subst run. rewrite Hrun.
    set (core := ({[ "analysis_type" := PStr "comprehensive"; "model" := model;
                     "save_to_s3" := PBool (Runtime.truthy (Runtime.requested_save event)) ]}
                  : gmap string pyval)).
    assert (run_request core (district_kpis_query joined) = req) as Hreq.
    { unfold run_request, req. subst core.
      destruct (scalar_request_requested (PStr "comprehensive") model
                  (Runtime.truthy (Runtime.requested_save event))) as (-> & -> & _).
      rewrite create_bedrock_prompt_comprehensive. reflexivity. }
    split.
    + rewrite (lambda_handler_prompts w core st (district_kpis_query joined) HD').
      rewrite <- Hreq. reflexivity.
    + intros text Hinf. rewrite <- Hreq in Hinf.
      rewrite (lambda_handler_completed w core st (district_kpis_query joined) text HD'
                 eq_refl Hinf). cbv zeta.
      destruct (py_truthy (requested_save core));
        (eexists; split; [reflexivity|]; repeat split;
         unfold metadata_record_count, success_envelope, run_metadata;
         cbn [body json_get assoc String.eqb Ascii.eqb Bool.eqb];
         unfold district_kpis_query; rewrite length_map; reflexivity).
  - intros Hnone. split.
    { apply runtime_handler_requested;
        unfold Runtime.requested_analysis_type, Runtime.requested_model, Runtime.requested_save;
        rewrite ?lookup_insert_eq, ?Hnone; try reflexivity;
        rewrite lookup_insert_ne by discriminate; reflexivity. }
    assert (Runtime.requested_model event = Runtime.VScalar (PStr "sonnet")) as HM.
    { unfold Runtime.requested_model. rewrite Hnone. reflexivity. }
    destruct (runtime_handler_cases w sch event st)
      as [[e Hrun] | [Hrun | (model & key & data & rows & Hm & Hk & HD & Hs & HD' & Hsc & Hrun)]];
      fold run in Hrun.
    + rewrite Hrun. cbn [fst snd]. rewrite new_bedrock_calls_tick.
      split; [constructor|]. intros r metadata Hr Hmeta. injection Hr as <-. discriminate.
    + rewrite Hrun. cbn [fst snd]. rewrite new_bedrock_calls_tick.
      split; [constructor|]. intros r metadata Hr Hmeta. injection Hr as <-. discriminate.
    + rewrite HM in Hm. injection Hm as <-.
      set (core := ({[ "analysis_type" := key; "model" := PStr "sonnet";
                       "save_to_s3" := PBool (Runtime.truthy (Runtime.requested_save event)) ]}
                    : gmap string pyval)) in *.
      rewrite Hrun. split.
      * rewrite (lambda_handler_prompts w core st rows HD'). 
        change (requested_analysis_type core) with key. rewrite Hsc.
        constructor; [reflexivity | constructor].
      * intros r metadata Hr Hmeta.
        destruct (lambda_handler_outcomes w core st rows HD' Hsc)
          as [[e Hout] | [(text & t & _ & Hout) | (text & t & path & _ & Hout)]];
          rewrite Hout in Hr; injection Hr as <-;
          [discriminate | |];
          cbn [body success_envelope json_get assoc String.eqb Ascii.eqb Bool.eqb] in Hmeta;
          injection Hmeta as <-; split; reflexivity.
  - intros Hnone. split.
    { apply runtime_handler_requested;
        unfold Runtime.requested_analysis_type, Runtime.requested_model, Runtime.requested_save;
        rewrite ?lookup_insert_eq, ?Hnone; try reflexivity;
        rewrite lookup_insert_ne by discriminate; reflexivity. }
    assert (Runtime.truthy (Runtime.requested_save event) = true) as HS.
    { unfold Runtime.requested_save. rewrite Hnone. reflexivity. }
    intros r metadata Hr Hmeta.
    destruct (runtime_handler_cases w sch event st)
      as [[e Hrun] | [Hrun | (model & key & data & rows & Hm & Hk & HD & Hs & HD' & Hsc & Hrun)]];
      fold run in Hrun.
    + rewrite Hrun in Hr. injection Hr as <-. discriminate.
    + rewrite Hrun in Hr. injection Hr as <-. discriminate.
    + rewrite HS in Hrun.
      set (core := ({[ "analysis_type" := key; "model" := model; "save_to_s3" := PBool true ]}
                    : gmap string pyval)) in *.
      rewrite Hrun in Hr |- *.
      destruct (lambda_handler_outcomes w core st rows HD' Hsc)
        as [[e Hout] | [(text & t & Hsave & Hout) | (text & t & path & _ & Hout)]].
      * rewrite Hout in Hr. injection Hr as <-. discriminate.
      * discriminate Hsave.
      * rewrite Hout in Hr |- *. injection Hr as <-. cbn [snd].
        eexists. split; [apply new_s3_calls_saved|].
        cbn [body success_envelope json_get assoc String.eqb Ascii.eqb Bool.eqb] in Hmeta.
        injection Hmeta as <-.
        repeat split.
Qed.

Lemma omitted_parameters_take_defaults_witness :
  let w := stub_world [] always_ok sink_ok in
  let run := Runtime.lambda_handler w Runtime.double_columns ∅ initial_state in
  let req := inference_request
               (fill comprehensive_head comprehensive_tail
                  (json_dumps_indent2 (select_district_kpis <$> three_districts)))
               (resolve_model (PStr "sonnet")) in
  (run = Runtime.lambda_handler w Runtime.double_columns
           (<["analysis_type" := Runtime.VScalar (PStr "comprehensive")]> ∅) initial_state
   /\ new_bedrock_calls initial_state run.2 = [req]
   /\ exists r,
        run.1 = Ok r
        /\ statusCode r = 200
        /\ json_get "analysis_type" (body r) = Some (JStr "comprehensive")
        /\ json_get "analysis" (body r) = Some (JStr "Districts are improving.")
        /\ metadata_record_count r = Some (JInt 3))
  /\ (Forall (fun req => modelId req = "anthropic.claude-3-sonnet-20240229-v1:0")
             (new_bedrock_calls initial_state run.2)
      /\ exists r metadata,
           run.1 = Ok r
           /\ json_get "metadata" (body r) = Some metadata
           /\ json_get "model" metadata = Some (JStr "sonnet")
           /\ json_get "model_id" metadata
              = Some (JStr "anthropic.claude-3-sonnet-20240229-v1:0"))
  /\ length (new_s3_calls initial_state run.2) = 1%nat.
Proof.
  intros w run req.
  destruct (omitted_parameters_take_defaults w Runtime.double_columns ∅ initial_state)
    as (Htype & Hmodel & Hsave).
  destruct (Htype eq_refl) as [Heq Hrun].
  destruct (Hrun three_districts (district_kpis_query three_districts) (PStr "sonnet")
              eq_refl eq_refl eq_refl) as [Hcalls Hdone].
  destruct (Hdone "Districts are improving." eq_refl) as (r & Hr & H200 & HT & Ha & Hn).
  destruct (Hmodel eq_refl) as (_ & Hids & Hmeta).
  destruct (Hsave eq_refl) as (_ & Hput).
  assert (exists metadata, json_get "metadata" (body r) = Some metadata) as [metadata Hm].
  { unfold metadata_record_count in Hn. destruct (json_get "metadata" (body r)); [eauto|discriminate]. }
  destruct (Hmeta r metadata Hr Hm) as [Hm1 Hm2].
  destruct (Hput r metadata Hr Hm) as (put & Hput1 & _).
  split; [|split].
  - split; [exact Heq|]. split; [exact Hcalls|].
    exists r. repeat split; assumption.
  - split; [exact Hids|]. exists r, metadata. repeat split; assumption.
  - fold run in Hput1. rewrite Hput1. reflexivity.
Defined.

(** ** Models and requests *)

Lemma resolve_model_sonnet : resolve_model (PStr "sonnet") = "anthropic.claude-3-sonnet-20240229-v1:0".
Proof. reflexivity. Qed.

Lemma resolve_model_other (choice : pyval) :
  choice ∉ [PStr "sonnet"; PStr "haiku"; PStr "claude-2"] ->
  resolve_model choice = "anthropic.claude-3-sonnet-20240229-v1:0".
Proof.
  intros Hnot. unfold resolve_model.
  replace (models !!! "sonnet") with "anthropic.claude-3-sonnet-20240229-v1:0"
    by (symmetry; apply lookup_total_correct; rewrite models_lookup; reflexivity).
  destruct choice as [| b | z | s]; simpl; try reflexivity.
  rewrite models_lookup.
  repeat (case_decide; [subst s; exfalso; apply Hnot; set_solver|]).
  reflexivity.
Qed.

(** The requests a run of the runtime sends. *)
Lemma runtime_handler_calls w sch event st :
  let run := Runtime.lambda_handler w sch event st in
  new_bedrock_calls st run.2 = []
  \/ exists model key rows,
       Runtime.requested_model event = Runtime.VScalar model
       /\ Runtime.requested_analysis_type event = Runtime.VScalar key
       /\ new_bedrock_calls st run.2
          = [inference_request (create_bedrock_prompt rows key) (resolve_model model)].
Proof.
  intros run.
  destruct (runtime_handler_cases w sch event st)
    as [[e Hrun] | [Hrun | (model & key & data & rows & Hm & Hk & HD & Hs & HD' & Hsc & Hrun)]];
    fold run in Hrun; rewrite Hrun.
  - left. apply new_bedrock_calls_tick.
  - left. apply new_bedrock_calls_tick.
  - right. exists model, key, rows.
    split; [destruct (Runtime.requested_model event); simpl in Hm; congruence|].
    split; [destruct (Runtime.requested_analysis_type event); simpl in Hk; congruence|].
    match goal with |- context [lambda_handler w ?ev st] => set (core := ev) end.
    rewrite (lambda_handler_prompts w core st rows HD').
    change (requested_analysis_type core) with key. rewrite Hsc. reflexivity.
Qed.

(** X1: every request a run sends names one of the three known model ids
    and carries the fixed generation parameters.  A run that fetches and
    serialises its rows and is not the empty at-risk-students result sends
    exactly one request, for the model id of its choice: sonnet, haiku and
    claude-2 select their ids, any other scalar selects the sonnet id.  A
    model choice that is a list or a dict selects nothing: [models.get]
    raises on it, the answer is the failure envelope of that [TypeError],
    and the run ends after its first clock reading, without a fetch, a
    request or a write. *)
Theorem requests_name_a_known_model (w : world) (sch : Runtime.schema)
    (event : gmap string Runtime.event_value) (st : state) :
  let run := Runtime.lambda_handler w sch event st in
  Forall (fun req =>
            modelId req ∈ known_model_ids
            /\ anthropic_version req = "bedrock-2023-05-31"
            /\ max_tokens req = 2000
            /\ temperature req = 7 # 10
            /\ top_p req = 9 # 10)
         (new_bedrock_calls st run.2)
  /\ (forall choice key data rows,
        Runtime.requested_model event = Runtime.VScalar choice ->
        Runtime.requested_analysis_type event = Runtime.VScalar key ->
        Runtime.dataset w sch (Runtime.requested_analysis_type event) = inr data ->
        Runtime.serialisable data = inr rows ->
        short_circuits key rows = false ->
        exists req,
          new_bedrock_calls st run.2 = [req]
          /\ user_content req = create_bedrock_prompt rows key
          /\ (choice = PStr "sonnet" -> modelId req = "anthropic.claude-3-sonnet-20240229-v1:0")
          /\ (choice = PStr "haiku" -> modelId req = "anthropic.claude-3-haiku-20240307-v1:0")
          /\ (choice = PStr "claude-2" -> modelId req = "anthropic.claude-v2:1")
          /\ (choice ∉ [PStr "sonnet"; PStr "haiku"; PStr "claude-2"] ->
              modelId req = "anthropic.claude-3-sonnet-20240229-v1:0"))
  /\ (forall items,
        Runtime.requested_model event = Runtime.VList items ->
        run = (Ok {| statusCode := 500;
                     headers := None;
                     body := JObj [ ("error", JStr "unhashable type: 'list'");
                                    ("error_type", JStr "TypeError") ] |},
               tick st))
  /\ (forall fields,
        Runtime.requested_model event = Runtime.VDict fields ->
        run = (Ok {| statusCode := 500;
                     headers := None;
                     body := JObj [ ("error", JStr "unhashable type: 'dict'");
                                    ("error_type", JStr "TypeError") ] |},
               tick st)).
Proof.
  intros run. split; [|split; [|split]].
  - destruct (runtime_handler_calls w sch event st)
      as [Hnone | (model & key & rows & _ & _ & Hone)]; fold run in Hnone || fold run in Hone.
    + rewrite Hnone. constructor.
    + rewrite Hone. constructor; [|constructor].
      cbn [inference_request modelId anthropic_version max_tokens temperature top_p].
      repeat split. apply resolve_model_known.
  - intros choice key data rows HM HT HD Hs Hsc.
    assert (Runtime.hashable (Runtime.requested_model event) = inr choice) as Hm
      by (rewrite HM; reflexivity).
    assert (Runtime.hashable (Runtime.requested_analysis_type event) = inr key) as Hk
      by (rewrite HT; reflexivity).
    destruct (runtime_handler_refines w sch event st choice key data rows Hm Hk HD Hs)
      as [HD' Hrun].
    subst run. rewrite Hrun.
    match goal with |- context [lambda_handler w ?ev st] => set (core := ev) end.
    rewrite (lambda_handler_prompts w core st rows HD').
    change (requested_analysis_type core) with key. rewrite Hsc.
    eexists. split; [reflexivity|].
    unfold run_request.
    cbn [inference_request modelId user_content].
    split; [reflexivity|].
    change (requested_model core) with choice.
    split; [intros ->; reflexivity|].
    split; [intros ->; reflexivity|].
    split; [intros ->; reflexivity|].
    apply resolve_model_other.
  - intros items HM. subst run. rewrite runtime_handler_run, HM. reflexivity.
  - intros fields HM. subst run. rewrite runtime_handler_run, HM. reflexivity.
Qed.

(** ** Analyses on fetched rows *)

Lemma assoc_elem_of {V} (k : string) (fields : list (string * V)) (v : V) :
  assoc k fields = Some v -> (k, v) ∈ fields.
Proof.
  induction fields as [|[k' v'] fields IH]; simpl; [discriminate|].
  destruct (String.eqb_spec k k') as [->|Hne].
  - intros [= ->]. left.
  - intros H. right. auto.
Qed.

(** X8: a completed at-risk-students analysis reports between 1 and 20
    records: the query returns at most 20 rows, and an empty result is
    answered without an analysis and without metadata. *)
Theorem at_risk_report_covers_one_to_twenty (w : world) (sch : Runtime.schema)
    (event : gmap string Runtime.event_value) (st st' : state) (r : response) (n : Z) :
  Runtime.requested_analysis_type event = Runtime.VScalar (PStr "at_risk_students") ->
  Runtime.lambda_handler w sch event st = (Ok r, st') ->
  metadata_record_count r = Some (JInt n) ->
  1 <= n <= 20.
Proof.
  intros HT Hrun Hcount.
  destruct (runtime_handler_cases w sch event st)
    as [[e Hc] | [Hc | (model & key & data & rows & Hm & Hk & HD & Hs & HD' & Hsc & Hc)]];
    cbv zeta in Hc; rewrite Hc in Hrun.
  - injection Hrun as <- _. discriminate.
  - injection Hrun as <- _. discriminate.
  - rewrite HT in Hk. injection Hk as <-.
    assert (length rows <= 20)%nat as Hlen.
    { unfold dataset in HD'. rewrite decide_True in HD' by reflexivity.
      destruct (db_student_groups w) as [e|groups]; [discriminate|].
      injection HD' as <-. apply at_risk_students_query_length. }
    assert (1 <= length rows)%nat as Hpos.
    { destruct rows; [discriminate Hsc | simpl; lia]. }
    match type of Hrun with lambda_handler w ?ev st = _ => set (core := ev) in * end.
    destruct (lambda_handler_outcomes w core st rows HD' Hsc)
      as [[e Hout] | [(text & t & _ & Hout) | (text & t & path & _ & Hout)]];
      rewrite Hout in Hrun; injection Hrun as <- _;
      [discriminate | |];
      unfold metadata_record_count, success_envelope, run_metadata in Hcount;
      cbn [body json_get assoc String.eqb Ascii.eqb Bool.eqb] in Hcount;
      injection Hcount as <-; lia.
Qed.

Lemma at_risk_report_covers_one_to_twenty_witness :
  exists r st',
    Runtime.lambda_handler (stub_world [student_with_low_marks] always_ok sink_ok)
      Runtime.double_columns
      {[ "analysis_type" := Runtime.VScalar (PStr "at_risk_students") ]} initial_state
    = (Ok r, st')
    /\ metadata_record_count r = Some (JInt 1)
    /\ 1 <= 1 <= 20.
Proof.
  eexists _, _. split; [vm_compute; reflexivity|]. split; [reflexivity|].
  eapply (at_risk_report_covers_one_to_twenty
            (stub_world [student_with_low_marks] always_ok sink_ok) Runtime.double_columns
            {[ "analysis_type" := Runtime.VScalar (PStr "at_risk_students") ]} initial_state);
    [reflexivity | vm_compute; reflexivity | reflexivity].
Defined.

(** X18: the at-risk-students analysis cannot be run on a student with an
    attendance record.  [attendance_pct] is an exact-value column whatever
    the schema, so pymysql hands it over as a [Decimal] unless it is NULL.
    When a returned student has an attendance record, [json.dumps] raises on
    the rows: the handler answers with status 500 and that [TypeError], and
    sends no request and writes no report.  So in every completed
    at-risk-students analysis all analysed students are without attendance
    records, kept for their marks alone. *)
Theorem at_risk_analysis_needs_null_attendance (w : world) (sch : Runtime.schema)
    (event : gmap string Runtime.event_value) (st : state)
    (groups : list student_group) (model : pyval) :
  Runtime.requested_analysis_type event = Runtime.VScalar (PStr "at_risk_students") ->
  Runtime.requested_model event = Runtime.VScalar model ->
  db_student_groups w = inr groups ->
  let run := Runtime.lambda_handler w sch event st in
  ((exists row h, row ∈ at_risk_students_query groups
                  /\ assoc "attendance_pct" row = Some (CNum h)) ->
   run = (Ok {| statusCode := 500;
                headers := None;
                body := JObj [ ("error", JStr "Object of type Decimal is not JSON serializable");
                               ("error_type", JStr "TypeError") ] |},
          tick st)
   /\ new_bedrock_calls st run.2 = []
   /\ new_s3_calls st run.2 = [])
  /\ (forall r metadata,
        run.1 = Ok r ->
        json_get "metadata" (body r) = Some metadata ->
        forall row, row ∈ at_risk_students_query groups ->
          assoc "attendance_pct" row = Some CNull
          /\ exists g, g ∈ groups /\ row = select_at_risk_students g
               /\ Forall (fun j => sa_attendance_id j = None) (group_rows g)).
Proof.
  intros HT HM Hdb run.
  assert (Runtime.dataset w sch (Runtime.requested_analysis_type event)
          = inr (Runtime.rows_from_db (Runtime.at_risk_column sch) (at_risk_students_query groups)))
    as HD.
  { rewrite HT. unfold Runtime.dataset. simpl. rewrite Hdb. reflexivity. }
  assert (forall row h, row ∈ at_risk_students_query groups ->
                        assoc "attendance_pct" row = Some (CNum h) ->
                        run = (Ok (failure_envelope
                                     (Exn "TypeError"
                                        "Object of type Decimal is not JSON serializable")),
                               tick st)) as Hfail.
  { intros row h Hin Hcell.
    subst run. rewrite runtime_handler_run, HM, HD. cbn [Runtime.hashable].
    rewrite HT. cbn [Runtime.is_at_risk_students String.eqb Ascii.eqb Bool.eqb andb].
    assert (at_risk_students_query groups <> []) as Hne by (intros Heq; rewrite Heq in Hin; inversion Hin).
    destruct (Runtime.rows_from_db _ (at_risk_students_query groups)) as [|fr frs] eqn:Hrows.
    { exfalso. apply Hne. apply (f_equal length) in Hrows. rewrite rows_from_db_length in Hrows.
      destruct (at_risk_students_query groups); [reflexivity | discriminate]. }
    rewrite <- Hrows.
    pose proof (serialisable_rows_from_db (Runtime.at_risk_column sch)
                  (at_risk_students_query groups)) as Hser.
    destruct (Runtime.serialisable _) as [e|rows].
    - destruct Hser as [-> _]. reflexivity.
    - exfalso. destruct Hser as [_ Hall].
      specialize (Hall row "attendance_pct" h Hin (assoc_elem_of _ _ _ Hcell)).
      discriminate Hall. }
  split.
  - intros (row & h & Hin & Hcell).
    rewrite (Hfail row h Hin Hcell). cbn [snd].
    split; [reflexivity|]. split; [apply new_bedrock_calls_tick | apply new_s3_calls_tick].
  - intros r metadata Hr Hmeta row Hin.
    destruct (at_risk_students_query_having groups row Hin) as [_ (g & Hg & ->)].
    assert (assoc "attendance_pct" (select_at_risk_students g) = Some CNull) as Hnull.
    { cbn [select_at_risk_students assoc String.eqb Ascii.eqb Bool.eqb].
      destruct (ROUND2 (attendance_ratio g)) as [h|] eqn:Hround; [|reflexivity].
      exfalso.
      rewrite (Hfail (select_at_risk_students g) h Hin) in Hr.
      - injection Hr as <-. discriminate.
      - cbn [select_at_risk_students assoc String.eqb Ascii.eqb Bool.eqb].
        rewrite Hround. reflexivity. }
    split; [exact Hnull|].
    exists g. split; [exact Hg|]. split; [reflexivity|].
    apply attendance_ratio_null.
    cbn [select_at_risk_students assoc String.eqb Ascii.eqb Bool.eqb] in Hnull.
    apply ROUND2_null, cell_of_num_null. congruence.
Qed.

Lemma at_risk_analysis_needs_null_attendance_witness :
  let w := stub_world [student_without_exams] always_ok sink_ok in
  let event : gmap string Runtime.event_value :=
    {[ "analysis_type" := Runtime.VScalar (PStr "at_risk_students") ]} in
  let run := Runtime.lambda_handler w Runtime.double_columns event initial_state in
  assoc "attendance_pct" (select_at_risk_students student_without_exams) = Some (CNum 5000)
  /\ run = (Ok {| statusCode := 500;
                  headers := None;
                  body := JObj [ ("error", JStr "Object of type Decimal is not JSON serializable");
                                 ("error_type", JStr "TypeError") ] |},
            tick initial_state)
  /\ new_bedrock_calls initial_state run.2 = []
  /\ new_s3_calls initial_state run.2 = [].
Proof.
  intros w event run. split; [reflexivity|].
  apply (at_risk_analysis_needs_null_attendance w Runtime.double_columns event initial_state
           [student_without_exams] (PStr "sonnet"));
    [reflexivity | reflexivity | reflexivity |].
  exists (select_at_risk_students student_without_exams), 5000.
  split; [vm_compute; left | reflexivity].
Defined.

(** X19: an analysis of the districts cannot be run on an exact-value KPI
    column.  Every KPI of a fetched district is a number, NULL having been
    replaced by 0, so when one of the seven KPI columns is exact-value and
    at least one district is fetched, the rows hold a [Decimal]:
    [json.dumps] raises, the handler answers with status 500 and that
    [TypeError], and no request is sent and no report written. *)
Theorem district_analysis_needs_float_columns (w : world) (sch : Runtime.schema)
    (event : gmap string Runtime.event_value) (st : state)
    (joined : list district_join_row) (model : pyval) (column : string) :
  Runtime.is_at_risk_students (Runtime.requested_analysis_type event) = false ->
  Runtime.requested_model event = Runtime.VScalar model ->
  db_district_join w = inr joined ->
  joined <> [] ->
  column ∈ district_numeric_fields ->
  Runtime.kpi_column sch column = Runtime.Exact ->
  let run := Runtime.lambda_handler w sch event st in
  run = (Ok {| statusCode := 500;
               headers := None;
               body := JObj [ ("error", JStr "Object of type Decimal is not JSON serializable");
                              ("error_type", JStr "TypeError") ] |},
         tick st)
  /\ new_bedrock_calls st run.2 = []
  /\ new_s3_calls st run.2 = [].
Proof.
  intros HT HM Hdb Hne Hcol Hexact run.
  assert (run = (Ok (failure_envelope
                       (Exn "TypeError" "Object of type Decimal is not JSON serializable")),
                 tick st)) as Hrun.
  { subst run. rewrite runtime_handler_run, HM. cbn [Runtime.hashable].
    unfold Runtime.dataset. rewrite HT, Hdb. cbn [andb].
    pose proof (serialisable_rows_from_db (Runtime.kpi_column sch) (district_kpis_query joined))
      as Hser.
    destruct (Runtime.serialisable _) as [e|rows].
    - destruct Hser as [-> _]. reflexivity.
    - exfalso. destruct Hser as [_ Hall].
      destruct joined as [|j joined]; [congruence|].
      assert (exists h, assoc column (select_district_kpis j) = Some (CNum h)) as [h Hh].
      { unfold district_numeric_fields in Hcol. set_unfold in Hcol.
        repeat (destruct Hcol as [->|Hcol]; [eexists; reflexivity|]).
        destruct Hcol. }
      specialize (Hall (select_district_kpis j) column h ltac:(left) (assoc_elem_of _ _ _ Hh)).
      congruence. }
  rewrite Hrun. cbn [snd].
  split; [reflexivity|]. split; [apply new_bedrock_calls_tick | apply new_s3_calls_tick].
Qed.

Lemma district_analysis_needs_float_columns_witness :
  let w := stub_world [] always_ok sink_ok in
  let run := Runtime.lambda_handler w Runtime.decimal_columns ∅ initial_state in
  run = (Ok {| statusCode := 500;
               headers := None;
               body := JObj [ ("error", JStr "Object of type Decimal is not JSON serializable");
                              ("error_type", JStr "TypeError") ] |},
         tick initial_state)
  /\ new_bedrock_calls initial_state run.2 = []
  /\ new_s3_calls initial_state run.2 = [].
Proof.
  apply (district_analysis_needs_float_columns (stub_world [] always_ok sink_ok)
           Runtime.decimal_columns ∅ initial_state three_districts (PStr "sonnet") "pass_rate");
    [reflexivity | reflexivity | reflexivity | discriminate | | reflexivity].
  unfold district_numeric_fields. set_solver.
Defined.

(** X20: the handler answers with one well-formed envelope also when the
    event carries lists or dicts and the rows carry a [Decimal]: the
    [TypeError]s these raise are caught like every other exception. *)
Theorem runtime_handler_always_returns_envelope (w : world) (sch : Runtime.schema)
    (event : gmap string Runtime.event_value) (st : state) :
  exists r st',
    Runtime.lambda_handler w sch event st = (Ok r, st') /\ well_formed_envelope r.
Proof.
  destruct (runtime_handler_cases w sch event st)
    as [[e Hc] | [Hc | (model & key & data & rows & Hm & Hk & HD & Hs & HD' & Hsc & Hc)]];
    cbv zeta in Hc; rewrite Hc.
  - eexists _, _. split; [reflexivity|]. right. split; [reflexivity|]. simpl. eauto.
  - eexists _, _. split; [reflexivity|]. left. split; [reflexivity|]. simpl. eauto.
  - match goal with |- context [lambda_handler w ?ev st] => set (core := ev) end.
    destruct (lambda_handler_outcomes w core st rows HD' Hsc)
      as [[e Hout] | [(text & t & _ & Hout) | (text & t & path & _ & Hout)]];
      rewrite Hout; eexists _, _; (split; [reflexivity|]).
    + right. split; [reflexivity|]. simpl. eauto.
    + left. split; [reflexivity|]. simpl. eauto.
    + left. split; [reflexivity|]. simpl. eauto.
Qed.

(** ** The serialisation loses nothing *)

Lemma append_String (x : ascii) (a b : string) : String x a +:+ b = String x (a +:+ b).
Proof. reflexivity. Qed.

Lemma append_Empty (b : string) : EmptyString +:+ b = b.
Proof. reflexivity. Qed.

Lemma append_assoc (a b c : string) : (a +:+ b) +:+ c = a +:+ (b +:+ c).
Proof.
  induction a as [|x a IH]; [reflexivity|].
  rewrite !append_String, IH. reflexivity.
Qed.

Lemma append_inv_head (a b c : string) : a +:+ b = a +:+ c -> b = c.
Proof.
  induction a as [|x a IH]; [auto|].
  rewrite !append_String. intros [= H]. auto.
Qed.

(** A string of JSON is read back as the string that was written. *)
Lemma json_read_string_escape (s rest : string) :
  json_read_string (json_escape s +:+ dquote +:+ rest) = Some (s, rest).
Proof.
  induction s as [|c s IH].
  - reflexivity.
  - change (json_escape (String c s)) with (json_escape_char c +:+ json_escape s).
    rewrite append_assoc.
    set (X := json_escape s +:+ dquote +:+ rest) in *. clearbody X.
    destruct c as [[] [] [] [] [] [] [] []];
      match goal with
      | |- context [json_escape_char ?c] =>
          let e := eval vm_compute in (json_escape_char c) in
          change (json_escape_char c) with e
      end;
      rewrite ?append_String, ?append_Empty; cbn; rewrite IH; reflexivity.
Qed.

Lemma json_string_cancel (s1 s2 r1 r2 : string) :
  json_string s1 +:+ r1 = json_string s2 +:+ r2 -> s1 = s2 /\ r1 = r2.
Proof.
  unfold json_string, dquote. rewrite !append_String, !append_Empty, !append_assoc.
  intros [= H].
  apply (f_equal json_read_string) in H.
  change (String "034"%char EmptyString) with dquote in H.
  rewrite !json_read_string_escape in H. injection H as -> ->. auto.
Qed.

Ltac norm_append :=
  repeat (rewrite append_assoc || rewrite append_String || rewrite append_Empty).

Ltac norm_append_in H :=
  repeat (rewrite append_assoc in H || rewrite append_String in H || rewrite append_Empty in H).

(** Two runs of digits, each followed by something that is not a digit, are
    the same when the whole texts are. *)
Lemma digits_cancel (a b r1 r2 : string) :
  digits_only a = true -> digits_only b = true ->
  starts_with_digit r1 = false -> starts_with_digit r2 = false ->
  a +:+ r1 = b +:+ r2 -> a = b /\ r1 = r2.
Proof.
  revert b. induction a as [|x a IH]; intros [|y b] Ha Hb H1 H2 H; norm_append_in H.
  - auto.
  - subst r1. simpl in H1, Hb. apply andb_true_iff in Hb as [Hy _]. congruence.
  - subst r2. simpl in H2, Ha. apply andb_true_iff in Ha as [Hx _]. congruence.
  - injection H as -> H. simpl in Ha, Hb.
    apply andb_true_iff in Ha as [_ Ha]. apply andb_true_iff in Hb as [_ Hb].
    destruct (IH b Ha Hb H1 H2 H) as [-> ->]. auto.
Qed.

Lemma pretty_N_char_digit (x : N) : is_digit (pretty_N_char x) = true.
Proof. unfold pretty_N_char. repeat case_match; reflexivity. Qed.

Lemma pretty_N_go_digits (x : N) (s : string) :
  digits_only s = true -> digits_only (pretty_N_go x s) = true.
Proof.
  revert s. induction (N.lt_wf_0 x) as [x _ IH]; intros s Hs.
  destruct (decide (x = 0)%N) as [->|Hx]; [rewrite pretty_N_go_0; exact Hs|].
  rewrite pretty_N_go_step by lia.
  apply IH; [apply N.div_lt; lia|].
  simpl. rewrite pretty_N_char_digit. exact Hs.
Qed.

Lemma pretty_N_go_length (x : N) (s : string) :
  (String.length s <= String.length (pretty_N_go x s))%nat.
Proof.
  revert s. induction (N.lt_wf_0 x) as [x _ IH]; intros s.
  destruct (decide (x = 0)%N) as [->|Hx]; [rewrite pretty_N_go_0; lia|].
  rewrite pretty_N_go_step by lia.
  etransitivity; [|apply IH; apply N.div_lt; lia]. simpl. lia.
Qed.

(** A number that is not negative is written as digits, at least one. *)
Lemma pretty_N_digits (n : N) :
  digits_only (pretty n) = true /\ (1 <= String.length (pretty n))%nat.
Proof.
  unfold pretty, pretty_N. case_decide as Hn; [split; [reflexivity | simpl; lia]|].
  rewrite pretty_N_go_step by lia. split.
  - apply pretty_N_go_digits. simpl. rewrite pretty_N_char_digit. reflexivity.
  - etransitivity; [|apply pretty_N_go_length]. simpl. lia.
Qed.

Lemma pretty_Z_digits (z : Z) :
  0 <= z -> digits_only (pretty z) = true /\ (1 <= String.length (pretty z))%nat.
Proof.
  destruct z as [|p|p]; intros Hz.
  - split; [reflexivity | simpl; lia].
  - apply (pretty_N_digits (Npos p)).
  - lia.
Qed.

Lemma pretty_digit (d : Z) :
  0 <= d < 10 -> exists c, pretty d = String c EmptyString /\ is_digit c = true.
Proof.
  intros Hd.
  assert (d = 0 \/ d = 1 \/ d = 2 \/ d = 3 \/ d = 4 \/ d = 5 \/ d = 6 \/ d = 7 \/ d = 8 \/ d = 9)
    as H by lia.
  repeat (destruct H as [->|H]; [eexists; split; reflexivity|]).
  subst d. eexists; split; reflexivity.
Qed.

(** The decimals of a number of hundredths, as [float_repr_hundredths]
    writes them, give the hundredths back. *)
Lemma decimals_inj (f1 f2 : Z) :
  0 <= f1 < 100 -> 0 <= f2 < 100 ->
  (if f1 mod 10 =? 0 then pretty (f1 / 10) else pretty (f1 / 10) +:+ pretty (f1 mod 10))
  = (if f2 mod 10 =? 0 then pretty (f2 / 10) else pretty (f2 / 10) +:+ pretty (f2 mod 10)) ->
  f1 = f2.
Proof.
  intros H1 H2.
  destruct (pretty_digit (f1 / 10)) as (q1 & Hq1 & _);
    [split; [apply Z.div_pos; lia | apply Z.div_lt_upper_bound; lia]|].
  destruct (pretty_digit (f2 / 10)) as (q2 & Hq2 & _);
    [split; [apply Z.div_pos; lia | apply Z.div_lt_upper_bound; lia]|].
  destruct (pretty_digit (f1 mod 10)) as (d1 & Hd1 & _); [apply Z.mod_pos_bound; lia|].
  destruct (pretty_digit (f2 mod 10)) as (d2 & Hd2 & _); [apply Z.mod_pos_bound; lia|].
  pose proof (Z.div_mod f1 10 ltac:(lia)) as E1.
  pose proof (Z.div_mod f2 10 ltac:(lia)) as E2.
  destruct (f1 mod 10 =? 0) eqn:Z1; destruct (f2 mod 10 =? 0) eqn:Z2.
  - intros H. apply (inj pretty) in H. apply Z.eqb_eq in Z1, Z2. lia.
  - rewrite Hq1, Hq2, Hd2. norm_append. discriminate.
  - rewrite Hq1, Hq2, Hd1. norm_append. discriminate.
  - intros H.
    assert (pretty (f1 / 10) = pretty (f2 / 10) /\ pretty (f1 mod 10) = pretty (f2 mod 10))
      as [Hq Hd].
    { rewrite Hq1, Hq2, Hd1, Hd2 in *. norm_append_in H. injection H as -> ->. auto. }
    apply (inj pretty) in Hq, Hd. lia.
Qed.

Lemma decimals_digits (f : Z) :
  0 <= f < 100 ->
  digits_only (if f mod 10 =? 0 then pretty (f / 10)
               else pretty (f / 10) +:+ pretty (f mod 10)) = true.
Proof.
  intros Hf.
  destruct (pretty_digit (f / 10)) as (q & Hq & Hqd);
    [split; [apply Z.div_pos; lia | apply Z.div_lt_upper_bound; lia]|].
  destruct (pretty_digit (f mod 10)) as (d & Hd & Hdd); [apply Z.mod_pos_bound; lia|].
  rewrite Hq, Hd. destruct (f mod 10 =? 0); norm_append; simpl; rewrite ?Hqd, ?Hdd; reflexivity.
Qed.

(** The text of a number without its sign. *)
Lemma unsigned_cancel (a1 a2 : Z) (r1 r2 : string) :
  0 <= a1 -> 0 <= a2 ->
  starts_with_digit r1 = false -> starts_with_digit r2 = false ->
  pretty (a1 / 100) +:+ "." +:+
    (if (a1 mod 100) mod 10 =? 0 then pretty ((a1 mod 100) / 10)
     else pretty ((a1 mod 100) / 10) +:+ pretty ((a1 mod 100) mod 10)) +:+ r1
  = pretty (a2 / 100) +:+ "." +:+
      (if (a2 mod 100) mod 10 =? 0 then pretty ((a2 mod 100) / 10)
       else pretty ((a2 mod 100) / 10) +:+ pretty ((a2 mod 100) mod 10)) +:+ r2 ->
  a1 = a2 /\ r1 = r2.
Proof.
  intros Ha1 Ha2 Hr1 Hr2 H.
  destruct (pretty_Z_digits (a1 / 100)) as [Hd1 _]; [apply Z.div_pos; lia|].
  destruct (pretty_Z_digits (a2 / 100)) as [Hd2 _]; [apply Z.div_pos; lia|].
  apply digits_cancel in H as [Hint H]; try assumption;
    try (norm_append; reflexivity).
  norm_append_in H. injection H as H.
  pose proof (Z.mod_pos_bound a1 100 ltac:(lia)) as B1.
  pose proof (Z.mod_pos_bound a2 100 ltac:(lia)) as B2.
  apply digits_cancel in H as [Hdec ->]; try assumption; try (apply decimals_digits; lia).
  apply (inj pretty) in Hint.
  apply decimals_inj in Hdec; try lia.
  pose proof (Z.div_mod a1 100 ltac:(lia)).
  pose proof (Z.div_mod a2 100 ltac:(lia)).
  split; [lia | reflexivity].
Qed.

Lemma unsigned_head (a : Z) (t : string) :
  0 <= a -> exists c t', pretty (a / 100) +:+ t = String c t' /\ is_digit c = true.
Proof.
  intros Ha.
  destruct (pretty_Z_digits (a / 100)) as [Hd Hl]; [apply Z.div_pos; lia|].
  destruct (pretty (a / 100)) as [|c s]; [simpl in Hl; lia|].
  exists c, (s +:+ t). split; [reflexivity|].
  simpl in Hd. apply andb_true_iff in Hd as [Hc _]. exact Hc.
Qed.

(** A number of the serialisation starts with a minus sign or a digit. *)
Lemma float_repr_head (h : Z) (r : string) :
  exists c t, float_repr_hundredths h +:+ r = String c t
              /\ (c = "-"%char \/ is_digit c = true).
Proof.
  unfold float_repr_hundredths. cbv zeta.
  destruct (h <? 0) eqn:Hneg.
  - norm_append. eexists _, _. split; [reflexivity | left; reflexivity].
  - norm_append.
    destruct (unsigned_head (Z.abs h)
                ("." +:+ (if (Z.abs h mod 100) mod 10 =? 0 then pretty ((Z.abs h mod 100) / 10)
                          else pretty ((Z.abs h mod 100) / 10)
                               +:+ pretty ((Z.abs h mod 100) mod 10)) +:+ r))
      as (c & t & Heq & Hc); [lia|].
    exists c, t. split; [|right; exact Hc].
    rewrite <- Heq. norm_append. reflexivity.
Qed.

(** Two numbers, each followed by something that is not a digit, are the
    same when the whole texts are. *)
Lemma float_repr_cancel (h1 h2 : Z) (r1 r2 : string) :
  starts_with_digit r1 = false -> starts_with_digit r2 = false ->
  float_repr_hundredths h1 +:+ r1 = float_repr_hundredths h2 +:+ r2 ->
  h1 = h2 /\ r1 = r2.
Proof.
  intros Hr1 Hr2. unfold float_repr_hundredths. cbv zeta.
  destruct (h1 <? 0) eqn:N1; destruct (h2 <? 0) eqn:N2; norm_append; intros H.
  - injection H as H.
    apply unsigned_cancel in H as [Ha ->]; try assumption; try lia.
    apply Z.ltb_lt in N1, N2. split; [lia | reflexivity].
  - exfalso.
    match type of H with
    | _ = pretty (Z.abs h2 / 100) +:+ ?t =>
        destruct (unsigned_head (Z.abs h2) t) as (c & t' & Heq & Hc); [lia|];
          rewrite Heq in H
    end.
    injection H as <- _. discriminate Hc.
  - exfalso.
    match type of H with
    | pretty (Z.abs h1 / 100) +:+ ?t = _ =>
        destruct (unsigned_head (Z.abs h1) t) as (c & t' & Heq & Hc); [lia|];
          rewrite Heq in H
    end.
    injection H as -> _. discriminate Hc.
  - apply unsigned_cancel in H as [Ha ->]; try assumption; try lia.
    apply Z.ltb_ge in N1, N2. split; [lia | reflexivity].
Qed.

(** Two cells, each followed by something that is not a digit, are the same
    when the whole texts are. *)
Lemma json_dumps_cell_cancel (c1 c2 : cell) (r1 r2 : string) :
  starts_with_digit r1 = false -> starts_with_digit r2 = false ->
  json_dumps_cell c1 +:+ r1 = json_dumps_cell c2 +:+ r2 ->
  c1 = c2 /\ r1 = r2.
Proof.
  intros Hr1 Hr2.
  destruct c1 as [|s1|h1]; destruct c2 as [|s2|h2]; cbn [json_dumps_cell]; intros H.
  - norm_append_in H. injection H as ->. auto.
  - exfalso. unfold json_string, dquote in H. norm_append_in H. discriminate.
  - exfalso. destruct (float_repr_head h2 r2) as (c & t & Heq & Hc).
    rewrite Heq in H. norm_append_in H. injection H as <- _.
    destruct Hc as [Hc|Hc]; discriminate.
  - exfalso. unfold json_string, dquote in H. norm_append_in H. discriminate.
  - apply json_string_cancel in H as [-> ->]. auto.
  - exfalso. destruct (float_repr_head h2 r2) as (c & t & Heq & Hc).
    rewrite Heq in H. unfold json_string, dquote in H. norm_append_in H. injection H as <- _.
    destruct Hc as [Hc|Hc]; discriminate.
  - exfalso. destruct (float_repr_head h1 r1) as (c & t & Heq & Hc).
    rewrite Heq in H. norm_append_in H. injection H as -> _.
    destruct Hc as [Hc|Hc]; discriminate.
  - exfalso. destruct (float_repr_head h1 r1) as (c & t & Heq & Hc).
    rewrite Heq in H. unfold json_string, dquote in H. norm_append_in H. injection H as -> _.
    destruct Hc as [Hc|Hc]; discriminate.
  - apply float_repr_cancel in H as [-> ->]; auto.
Qed.

(** The same for the line of a cell in a row. *)
Lemma json_dumps_field_cancel (kv1 kv2 : string * cell) (r1 r2 : string) :
  starts_with_digit r1 = false -> starts_with_digit r2 = false ->
  ("    " +:+ json_string kv1.1 +:+ ": " +:+ json_dumps_cell kv1.2) +:+ r1
  = ("    " +:+ json_string kv2.1 +:+ ": " +:+ json_dumps_cell kv2.2) +:+ r2 ->
  kv1 = kv2 /\ r1 = r2.
Proof.
  intros Hr1 Hr2 H.
  destruct kv1 as [k1 c1], kv2 as [k2 c2]. cbn [fst snd] in H.
  rewrite !append_assoc in H.
  apply (append_inv_head "    ") in H.
  apply json_string_cancel in H as [-> H].
  apply (append_inv_head ": ") in H.
  apply json_dumps_cell_cancel in H as [-> ->]; auto.
Qed.

Lemma starts_with_newline (r : string) : starts_with_digit (newline +:+ r) = false.
Proof. reflexivity. Qed.

Lemma starts_with_comma (r : string) : starts_with_digit (("," +:+ newline) +:+ r) = false.
Proof. reflexivity. Qed.

Lemma join_single (sep p : string) : join sep [p] = p.
Proof. reflexivity. Qed.

Lemma join_cons (sep p q : string) (ps : list string) :
  join sep (p :: q :: ps) = p +:+ sep +:+ join sep (q :: ps).
Proof. reflexivity. Qed.

(** Lines joined by a comma and a line break and closed by a line break:
    when each line can be told from what follows it, so can the whole
    list. *)
Lemma join_cancel {A} (line : A -> string) (xs ys : list A) (r1 r2 : string) :
  (forall x y s t, starts_with_digit s = false -> starts_with_digit t = false ->
                   line x +:+ s = line y +:+ t -> x = y /\ s = t) ->
  xs <> [] -> ys <> [] ->
  join ("," +:+ newline) (map line xs) +:+ newline +:+ r1
  = join ("," +:+ newline) (map line ys) +:+ newline +:+ r2 ->
  xs = ys /\ r1 = r2.
Proof.
  intros Hline. revert ys.
  induction xs as [|x xs IH]; intros ys Hx Hy H; [congruence|].
  destruct ys as [|y ys]; [congruence|].
  destruct xs as [|x' xs]; destruct ys as [|y' ys]; cbn [map] in H;
    rewrite ?join_cons, ?join_single in H.
  - apply Hline in H as [-> H]; try apply starts_with_newline.
    unfold newline in H. norm_append_in H. injection H as ->. auto.
  - exfalso. rewrite !append_assoc in H.
    apply Hline in H as [_ H]; try apply starts_with_newline; try apply starts_with_comma.
    unfold newline in H. norm_append_in H. discriminate.
  - exfalso. rewrite !append_assoc in H.
    apply Hline in H as [_ H]; try apply starts_with_newline; try apply starts_with_comma.
    unfold newline in H. norm_append_in H. discriminate.
  - rewrite !append_assoc in H.
    apply Hline in H as [-> H]; try apply starts_with_comma.
    apply (append_inv_head ",") in H. apply append_inv_head in H.
    destruct (IH (y' :: ys)) as [Heq ->]; [discriminate | discriminate | exact H |].
    rewrite Heq. auto.
Qed.

(** A serialised row can be told from what follows it. *)
Lemma json_dumps_row_cancel (r1 r2 : row) (s1 s2 : string) :
  json_dumps_row r1 +:+ s1 = json_dumps_row r2 +:+ s2 -> r1 = r2 /\ s1 = s2.
Proof.
  destruct r1 as [|f1 r1]; destruct r2 as [|f2 r2]; unfold json_dumps_row; intros H.
  - norm_append_in H. injection H as ->. auto.
  - exfalso. unfold newline in H. norm_append_in H. discriminate.
  - exfalso. unfold newline in H. norm_append_in H. discriminate.
  - rewrite !append_assoc in H. apply append_inv_head in H. apply append_inv_head in H.
    apply join_cancel in H as [-> H]; [| |discriminate|discriminate].
    + norm_append_in H. injection H as ->. auto.
    + intros x y s t Hs Ht. apply json_dumps_field_cancel; assumption.
Qed.

(** A serialised dataset can be told from what follows it. *)
Lemma json_dumps_indent2_cancel (d1 d2 : list row) (s1 s2 : string) :
  json_dumps_indent2 d1 +:+ s1 = json_dumps_indent2 d2 +:+ s2 -> d1 = d2 /\ s1 = s2.
Proof.
  destruct d1 as [|r1 d1]; destruct d2 as [|r2 d2]; unfold json_dumps_indent2; intros H.
  - norm_append_in H. injection H as ->. auto.
  - exfalso. unfold newline in H. norm_append_in H. discriminate.
  - exfalso. unfold newline in H. norm_append_in H. discriminate.
  - rewrite !append_assoc in H. apply append_inv_head in H. apply append_inv_head in H.
    apply join_cancel in H as [-> H]; [| |discriminate|discriminate].
    + norm_append_in H. injection H as ->. auto.
    + intros x y s t _ _ Hxy. rewrite !append_assoc in Hxy.
      apply append_inv_head in Hxy. apply json_dumps_row_cancel in Hxy. exact Hxy.
Qed.

(** A filled template determines the rows it was filled with. *)
Lemma fill_inj (head tail : list string) (d1 d2 : list row) :
  fill head tail (json_dumps_indent2 d1) = fill head tail (json_dumps_indent2 d2) -> d1 = d2.
Proof.
  unfold fill. intros H. apply append_inv_head in H.
  apply json_dumps_indent2_cancel in H as [-> _]. reflexivity.
Qed.




(** ** Types without a template *)









(** The template of an analysis type, as its lines before and after the
    data. *)
Lemma create_bedrock_prompt_template (analysis_type : pyval) :
  exists head tail,
    (head, tail) ∈ templates
    /\ forall data, create_bedrock_prompt data analysis_type
                    = fill head tail (json_dumps_indent2 data).
Proof.
  unfold templates.
  destruct analysis_type as [| b | z | s];
    try (exists comprehensive_head, comprehensive_tail; split; [set_solver|];
         intros data; unfold create_bedrock_prompt; cbv zeta;
         apply prompts_comprehensive).
  destruct (decide ("comprehensive" = s)) as [<-|H1];
    [exists comprehensive_head, comprehensive_tail; split; [set_solver|];
     intros data; apply create_bedrock_prompt_comprehensive|].
  destruct (decide ("at_risk" = s)) as [<-|H2];
    [exists at_risk_head, at_risk_tail; split; [set_solver|];
     intros data; unfold create_bedrock_prompt; cbv zeta; simpl py_dict_get;
     rewrite prompts_lookup; reflexivity|].
  destruct (decide ("quick_summary" = s)) as [<-|H3];
    [exists quick_summary_head, quick_summary_tail; split; [set_solver|];
     intros data; unfold create_bedrock_prompt; cbv zeta; simpl py_dict_get;
     rewrite prompts_lookup; reflexivity|].
  destruct (decide ("at_risk_students" = s)) as [<-|H4];
    [exists at_risk_students_head, at_risk_students_tail; split; [set_solver|];
     intros data; unfold create_bedrock_prompt; cbv zeta; simpl py_dict_get;
     rewrite prompts_lookup; reflexivity|].
  destruct (decide ("predictive" = s)) as [<-|H5];
    [exists predictive_head, predictive_tail; split; [set_solver|];
     intros data; unfold create_bedrock_prompt; cbv zeta; simpl py_dict_get;
     rewrite prompts_lookup; reflexivity|].
  exists comprehensive_head, comprehensive_tail. split; [set_solver|].
  intros data. unfold create_bedrock_prompt. cbv zeta. simpl py_dict_get.
  rewrite prompts_lookup, prompts_comprehensive.
  repeat (rewrite decide_False by assumption). reflexivity.
Qed.

(** X21: the prompt loses nothing of the data.  [json.dumps] with
    [indent=2] writes different datasets differently, whatever their
    strings and numbers hold (quotes, line breaks, signs), and every
    template keeps the serialisation whole: for each analysis type two
    prompts are the same only when they were built from the same rows, cell
    by cell. *)
Theorem prompts_tell_datasets_apart (d1 d2 : list row) (analysis_type : pyval) :
  (json_dumps_indent2 d1 = json_dumps_indent2 d2 -> d1 = d2)
  /\ (create_bedrock_prompt d1 analysis_type = create_bedrock_prompt d2 analysis_type ->
      d1 = d2).
Proof.
  split.
  - intros H.
    apply (f_equal (fun s => s +:+ EmptyString)) in H.
    apply json_dumps_indent2_cancel in H as [-> _]. reflexivity.
  - destruct (create_bedrock_prompt_template analysis_type) as (head & tail & _ & Hshape).
    rewrite !Hshape. apply fill_inj.
Qed.

